(** * fastrec / subshot: a shallow embedding of the pipeline and capture code

    The development follows the two Python sources:

    - [subshot.py]: [sanitize_filename], [normalize_url], [load_list],
      [take_screenshot], [process_subdomains], [check_playwright] and
      [run_cli_mode];
    - [fastrec.py]: [run_command], [run_piped_command],
      [run_parallel_commands], [check_subshot_available], [run_subshot],
      [check_dependencies], [get_user_input], [create_target_directory],
      [uninstall_tools] and [run_recon] up to its completion banner.

    Conventions.

    - A Python [str] is a [string]; a character is the code point of the
      same number, so the strings covered are those whose code points are
      below 256.  Whitespace ([str.strip], the regular expression class
      [\s]) and [str.lower] are written out for that range.
    - Everything the code asks of the outside world (the browser session,
      the processes it launches, the files it probes) is answered by an
      oracle that is a parameter of the model; the code's own control flow
      is what is embedded.
    - [try]/[except] is modelled with an explicit result type: a
      computation either returns a value or raises.  What can raise is
      what talks to the machine: launching a process, reading its output,
      opening, writing and closing a file; printing does not. *)

From Stdlib Require Import String Ascii List Bool Arith ZArith Lia DecimalString.
Import ListNotations.

Local Open Scope string_scope.
Local Open Scope bool_scope.

(* ===================================================================== *)
(** * Python string primitives                                            *)
(* ===================================================================== *)

Module PyStr.

(** [str.isspace] for one character, on code points below 256: the
    characters U+0009..U+000D, U+001C..U+001F, U+0020, U+0085 and U+00A0.
    The regular expression class [\s] for [str] patterns is the same set. *)
Definition isspace (c : ascii) : bool :=
  let n := nat_of_ascii c in
  ((9 <=? n)%nat && (n <=? 13)%nat) || ((28 <=? n)%nat && (n <=? 31)%nat)
  || (n =? 32)%nat || (n =? 133)%nat || (n =? 160)%nat.

(** Membership of a character in a string, as in [c in chars]. *)
Fixpoint mem (c : ascii) (chars : string) : bool :=
  match chars with
  | EmptyString => false
  | String d rest => Ascii.eqb c d || mem c rest
  end.

(** [s.lstrip] for a character predicate. *)
Fixpoint lstrip (p : ascii -> bool) (s : string) : string :=
  match s with
  | EmptyString => EmptyString
  | String c t => if p c then lstrip p t else s
  end.

(** [s.rstrip] for a character predicate. *)
Fixpoint rstrip (p : ascii -> bool) (s : string) : string :=
  match s with
  | EmptyString => EmptyString
  | String c t =>
      match rstrip p t with
      | EmptyString => if p c then EmptyString else String c EmptyString
      | t' => String c t'
      end
  end.

(** [s.strip()] and [s.strip(chars)]. *)
Definition strip_with (p : ascii -> bool) (s : string) : string :=
  rstrip p (lstrip p s).

Definition strip (s : string) : string := strip_with isspace s.

Definition strip_chars (chars : string) (s : string) : string :=
  strip_with (fun c => mem c chars) s.

(** [s.startswith(p)]. *)
Definition startswith (s p : string) : bool := String.prefix p s.

(** [needle in s]. *)
Fixpoint contains (needle s : string) : bool :=
  String.prefix needle s
  || match s with
     | EmptyString => false
     | String _ t => contains needle t
     end.

(** [s.replace(old, new)]: the occurrences of [old] are found from left to
    right and do not overlap.  [skip] counts the characters of a match that
    are still to be dropped. *)
Fixpoint replace_from (old new : string) (skip : nat) (s : string) : string :=
  match s with
  | EmptyString => EmptyString
  | String c t =>
      match skip with
      | S k => replace_from old new k t
      | O =>
          if String.prefix old s
          then new ++ replace_from old new (String.length old - 1) t
          else String c (replace_from old new 0 t)
      end
  end.

(** With an empty [old], Python puts [new] before every character and at
    the end. *)
Fixpoint intersperse (new s : string) : string :=
  match s with
  | EmptyString => new
  | String c t => new ++ String c (intersperse new t)
  end.

Definition replace (old new s : string) : string :=
  match old with
  | EmptyString => intersperse new s
  | _ => replace_from old new 0 s
  end.

(** A character-wise substitution: [re.sub] with a one-character class as
    its pattern and a one-character replacement. *)
Fixpoint sub_class (cls : ascii -> bool) (by_ : ascii) (s : string) : string :=
  match s with
  | EmptyString => EmptyString
  | String c t => String (if cls c then by_ else c) (sub_class cls by_ t)
  end.

(** [str.lower] on code points below 256: A..Z and U+00C0..U+00DE, the
    multiplication sign U+00D7 left alone, move up by 32. *)
Definition lower_char (c : ascii) : ascii :=
  let n := nat_of_ascii c in
  if ((65 <=? n)%nat && (n <=? 90)%nat)
     || ((192 <=? n)%nat && (n <=? 222)%nat && negb (n =? 215)%nat)
  then ascii_of_nat (n + 32) else c.

Fixpoint lower (s : string) : string :=
  match s with
  | EmptyString => EmptyString
  | String c t => String (lower_char c) (lower t)
  end.

(** What [needle in s] asks: [needle] stands somewhere in [s]. *)
Definition occurs_in (needle s : string) : Prop :=
  exists pre post, s = pre ++ needle ++ post.

(** [needle], given in small letters, stands somewhere in [s] in some
    letter case: what [needle in s.lower()] asks. *)
Definition occurs_in_any_case (needle s : string) : Prop :=
  exists u, lower u = needle /\ occurs_in u s.

(** The slice [s[:n]]. *)
Fixpoint take (n : nat) (s : string) : string :=
  match n, s with
  | S k, String c t => String c (take k t)
  | _, _ => EmptyString
  end.

(** The last character, when there is one. *)
Fixpoint last_char (s : string) : option ascii :=
  match s with
  | EmptyString => None
  | String c EmptyString => Some c
  | String _ t => last_char t
  end.

Definition first_char (s : string) : option ascii :=
  match s with
  | EmptyString => None
  | String c _ => Some c
  end.

(** Every character of a string passes a test. *)
Fixpoint all_chars (q : ascii -> bool) (s : string) : bool :=
  match s with
  | EmptyString => true
  | String c t => q c && all_chars q t
  end.

(** The first, respectively last, character fails the test [p], or there
    is none. *)
Definition first_not (p : ascii -> bool) (s : string) : Prop :=
  match first_char s with Some c => p c = false | None => True end.

Definition last_not (p : ascii -> bool) (s : string) : Prop :=
  match last_char s with Some c => p c = false | None => True end.

(** The line feed that [print] ends a line with. *)
Definition nl : string := String (ascii_of_nat 10) EmptyString.

End PyStr.

(* ===================================================================== *)
(** * subshot.py: file names and URLs                                     *)
(* ===================================================================== *)

Module Subshot.
Import PyStr.

(** The character class of the substitution in [sanitize_filename]: the
    characters less-than, greater-than, colon, double quote (code 34),
    slash, backslash, vertical bar, question mark, star, and whitespace. *)
Definition invalid_filename_char (c : ascii) : bool :=
  mem c "<>:/\|?*" || Ascii.eqb c (ascii_of_nat 34) || isspace c.

(** [sanitize_filename(domain)]. *)
Definition sanitize_filename (domain : string) : string :=
  let clean := replace "http://" "" (replace "https://" "" domain) in
  let clean := sub_class invalid_filename_char "-"%char clean in
  strip_chars ".-" clean.

(** The test [s.startswith(('http://', 'https://'))]. *)
Definition has_scheme (s : string) : bool :=
  startswith s "http://" || startswith s "https://".

(** [normalize_url(subdomain)]. *)
Definition normalize_url (subdomain : string) : string :=
  let subdomain := strip subdomain in
  if negb (has_scheme subdomain)
  then "https://" ++ subdomain
  else subdomain.


(** A line is blank when all its characters are whitespace. *)
Definition is_blank (line : string) : bool := all_chars isspace line.

Definition count_nonblank (lines : list string) : nat :=
  length (filter (fun line => negb (is_blank line)) lines).

(** [load_list(filepath)].  The file is given by what opening and reading
    it yields; a failure prints a message and leaves through
    [sys.exit(1)]. *)
Inductive read_result :=
| ReadLines (lines : list string)
| ReadNotFound
| ReadFailed (text : string).

Inductive load_result :=
| Loaded (subdomains : list string)
| SysExit (code : Z) (message : string).

(** Truth value of a [str]: the empty string is false. *)
Definition truthy (s : string) : bool :=
  match s with EmptyString => false | _ => true end.

(** The comprehension [[line.strip() for line in f if line.strip()]]. *)
Definition stripped_lines (lines : list string) : list string :=
  map strip (filter (fun line => truthy (strip line)) lines).

Definition load_list (filepath : string) (f : read_result) : load_result :=
  match f with
  | ReadLines lines => Loaded (stripped_lines lines)
  | ReadNotFound => SysExit 1 ("[!] Error: File not found: " ++ filepath)
  | ReadFailed e => SysExit 1 ("[!] Error reading file: " ++ e)
  end.

(** ** The browser session of one attempt *)

(** The exceptions the capture code tells apart: Playwright's
    [TimeoutError], caught first, and any other [Exception]; both carry
    their text, [str(e)]. *)
Inductive exn :=
| PlaywrightTimeout (text : string)
| OtherError (text : string).

(** What an image file at some path holds. *)
Inductive image := CompleteImage | PartialImage.

(** What the call [page.screenshot(path=output_path, ...)] of line 280 did:
    it returned, the image written, or it raised, having written nothing
    or a part of the file. *)
Inductive left_behind := NothingWritten | PartWritten.

Inductive save_result :=
| SaveDone
| SaveRaised (e : exn) (l : left_behind).

(** One fresh browser session, as the body of the [try] meets it: the calls
    before the save (lines 266-277: entering [sync_playwright], launch,
    context, page, [set_default_timeout], [goto]) raise or not, then the
    save, then the calls after it (line 283, [browser.close()], and leaving
    the [with] block) raise or not. *)
Record session := mkSession {
  before_save : option exn;
  save : save_result;
  after_save : option exn
}.

(** The exception with which the body of the [try] ends in a session, or
    [None] when it reaches its [return]. *)
Definition outcome_of (s : session) : option exn :=
  match before_save s with
  | Some e => Some e
  | None =>
      match save s with
      | SaveRaised e _ => Some e
      | SaveDone => after_save s
      end
  end.

(** The save of a session is all or nothing: it does not raise with a part
    of the file written. *)
Definition all_or_nothing (s : session) : bool :=
  match save s with
  | SaveRaised _ PartWritten => false
  | _ => true
  end.

(** The files under the output directory, most recent write first. *)
Definition files := list (string * image).

Fixpoint file_at (path : string) (fs : files) : option image :=
  match fs with
  | [] => None
  | (p, img) :: rest => if String.eqb p path then Some img else file_at path rest
  end.

(** The world of a batch run: the browser sessions opened so far (URL,
    output path, timeout in milliseconds), the image files, and what was
    printed. *)
Record World := mkWorld {
  opened : list (string * string * Z);
  disk : files;
  console : list string
}.

Definition open_session (url output_path : string) (timeout : Z) (w : World) : World :=
  mkWorld (opened w ++ [(url, output_path, timeout)]) (disk w) (console w).

Definition write_image (path : string) (img : image) (w : World) : World :=
  mkWorld (opened w) ((path, img) :: disk w) (console w).

(** [print(text, end=e)] and [print(text)]: the characters written. *)
Definition print_end (text e : string) (w : World) : World :=
  mkWorld (opened w) (disk w) (console w ++ [(text ++ e)%string])%list.

Definition print (text : string) (w : World) : World := print_end text nl w.

(** The state of the [while] loop of [take_screenshot]. *)
Record loop_state := mkLoop {
  attempt : Z;
  last_error : option string
}.

Section Capture.

(** The browser layer: the session that the [n]-th launch of the run opens
    for a URL, an output path and a timeout. *)
Variable browser : nat -> string -> string -> Z -> session.

(** The text of [timeout/1000], a float, as an f-string renders it. *)
Variable seconds_text : Z -> string.

(** The text of [output_dir / filename] for a [Path] of the given text. *)
Variable path_join : string -> string -> string.

(** Lines 287-301: the reason kept for an exception. *)
Definition classify (timeout : Z) (e : exn) : string :=
  match e with
  | PlaywrightTimeout _ => "Timeout after " ++ seconds_text timeout ++ "s"
  | OtherError error_str =>
      if contains "net::ERR_NAME_NOT_RESOLVED" error_str then
        "DNS resolution failed"
      else if contains "net::ERR_CONNECTION_REFUSED" error_str then
        "Connection refused"
      else if contains "net::ERR_CONNECTION_TIMED_OUT" error_str then
        "Connection timed out"
      else if contains "SSL" error_str
              || contains "certificate" (lower error_str) then
        "SSL/Certificate error"
      else take 100 error_str
  end.

(** Lines 266-285: the body of the [try].  [None] is the [return (True,
    None)] of line 285, [Some e] an exception on its way to the handlers. *)
Definition try_body (url output_path : string) (timeout : Z) (w : World)
  : option exn * World :=
  let s := browser (length (opened w)) url output_path timeout in
  let w := open_session url output_path timeout w in
  match before_save s with
  | Some e => (Some e, w)
  | None =>
      match save s with
      | SaveRaised e NothingWritten => (Some e, w)
      | SaveRaised e PartWritten => (Some e, write_image output_path PartialImage w)
      | SaveDone =>
          let w := write_image output_path CompleteImage w in
          match after_save s with
          | Some e => (Some e, w)
          | None => (None, w)
          end
      end
  end.

(** The outcome of the [j]-th session opened from the world [w] on. *)
Definition nth_outcome (url output_path : string) (timeout : Z) (w : World)
    (j : nat) : option exn :=
  outcome_of (browser (length (opened w) + j) url output_path timeout).

(** Lines 263-306: the loop.  [fuel] bounds the number of iterations; the
    result is [None] only when it runs out. *)
Fixpoint take_screenshot_loop (fuel : nat) (url output_path : string)
    (retries timeout : Z) (st : loop_state) (w : World)
  : option ((bool * option string) * World) :=
  if (attempt st <? retries)%Z then
    match fuel with
    | O => None
    | S fuel' =>
        (* attempt += 1; the [continue] of line 304 changes nothing *)
        let attempt' := (attempt st + 1)%Z in
        match try_body url output_path timeout w with
        | (None, w') => Some ((true, None), w')
        | (Some e, w') =>
            take_screenshot_loop fuel' url output_path retries timeout
              (mkLoop attempt' (Some (classify timeout e))) w'
        end
    end
  else Some ((false, last_error st), w).

(** [take_screenshot(url, output_path, retries, timeout)]. *)
Definition take_screenshot (url output_path : string) (retries timeout : Z)
    (w : World) : option ((bool * option string) * World) :=
  take_screenshot_loop (Z.to_nat retries) url output_path retries timeout
    (mkLoop 0 None) w.

(** What a run of the loop amounts to, from a state [st] in a world [w]:
    [k] sessions were opened, all but possibly the last raised, and either
    the last returned, or all the iterations left were used up. *)
Definition loop_post (url path : string) (retries timeout : Z)
    (st : loop_state) (w : World) (k : nat) (b : bool) (e : option string)
    (w' : World) : Prop :=
  opened w' = (opened w ++ repeat (url, path, timeout) k)%list
  /\ console w' = console w
  /\ (k <= Z.to_nat (retries - attempt st))%nat
  /\ (forall j, (S j < k)%nat -> nth_outcome url path timeout w j <> None)
  /\ ((b = true /\ e = None /\ exists j, k = S j
                            /\ nth_outcome url path timeout w j = None)
      \/ (b = false /\ k = Z.to_nat (retries - attempt st)
          /\ (forall j, (j < k)%nat -> nth_outcome url path timeout w j <> None)
          /\ e = match k with
                 | O => last_error st
                 | S j => option_map (classify timeout)
                            (nth_outcome url path timeout w j)
                 end)).

(** Decimal text of a number, as an f-string renders an [int]. *)
Definition str_of_nat (n : nat) : string :=
  NilZero.string_of_uint (Nat.to_uint n).

(** Text of a reason inside an f-string: [None] prints as its name. *)
Definition str_of_reason (e : option string) : string :=
  match e with Some s => s | None => "None" end.

(** Lines 324-344: the [for] loop, at entry number [i] of [total], the
    entries from there on being [rest]. *)
Fixpoint process_loop (total i : nat) (rest : list string)
    (output_dir : string) (timeout : Z) (success_count fail_count : Z)
    (w : World) : option ((Z * Z) * World) :=
  match rest with
  | [] => Some ((success_count, fail_count), w)
  | subdomain :: rest' =>
      let url := normalize_url subdomain in
      let filename := sanitize_filename subdomain ++ ".png" in
      let output_path := path_join output_dir filename in
      let w := print_end ("    [" ++ str_of_nat i ++ "/" ++ str_of_nat total
                          ++ "] " ++ subdomain) " ... " w in
      match take_screenshot url output_path 2 (timeout * 1000)%Z w with
      | None => None
      | Some ((true, _), w) =>
          process_loop total (S i) rest' output_dir timeout
            (success_count + 1)%Z fail_count (print "OK" w)
      | Some ((false, error), w) =>
          process_loop total (S i) rest' output_dir timeout
            success_count (fail_count + 1)%Z
            (print ("FAIL (" ++ str_of_reason error ++ ")") w)
      end
  end.

(** The sessions that a batch opens when entry number [n] of [entries] is
    tried [k] times, [k] being the [n]-th number of [tries]. *)
Fixpoint sessions_of (output_dir : string) (timeout : Z)
    (entries : list string) (tries : list nat) : list (string * string * Z) :=
  match entries, tries with
  | subdomain :: entries', k :: tries' =>
      (repeat (normalize_url subdomain,
               path_join output_dir (sanitize_filename subdomain ++ ".png"),
               (timeout * 1000)%Z) k
       ++ sessions_of output_dir timeout entries' tries')%list
  | _, _ => []
  end.

(** [process_subdomains(subdomains, output_dir, timeout)]. *)
Definition process_subdomains (subdomains : list string) (output_dir : string)
    (timeout : Z) (w : World) : option ((Z * Z) * World) :=
  process_loop (length subdomains) 1 subdomains output_dir timeout 0 0 w.

End Capture.

(** ** The text of the timeout *)

(** The three decimals [frac] of a number, [0 <= frac < 1000], without
    the zeros at their end; one decimal at least is written. *)
Definition decimals (frac : Z) : string :=
  let d1 := NilZero.string_of_int (Z.to_int (frac / 100)) in
  let d2 := NilZero.string_of_int (Z.to_int ((frac / 10) mod 10)) in
  let d3 := NilZero.string_of_int (Z.to_int (frac mod 10)) in
  if (frac mod 10 =? 0)%Z then
    if ((frac / 10) mod 10 =? 0)%Z then d1 else d1 ++ d2
  else d1 ++ d2 ++ d3.

(** The text of [timeout/1000] in the f-string of line 288, for an [int]
    of less than 10^15 in size.  The quotient has at most fifteen digits,
    three of them decimals; the float nearest to it prints as these very
    digits, without exponent; a whole number prints with [.0]. *)
Definition float_seconds_text (timeout : Z) : string :=
  let a := Z.abs timeout in
  (if (timeout <? 0)%Z then "-" else "")
  ++ NilZero.string_of_int (Z.to_int (a / 1000)) ++ "." ++ decimals (a mod 1000).

(** ** Sample renderings and browsers *)

(** The text of [timeout/1000] when [timeout] is a whole number of seconds
    below 10^16 in size, as [process_subdomains] passes it: the float
    prints with one zero after the point. *)
Definition whole_seconds_text (timeout : Z) : string :=
  NilZero.string_of_int (Z.to_int (timeout / 1000)) ++ ".0".

(** [output_dir / filename] for a directory given by a plain relative or
    absolute path without a trailing slash. *)
Definition slash_join (output_dir filename : string) : string :=
  output_dir ++ "/" ++ filename.

(** The sessions for [https://b.example.com] time out, the others save
    the image. *)
Definition b_times_out (n : nat) (url path : string) (timeout : Z) : session :=
  if String.eqb url "https://b.example.com"
  then mkSession (Some (PlaywrightTimeout "Timeout 30000ms exceeded.")) SaveDone None
  else mkSession None SaveDone None.


(** The first session times out, the later ones save the image. *)
Definition second_try (n : nat) (url path : string) (timeout : Z) : session :=
  match n with
  | O => mkSession (Some (PlaywrightTimeout "Timeout 30000ms exceeded.")) SaveDone None
  | _ => mkSession None SaveDone None
  end.

(** Every session raises, before the save, an exception without text. *)
Definition empty_error (n : nat) (url path : string) (timeout : Z) : session :=
  mkSession (Some (OtherError EmptyString)) SaveDone None.

(** Every session reaches the save, which raises with a part of the file
    written. *)
Definition broken_save (n : nat) (url path : string) (timeout : Z) : session :=
  mkSession None
    (SaveRaised (OtherError "[Errno 28] No space left on device") PartWritten)
    None.

(** Every session saves the image and raises when the browser is closed. *)
Definition close_fails (n : nat) (url path : string) (timeout : Z) : session :=
  mkSession None SaveDone (Some (OtherError "Target closed")).

End Subshot.

(* ===================================================================== *)
(** * fastrec.py: processes and the pipeline                              *)
(* ===================================================================== *)

Module Fastrec.
Import PyStr.

(** Line 19: the configured scan-template path, as the source ships it. *)
Definition NUCLEI_TEMPLATES_PATH : string :=
  "/path/nuclei-templates/http/exposures/".

(** ** Text *)

Definition dquote : string := String (ascii_of_nat 34) EmptyString.

(** The check mark U+2713, as the terminal receives it (UTF-8). *)
Definition check_mark : string :=
  String (ascii_of_nat 226) (String (ascii_of_nat 156)
    (String (ascii_of_nat 147) EmptyString)).

(** [s * n]. *)
Fixpoint repeat_str (s : string) (n : nat) : string :=
  match n with
  | O => EmptyString
  | S k => s ++ repeat_str s k
  end.

(** Decimal text of an [int]. *)
Definition str_of_Z (z : Z) : string :=
  NilZero.string_of_int (Z.to_int z).

(** Truth value of an optional string: [None] and the empty string are
    false. *)
Definition truthy (s : option string) : bool :=
  match s with
  | None | Some EmptyString => false
  | Some _ => true
  end.

(** [os.path.join(a, b)] on a POSIX system. *)
Definition os_path_join (a b : string) : string :=
  if startswith b "/" then b
  else match last_char a with
       | None => b
       | Some c => if Ascii.eqb c "/"%char then a ++ b else a ++ "/" ++ b
       end.

(** ** The outside world *)

(** A computation returns a value or raises an [Exception] with a text. *)
Inductive result (A : Type) :=
| Ok (a : A)
| Raise (text : string).
Arguments Ok {A} a.
Arguments Raise {A} text.

(** The files of the machine: a path and the lines it holds, each with its
    line end; the most recent write first. *)
Definition FS := list (string * list string).

Fixpoint lookup (path : string) (fs : FS) : option (list string) :=
  match fs with
  | [] => None
  | (p, content) :: rest =>
      if String.eqb p path then Some content else lookup path rest
  end.

Definition size_of (content : list string) : Z :=
  fold_right (fun line acc => (Z.of_nat (String.length line) + acc)%Z) 0%Z content.

(** The lines that the file at [path] holds; none when there is no such
    file. *)
Definition held (path : string) (f : FS) : list string :=
  match lookup path f with Some content => content | None => [] end.

(** A process that was launched.  [stdout] is what the loop over
    [process.stdout] is handed, line by line: the combined output read as
    text, that is decoded, with every line end turned into a line feed.
    [broken] is the text of the exception with which the reading, or the
    [process.wait()] after it, ends, if one of them raises: output that
    cannot be decoded, say; the lines of [stdout] are those handed over
    before.  Then the exit status, and the files as the process leaves
    them. *)
Record process := mkProcess {
  stdout : list string;
  broken : option string;
  returncode : Z;
  fs_after : FS
}.

Inductive popen_result :=
| Started (p : process)
| PopenRaised (text : string).

(** How a call of [subprocess.Popen] ended: the process started, and
    leaves with an exit status, or the call itself raised. *)
Inductive ending :=
| Exited (code : Z)
| LaunchFailed (text : string).

(** What the machine answers.  [popen n command cwd fs] is the [n]-th call
    of [subprocess.Popen] of the run; [open_w path] is [None] when
    [open(path, 'w')] succeeds and the text of the exception otherwise;
    [write_error path n] is the text of the exception that a write to the
    file opened at [path] raises when the file holds [n] lines, if it
    raises; [close_error path] is the text of the exception that the first
    [close()] of the file opened at [path] raises, if it raises (what was
    written is flushed then; the file is closed all the same, and a second
    [close()] does nothing); [which] is [shutil.which]; [script_dir] is the
    directory of the script; [find_spec_playwright] is the test [spec is
    not None] of [importlib.util.find_spec("playwright")], or the exception
    it raised. *)
Record Env := mkEnv {
  popen : nat -> string -> option string -> FS -> popen_result;
  open_w : string -> option string;
  write_error : string -> nat -> option string;
  close_error : string -> option string;
  which : string -> option string;
  script_dir : string;
  find_spec_playwright : result bool
}.

(** The state of a run: what was printed, the files, and the commands
    handed to [subprocess.Popen], in order, each with its working
    directory and how it ended. *)
Record World := mkWorld {
  console : list string;
  fs : FS;
  launched : list (string * option string * ending)
}.

(** ** A state and exception monad *)


Definition M (A : Type) : Type := World -> result A * World.

Definition ret {A : Type} (a : A) : M A := fun w => (Ok a, w).

Definition bind {A B : Type} (c : M A) (k : A -> M B) : M B :=
  fun w =>
    match c w with
    | (Ok a, w') => k a w'
    | (Raise e, w') => (Raise e, w')
    end.

Definition raise {A : Type} (e : string) : M A := fun w => (Raise e, w).

(** [try: c except Exception as e: h e]. *)
Definition try_except {A : Type} (c : M A) (h : string -> M A) : M A :=
  fun w =>
    match c w with
    | (Ok a, w') => (Ok a, w')
    | (Raise e, w') => h e w'
    end.

Declare Scope py_scope.
Delimit Scope py_scope with py.
Notation "x <- c ;; k" := (bind c (fun x => k))
  (at level 61, c at next level, right associativity) : py_scope.
Notation "c ;; k" := (bind c (fun _ => k))
  (at level 61, right associativity) : py_scope.
Local Open Scope py_scope.

(** A [try] whose handler reads a local variable that the first statement
    of the body assigns: [l = init; try: l = c1; c2 l; except Exception as
    e: h l e]. *)
Definition try_except_local {L A : Type} (init : L) (c1 : M L)
    (c2 : L -> M A) (h : L -> string -> M A) : M A :=
  fun w =>
    match c1 w with
    | (Raise e, w1) => h init e w1
    | (Ok l, w1) => try_except (c2 l) (h l) w1
    end.

(** [print(text, end=e)] and [print(text)]; writing to the terminal does
    not raise. *)
Definition print_end (text e : string) : M unit :=
  fun w => (Ok tt, mkWorld (console w ++ [(text ++ e)%string])%list (fs w) (launched w)).

Definition print (text : string) : M unit := print_end text nl.

(** [for x in xs: body x]. *)
Fixpoint for_each {A : Type} (xs : list A) (body : A -> M unit) : M unit :=
  match xs with
  | [] => ret tt
  | x :: rest => body x ;; for_each rest body
  end.

(** [os.path.exists(path)] and [os.path.getsize(path)]. *)
Definition os_path_exists (path : string) : M bool :=
  fun w => (Ok (match lookup path (fs w) with Some _ => true | None => false end), w).

Definition os_path_getsize (path : string) : M Z :=
  fun w =>
    match lookup path (fs w) with
    | Some content => (Ok (size_of content), w)
    | None => (Raise ("[Errno 2] No such file or directory: " ++ path), w)
    end.

(** [open(path, 'w')]: the file is created or emptied. *)
Definition open_write (env : Env) (path : string) : M string :=
  fun w =>
    match open_w env path with
    | Some text => (Raise text, w)
    | None => (Ok path, mkWorld (console w) ((path, []) :: fs w) (launched w))
    end.

(** [file_handle.write(line)]: the line is added to the file, unless the
    write raises. *)
Definition file_write (env : Env) (handle line : string) : M unit :=
  fun w =>
    let content := held handle (fs w) in
    match write_error env handle (length content) with
    | Some text => (Raise text, w)
    | None =>
        (Ok tt,
         mkWorld (console w) ((handle, (content ++ [line])%list) :: fs w)
           (launched w))
    end.

(** The first [file_handle.close()] of a handle, when there is one. *)
Definition file_close (env : Env) (file_handle : option string) : M unit :=
  match file_handle with
  | Some handle =>
      match close_error env handle with
      | Some text => raise text
      | None => ret tt
      end
  | None => ret tt
  end.

(** [subprocess.Popen(command, shell=True, ..., text=True, cwd=cwd)].  The
    process is followed to its end, so that its output and exit status
    are at hand. *)
Definition Popen (env : Env) (command : string) (cwd : option string) : M process :=
  fun w =>
    match popen env (length (launched w)) command cwd (fs w) with
    | PopenRaised text =>
        (Raise text,
         mkWorld (console w) (fs w)
           (launched w ++ [(command, cwd, LaunchFailed text)])%list)
    | Started p =>
        (Ok p,
         mkWorld (console w) (fs_after p)
           (launched w ++ [(command, cwd, Exited (returncode p))])%list)
    end.

(** [for line in process.stdout: body line], then [process.wait()]: the
    body is run on the lines one by one; then the exception with which the
    reading or the wait ends, if any, is raised. *)
Definition for_each_line (process : process) (body : string -> M unit)
  : M unit :=
  for_each (stdout process) body ;;
  match broken process with
  | Some text => raise text
  | None => ret tt
  end.

(** ** Process runners *)

(** [run_command(command, output_file, cwd)], lines 362-420.  The handler
    of line 416 reads [file_handle], which is [None] until [open]
    returned, and closes the file.  When it is the close of line 407 that
    raised, the file is closed by then: the handler prints, its own close
    does nothing, and the result is [False]. *)
Definition run_command (env : Env) (command : string)
    (output_file cwd : option string) : M bool :=
  print (nl ++ repeat_str "=" 70) ;;
  print ("[>] Running: " ++ command) ;;
  print (repeat_str "=" 70 ++ nl) ;;
  try_except_local None
    (* file_handle = None; if output_file: file_handle = open(...) *)
    (match output_file with
     | Some name =>
         if truthy output_file then
           let file_path :=
             match cwd with
             | Some d => if truthy cwd then os_path_join d name else name
             | None => name
             end in
           h <- open_write env file_path ;; ret (Some h)
         else ret None
     | None => ret None
     end)
    (fun file_handle =>
       process <- Popen env command cwd ;;
       for_each_line process (fun line =>
         print_end line "" ;;
         match file_handle with
         | Some h => file_write env h line
         | None => ret tt
         end) ;;
       (* if file_handle: file_handle.close() *)
       closing <- try_except (file_close env file_handle ;; ret None)
                    (fun e => ret (Some e)) ;;
       match closing with
       | Some e =>
           (* lines 416-420, the file being closed *)
           print (nl ++ "[!] Error running command: " ++ e) ;;
           ret false
       | None =>
           if negb (returncode process =? 0)%Z then
             print (nl ++ "[!] Command exited with code: "
                    ++ str_of_Z (returncode process)) ;;
             ret false
           else
             print (nl ++ "[" ++ check_mark ++ "] Command completed successfully.") ;;
             ret true
       end)
    (fun file_handle e =>
       print (nl ++ "[!] Error running command: " ++ e) ;;
       file_close env file_handle ;;
       ret false).

(** [run_piped_command(command, cwd)], lines 423-468: a non-zero exit
    status is reported and the call still returns [True]; an exception
    from the launch, the reading or the wait gives [False]. *)
Definition run_piped_command (env : Env) (command : string)
    (cwd : option string) : M bool :=
  print (nl ++ repeat_str "=" 70) ;;
  print ("[>] Running: " ++ command) ;;
  print (repeat_str "=" 70 ++ nl) ;;
  try_except
    (process <- Popen env command cwd ;;
     for_each_line process (fun line => print_end line "") ;;
     (if negb (returncode process =? 0)%Z then
        print (nl ++ "[!] Command exited with code: "
               ++ str_of_Z (returncode process))
      else ret tt) ;;
     print (nl ++ "[" ++ check_mark ++ "] Command completed.") ;;
     ret true)
    (fun e =>
       print (nl ++ "[!] Error running command: " ++ e) ;;
       ret false).

(** The function [run_cmd] that each thread of [run_parallel_commands]
    runs, lines 490-511. *)
Definition run_cmd (env : Env) (cwd : option string) (cmd label : string)
  : M unit :=
  try_except
    (process <- Popen env cmd cwd ;;
     for_each_line process (fun line =>
       print_end ("[" ++ label ++ "] " ++ line) "") ;;
     (* results[result_key] = True *)
     print (nl ++ "[" ++ check_mark ++ "] " ++ label ++ " completed."))
    (fun e =>
       print (nl ++ "[!] " ++ label ++ " error: " ++ e)).

(** [run_parallel_commands(cmd1, cmd2, label1, label2, cwd)], lines
    471-524.  Both threads are joined before the call goes on.  Of the
    interleavings of the two threads the model keeps one: the first
    thread runs to its end, then the second. *)
Definition run_parallel_commands (env : Env) (cmd1 cmd2 label1 label2 : string)
    (cwd : option string) : M unit :=
  print (nl ++ "[>] Starting " ++ label1 ++ " and " ++ label2
         ++ " in parallel..." ++ nl) ;;
  run_cmd env cwd cmd1 label1 ;;
  run_cmd env cwd cmd2 label2 ;;
  print (nl ++ "[" ++ check_mark ++ "] Both " ++ label1 ++ " and " ++ label2
         ++ " finished." ++ nl).

(** ** The snapshot stage *)

(** [check_subshot_available()], lines 156-179. *)
Definition check_subshot_available (env : Env) : M (option string) :=
  let subshot_py := os_path_join (script_dir env) "subshot.py" in
  found_py <- os_path_exists subshot_py ;;
  if found_py : bool then ret (Some subshot_py)
  else
    let subshot_no_ext := os_path_join (script_dir env) "subshot" in
    found_no_ext <- os_path_exists subshot_no_ext ;;
    if found_no_ext : bool then ret (Some subshot_no_ext)
    else
      let subshot_in_path := which env "subshot" in
      if truthy subshot_in_path then ret subshot_in_path
      else ret None.

(** [check_playwright_installed()], lines 182-192. *)
Definition check_playwright_installed (env : Env) : M bool :=
  try_except
    (match find_spec_playwright env with
     | Ok b => ret b
     | Raise e => raise e
     end)
    (fun _ => ret false).

(** [s.endswith(suffix)]. *)
Fixpoint endswith (s suffix : string) : bool :=
  String.eqb s suffix
  || match s with
     | EmptyString => false
     | String _ t => endswith t suffix
     end.

(** Lines 560-564: the command line for the subshot found at [path]. *)
Definition subshot_command (path : string) : string :=
  if endswith path ".py"
  then "python3 " ++ dquote ++ path ++ dquote
       ++ " -f alive_subs.txt -o screenshots"
  else dquote ++ path ++ dquote
       ++ " -f alive_subs.txt -o screenshots".

(** The browser automation layer is not there: no subshot next to the
    script or on the search path, or no Playwright package. *)
Definition subshot_missing (env : Env) (f : FS) : Prop :=
  lookup (os_path_join (script_dir env) "subshot.py") f = None
  /\ lookup (os_path_join (script_dir env) "subshot") f = None
  /\ truthy (which env "subshot") = false.

Definition playwright_missing (env : Env) : Prop :=
  find_spec_playwright env <> Ok true.

(** The list of alive hosts of a target directory is missing or empty. *)
Definition alive_list_missing_or_empty (target_dir : string) (f : FS) : Prop :=
  match lookup (os_path_join target_dir "alive_subs.txt") f with
  | None => True
  | Some content => size_of content = 0%Z
  end.

(** The conditions under which the snapshot stage is to be skipped. *)
Definition snapshot_skipped (env : Env) (target_dir : string) (f : FS) : Prop :=
  subshot_missing env f \/ playwright_missing env
  \/ alive_list_missing_or_empty target_dir f.

(** [run_subshot(target_dir)], lines 527-591. *)
Definition run_subshot (env : Env) (target_dir : string) : M bool :=
  subshot_path <- check_subshot_available env ;;
  if negb (truthy subshot_path) then
    print "[!] subshot not found. Skipping screenshots..." ;;
    print "[!] Install with: sudo python3 fastrec.py --install" ;;
    ret false
  else
    playwright <- check_playwright_installed env ;;
    if negb playwright then
      print "[!] Playwright not installed. Skipping screenshots..." ;;
      print "[!] Install with: pip install playwright && playwright install chromium" ;;
      ret false
    else
      let alive_subs_path := os_path_join target_dir "alive_subs.txt" in
      found <- os_path_exists alive_subs_path ;;
      if negb found then
        print "[!] alive_subs.txt not found. Skipping screenshots..." ;;
        ret false
      else
        size <- os_path_getsize alive_subs_path ;;
        if (size =? 0)%Z then
          print "[!] alive_subs.txt is empty. Skipping screenshots..." ;;
          ret false
        else
          let path := match subshot_path with Some p => p | None => "" end in
          let cmd := subshot_command path in
          print (nl ++ repeat_str "=" 70) ;;
          print "[>] Running: subshot -f alive_subs.txt -o screenshots" ;;
          print (repeat_str "=" 70 ++ nl) ;;
          try_except
            (process <- Popen env cmd (Some target_dir) ;;
             for_each_line process (fun line => print_end line "") ;;
             print (nl ++ "[" ++ check_mark ++ "] Screenshots completed.") ;;
             ret true)
            (fun e =>
               print (nl ++ "[!] Error running subshot: " ++ e) ;;
               ret false).

(** ** The pipeline *)

(** [run_recon()], lines 699-806: the workflow from its opening banner to
    the completion banner, for the target directory, the mode and the
    target that the prompts gave.  [nuclei_templates_path] is the value of
    the global [NUCLEI_TEMPLATES_PATH].  The listing of the generated files
    and the optional notification that follow (lines 808-852) are not part
    of the model. *)
Definition run_recon (env : Env) (nuclei_templates_path : string) (mode : Z)
    (target_input target_dir : string) : M unit :=
  let cwd := Some target_dir in
  print (nl ++ repeat_str "=" 70) ;;
  print " STARTING RECONNAISSANCE WORKFLOW" ;;
  print (repeat_str "=" 70) ;;
  (* STEP 1: Subfinder + httpx *)
  print (nl ++ nl ++ "[STEP 1/7] Running Subfinder + httpx") ;;
  print (repeat_str "-" 70) ;;
  let cmd :=
    if (mode =? 1)%Z
    then "subfinder -d " ++ target_input ++ " -all | httpx -o alive_subs.txt"
    else "subfinder -dL wildcards.txt -all | httpx -o alive_subs.txt" in
  run_piped_command env cmd cwd ;;
  let alive_subs_path := os_path_join target_dir "alive_subs.txt" in
  found <- os_path_exists alive_subs_path ;;
  nothing_alive <-
    (if negb found then ret true
     else size <- os_path_getsize alive_subs_path ;; ret (size =? 0)%Z) ;;
  (if nothing_alive : bool then
     print (nl ++ "[!] Warning: No alive subdomains found. Continuing anyway...")
   else ret tt) ;;
  (* STEP 2: Screenshots with SubShot *)
  print (nl ++ nl ++ "[STEP 2/7] Taking screenshots with SubShot") ;;
  print (repeat_str "-" 70) ;;
  run_subshot env target_dir ;;
  (* STEP 3: GAU and Katana (parallel) *)
  print (nl ++ nl ++ "[STEP 3/7] Running GAU and Katana (parallel)") ;;
  print (repeat_str "-" 70) ;;
  run_parallel_commands env
    "cat alive_subs.txt | gau --threads 5 >> gau.txt"
    "cat alive_subs.txt | katana -d 5 -silent >> katana.txt"
    "GAU" "Katana" cwd ;;
  (* STEP 4: Combine URLs *)
  print (nl ++ nl ++ "[STEP 4/7] Combining URLs") ;;
  print (repeat_str "-" 70) ;;
  run_piped_command env "cat katana.txt gau.txt | sort -u > allurls.txt" cwd ;;
  (* STEP 5: XSS patterns + kxss *)
  print (nl ++ nl ++ "[STEP 5/7] Extracting XSS patterns with gf and kxss") ;;
  print (repeat_str "-" 70) ;;
  run_piped_command env "cat allurls.txt | gf xss >> xss.txt" cwd ;;
  run_piped_command env "cat xss.txt | kxss >> kxss.txt" cwd ;;
  (* STEP 6: Extract JS URLs *)
  print (nl ++ nl ++ "[STEP 6/7] Extracting JavaScript URLs") ;;
  print (repeat_str "-" 70) ;;
  run_piped_command env "grep '\.js$' allurls.txt > alljs.txt" cwd ;;
  run_piped_command env "cat alljs.txt | httpx -o alive_js.txt" cwd ;;
  (* STEP 7: Apply Nuclei *)
  print (nl ++ nl ++ "[STEP 7/7] Running Nuclei scans") ;;
  print (repeat_str "-" 70) ;;
  (if contains "/path" nuclei_templates_path then
     print (nl ++ repeat_str "!" 70) ;;
     print "[!] WARNING: NUCLEI_TEMPLATES_PATH still contains '/path'!" ;;
     print "[!] Please update the path at the top of this script." ;;
     print "[!] Skipping nuclei scan..." ;;
     print (repeat_str "!" 70 ++ nl)
   else
     run_piped_command env
       ("cat alive_js.txt | nuclei -t " ++ nuclei_templates_path) cwd ;;
     ret tt) ;;
  (* COMPLETION *)
  print (nl ++ nl ++ repeat_str "=" 70) ;;
  print " RECONNAISSANCE COMPLETE" ;;
  print (repeat_str "=" 70) ;;
  print (nl ++ "[" ++ check_mark ++ "] All results saved in: " ++ target_dir) ;;
  print (nl ++ "[*] Generated files:").

(** ** Words for the statements about a run *)

(** Lines 382-384: the path of the file that [run_command] opens, if it
    opens one. *)
Definition output_path (output_file cwd : option string) : option string :=
  match output_file with
  | Some name =>
      if truthy output_file then
        Some (match cwd with
              | Some d => if truthy cwd then os_path_join d name else name
              | None => name
              end)
      else None
  | None => None
  end.

(** The writes of [lines], one by one, to the file of the handle, from
    the files [f] on, do not raise; without a handle nothing is written. *)
Definition writes_ok (env : Env) (file_handle : option string) (f : FS)
    (lines : list string) : Prop :=
  forall h i,
    file_handle = Some h -> (i < length lines)%nat ->
    write_error env h (length (held h f) + i) = None.

(** The close of the file of the handle does not raise. *)
Definition close_ok (env : Env) (file_handle : option string) : Prop :=
  forall h, file_handle = Some h -> close_error env h = None.

(** How the handler of [run_command], lines 416-420, ends when it is its
    close that closes the file: with [False], unless that close raises. *)
Definition after_handler (env : Env) (file_handle : option string)
  : result bool :=
  match file_handle with
  | Some h =>
      match close_error env h with
      | Some text => Raise text
      | None => Ok false
      end
  | None => Ok false
  end.

(** The command lines handed to [Popen] so far, in order. *)
Definition commands (w : World) : list string :=
  map (fun entry => fst (fst entry)) (launched w).

(** A list ends with another. *)
Definition ends_with (l tail : list string) : Prop :=
  exists pre, l = (pre ++ tail)%list.

(** The files after the [n]-th launch, of [command], from the files [f]: as
    the process leaves them, or as they were when the launch raises. *)
Definition fs_after_launch (env : Env) (n : nat) (command : string)
    (cwd : option string) (f : FS) : FS :=
  match popen env n command cwd f with
  | Started p => fs_after p
  | PopenRaised _ => f
  end.

(** Step 1: the discovery command of line 711 or 714. *)
Definition discovery_command (mode : Z) (target_input : string) : string :=
  if (mode =? 1)%Z
  then "subfinder -d " ++ target_input ++ " -all | httpx -o alive_subs.txt"
  else "subfinder -dL wildcards.txt -all | httpx -o alive_subs.txt".

(** The files that the snapshot stage of a run from [w] finds. *)
Definition fs_after_discovery (env : Env) (mode : Z)
    (target_input target_dir : string) (w : World) : FS :=
  fs_after_launch env (length (launched w))
    (discovery_command mode target_input) (Some target_dir) (fs w).

(** Steps 3 to 6: the commands of the stages after the snapshot, in the
    order of the source. *)
Definition later_commands : list string :=
  [ "cat alive_subs.txt | gau --threads 5 >> gau.txt";
    "cat alive_subs.txt | katana -d 5 -silent >> katana.txt";
    "cat katana.txt gau.txt | sort -u > allurls.txt";
    "cat allurls.txt | gf xss >> xss.txt";
    "cat xss.txt | kxss >> kxss.txt";
    "grep '\.js$' allurls.txt > alljs.txt";
    "cat alljs.txt | httpx -o alive_js.txt" ].

(** Step 7: the scanner command of line 796. *)
Definition nuclei_command (nuclei_templates_path : string) : string :=
  "cat alive_js.txt | nuclei -t " ++ nuclei_templates_path.

(** The characters that lines 790-794 write. *)
Definition nuclei_warning : list string :=
  [ (nl ++ repeat_str "!" 70) ++ nl;
    "[!] WARNING: NUCLEI_TEMPLATES_PATH still contains '/path'!" ++ nl;
    "[!] Please update the path at the top of this script." ++ nl;
    "[!] Skipping nuclei scan..." ++ nl;
    (repeat_str "!" 70 ++ nl) ++ nl ].

(** The characters that lines 802-806 write. *)
Definition completion_banner (target_dir : string) : list string :=
  [ (nl ++ nl ++ repeat_str "=" 70) ++ nl;
    " RECONNAISSANCE COMPLETE" ++ nl;
    repeat_str "=" 70 ++ nl;
    (nl ++ "[" ++ check_mark ++ "] All results saved in: " ++ target_dir) ++ nl;
    (nl ++ "[*] Generated files:") ++ nl ].

(** ** Sample machines *)

(** Every launch starts a process that prints nothing, leaves with
    status zero and touches no file; no subshot and no Playwright. *)
Definition bare_machine : Env :=
  mkEnv (fun _ _ _ f => Started (mkProcess [] None 0 f))
        (fun _ => None) (fun _ _ => None) (fun _ => None)
        (fun _ => None) "/opt/fastrec" (Ok false).

(** As [bare_machine], but every process leaves with status [code]. *)
Definition exit_machine (code : Z) : Env :=
  mkEnv (fun _ _ _ f => Started (mkProcess [] None code f))
        (fun _ => None) (fun _ _ => None) (fun _ => None)
        (fun _ => None) "/opt/fastrec" (Ok false).

(** No file can be opened for writing. *)
Definition read_only_machine : Env :=
  mkEnv (fun _ _ _ f => Started (mkProcess [] None 0 f))
        (fun _ => Some "[Errno 30] Read-only file system")
        (fun _ _ => None) (fun _ => None)
        (fun _ => None) "/opt/fastrec" (Ok false).

(** No command can be launched. *)
Definition dead_machine : Env :=
  mkEnv (fun _ _ _ _ => PopenRaised "[Errno 2] No such file or directory")
        (fun _ => None) (fun _ _ => None) (fun _ => None)
        (fun _ => None) "/opt/fastrec" (Ok false).



End Fastrec.

(* ===================================================================== *)
(** * Further sample machines                                             *)
(* ===================================================================== *)

Module Samples.
Import Fastrec.

(** Every launch starts a process that prints two lines, leaves with
    status zero and touches no file. *)
Definition chatty_machine : Env :=
  mkEnv (fun _ _ _ f =>
           Started (mkProcess [("a.example.com" ++ PyStr.nl)%string;
                               ("b.example.com" ++ PyStr.nl)%string] None 0 f))
        (fun _ => None) (fun _ _ => None) (fun _ => None)
        (fun _ => None) "/opt/fastrec" (Ok false).

(** As [Fastrec.bare_machine], with every tool found under [/usr/bin]. *)
Definition stocked_machine : Env :=
  mkEnv (fun _ _ _ f => Started (mkProcess [] None 0 f))
        (fun _ => None) (fun _ _ => None) (fun _ => None)
        (fun tool => Some ("/usr/bin/" ++ tool)%string)
        "/opt/fastrec" (Ok false).

End Samples.

(* ===================================================================== *)
(** * fastrec.py: the checks before a run                                 *)
(* ===================================================================== *)

Module FastrecFront.
Import PyStr Fastrec.
Local Open Scope py_scope.

(** The cross mark U+2717, as the terminal receives it (UTF-8). *)
Definition cross_mark : string :=
  String (ascii_of_nat 226) (String (ascii_of_nat 156)
    (String (ascii_of_nat 151) EmptyString)).

(** Line 27. *)
Definition INSTALL_DIR : string := "/usr/local/bin".

(** Lines 318-329: the tools a run cannot do without. *)
Definition dependencies : list string :=
  ["subfinder"; "httpx"; "gau"; "katana"; "gf"; "kxss"; "nuclei";
   "grep"; "sort"; "cat"].

(** [', '.join(xs)]. *)
Fixpoint join_comma (xs : list string) : string :=
  match xs with
  | [] => EmptyString
  | [x] => x
  | x :: rest => x ++ ", " ++ join_comma rest
  end.

(** The test [shutil.which(tool) is None]. *)
Definition not_found (env : Env) (tool : string) : bool :=
  match which env tool with
  | None => true
  | Some _ => false
  end.

(** [check_dependencies()], lines 312-359. *)
Definition check_dependencies (env : Env) : M bool :=
  (* for tool in dependencies: if shutil.which(tool) is None: missing.append(tool) *)
  let missing := filter (not_found env) dependencies in
  subshot_path <- check_subshot_available env ;;
  warnings <-
    (if truthy subshot_path then
       playwright <- check_playwright_installed env ;;
       ret (if negb playwright then ["playwright"] else [])
     else ret ["subshot"]) ;;
  match missing with
  | _ :: _ =>
      print (nl ++ "[!] Missing dependencies:") ;;
      for_each missing (fun tool =>
        print ("    [" ++ cross_mark ++ "] " ++ tool)) ;;
      print (nl ++ "[!] Please install the missing tools before running this script.") ;;
      ret false
  | [] =>
      match warnings with
      | _ :: _ =>
          print (nl ++ "[!] Optional: " ++ join_comma warnings
                 ++ " not available - screenshots will be skipped.") ;;
          ret true
      | [] => ret true
      end
  end.

(** [is_installed()], lines 195-198. *)
Definition is_installed (env : Env) : bool :=
  match which env "fastrec" with
  | Some fastrec_path => contains INSTALL_DIR fastrec_path
  | None => false
  end.

End FastrecFront.

(* ===================================================================== *)
(** * fastrec.py: prompts, directories and the start of a run             *)
(* ===================================================================== *)

Module FastrecShell.
Import PyStr Fastrec FastrecFront.

(** How a piece of the program ends: it goes on with a value, it leaves
    through [sys.exit(code)], or an [Exception] is on its way up. *)
Inductive outcome (A : Type) :=
| Done (a : A)
| Exit (code : Z)
| Error (text : string).
Arguments Done {A} a.
Arguments Exit {A} code.
Arguments Error {A} text.

(** The state of the program at a terminal: the world of the runners, the
    lines still to be typed (without their line end), and the directories
    that exist. *)
Record Shell := mkShell {
  world : World;
  stdin : list string;
  dirs : list string
}.

(** What the machine answers to the start of a run: the runners' machine,
    [os.getcwd()], [os.geteuid()], and for [os.makedirs(path)],
    [os.remove(path)] and [shutil.copy(src, dst)] the text of the exception
    they raise for reasons of the machine, if any. *)
Record Host := mkHost {
  env : Env;
  getcwd : string;
  geteuid : Z;
  makedirs_error : string -> option string;
  remove_error : string -> option string;
  copy_error : string -> string -> option string
}.

Definition P (A : Type) : Type := Shell -> outcome A * Shell.

Definition pret {A : Type} (a : A) : P A := fun s => (Done a, s).

Definition pbind {A B : Type} (c : P A) (k : A -> P B) : P B :=
  fun s =>
    match c s with
    | (Done a, s') => k a s'
    | (Exit code, s') => (Exit code, s')
    | (Error e, s') => (Error e, s')
    end.

Declare Scope shell_scope.
Delimit Scope shell_scope with shell.
Notation "x <- c ;; k" := (pbind c (fun x => k))
  (at level 61, c at next level, right associativity) : shell_scope.
Notation "c ;; k" := (pbind c (fun _ => k))
  (at level 61, right associativity) : shell_scope.
Local Open Scope shell_scope.

(** A computation of the runners, run at the terminal. *)
Definition lift {A : Type} (c : M A) : P A :=
  fun s =>
    match c (world s) with
    | (Ok a, w) => (Done a, mkShell w (stdin s) (dirs s))
    | (Raise e, w) => (Error e, mkShell w (stdin s) (dirs s))
    end.

(** [sys.exit(code)]. *)
Definition sys_exit {A : Type} (code : Z) : P A := fun s => (Exit code, s).

Definition say (text : string) : P unit := lift (print text).

(** [input(prompt)]: the prompt is written without a line end and the next
    line is read; at the end of the input [EOFError] is raised. *)
Definition input (prompt : string) : P string :=
  fun s =>
    let w := world s in
    let w' := mkWorld (console w ++ [prompt])%list (fs w) (launched w) in
    match stdin s with
    | line :: rest => (Done line, mkShell w' rest (dirs s))
    | [] => (Error "EOF when reading a line", mkShell w' [] (dirs s))
    end.

(** [os.path.isfile(path)] and [os.path.exists(path)]. *)
Definition isfile (path : string) (s : Shell) : bool :=
  match lookup path (fs (world s)) with Some _ => true | None => false end.

Definition path_exists (path : string) (s : Shell) : bool :=
  isfile path s || existsb (String.eqb path) (dirs s).

(** [get_user_input()], lines 594-642. *)
Definition get_user_input : P (string * Z * string) :=
  say (nl ++ repeat_str "=" 70) ;;
  say " TARGET CONFIGURATION" ;;
  say (repeat_str "=" 70 ++ nl) ;;
  line <- input "[?] Enter target name: " ;;
  let target_name := strip line in
  if negb (Subshot.truthy target_name) then
    say "[!] Error: Target name cannot be empty." ;; sys_exit 1
  else
    say (nl ++ "[?] Choose mode:") ;;
    say "    (1) Target domain" ;;
    say "    (2) Wildcard list (txt file path)" ;;
    line <- input (nl ++ "[?] Enter choice (1 or 2): ") ;;
    let mode := strip line in
    if negb (String.eqb mode "1" || String.eqb mode "2") then
      say "[!] Error: Invalid mode selection. Please enter 1 or 2." ;;
      sys_exit 1
    else
      (* mode = int(mode) *)
      let mode := if String.eqb mode "1" then 1%Z else 2%Z in
      if (mode =? 1)%Z then
        line <- input (nl ++ "[?] Enter target domain (e.g., example.com): ") ;;
        let target_input := strip line in
        if negb (Subshot.truthy target_input) then
          say "[!] Error: Domain cannot be empty." ;; sys_exit 1
        else pret (target_name, mode, target_input)
      else
        line <- input (nl ++ "[?] Enter path to wildcard list file: ") ;;
        let target_input := strip line in
        if negb (Subshot.truthy target_input) then
          say "[!] Error: File path cannot be empty." ;; sys_exit 1
        else
          fun s =>
            if negb (isfile target_input s) then
              (say ("[!] Error: File not found: " ++ target_input) ;; sys_exit 1) s
            else pret (target_name, mode, target_input) s.

(** [create_target_directory(target_name)], lines 645-667. *)
Definition create_target_directory (host : Host) (target_name : string)
  : P string :=
  let target_dir := os_path_join (getcwd host) target_name in
  fun s =>
    if path_exists target_dir s then
      (say (nl ++ "[!] Warning: Directory '" ++ target_name ++ "' already exists.") ;;
       line <- input "[?] Continue and potentially overwrite files? (y/n): " ;;
       let overwrite := lower (strip line) in
       if negb (String.eqb overwrite "y") then
         say "[!] Aborted by user." ;; sys_exit 0
       else pret target_dir) s
    else
      match makedirs_error host target_dir with
      | Some text => (Error text, s)
      | None =>
          (say (nl ++ "[" ++ check_mark ++ "] Created directory: " ++ target_dir) ;;
           pret target_dir)
            (mkShell (world s) (stdin s) (dirs s ++ [target_dir])%list)
      end.

(** [try: body except Exception as e: handler e]; [sys.exit] raises no
    [Exception] and passes through. *)
Definition ptry {A : Type} (body : P A) (handler : string -> P A) : P A :=
  fun s =>
    match body s with
    | (Error e, s') => handler e s'
    | other => other
    end.

(** [for x in xs: body x]. *)
Fixpoint pfor_each {A : Type} (xs : list A) (body : A -> P unit) : P unit :=
  match xs with
  | [] => pret tt
  | x :: rest => body x ;; pfor_each rest body
  end.

(** The files without the one at [path]. *)
Definition without (path : string) (f : FS) : FS :=
  filter (fun entry => negb (String.eqb (fst entry) path)) f.

(** [os.remove(path)]: the file goes, unless the machine refuses or the
    path is no file. *)
Definition os_remove (host : Host) (path : string) : P unit :=
  fun s =>
    match remove_error host path with
    | Some text => (Error text, s)
    | None =>
        if isfile path s then
          (Done tt,
           mkShell (mkWorld (console (world s)) (without path (fs (world s)))
                      (launched (world s)))
             (stdin s) (dirs s))
        else if existsb (String.eqb path) (dirs s) then
          (Error ("[Errno 21] Is a directory: '" ++ path ++ "'"), s)
        else
          (Error ("[Errno 2] No such file or directory: '" ++ path ++ "'"), s)
    end.

(** [Path(INSTALL_DIR) / tool], as text, for a plain file name. *)
Definition install_path (tool : string) : string := INSTALL_DIR ++ "/" ++ tool.

(** Lines 297-306: the body of the loop of [uninstall_tools]. *)
Definition uninstall_one (host : Host) (tool : string) : P unit :=
  let tool_path := install_path tool in
  fun s =>
    if path_exists tool_path s then
      (say ("[*] Removing " ++ tool_path ++ "...") ;;
       ptry (os_remove host tool_path ;;
             say ("    [" ++ check_mark ++ "] " ++ tool ++ " removed"))
            (fun e => say ("    [" ++ cross_mark ++ "] Failed to remove "
                           ++ tool ++ ": " ++ e))) s
    else say ("    [!] " ++ tool ++ " not found - skipping") s.

(** [uninstall_tools()], lines 278-309. *)
Definition uninstall_tools (host : Host) : P unit :=
  say (nl ++ repeat_str "=" 70) ;;
  say " UNINSTALLING FASTREC TOOLS" ;;
  say (repeat_str "=" 70 ++ nl) ;;
  if negb (geteuid host =? 0)%Z then
    say "[!] Error: Uninstallation requires root privileges." ;;
    say "[!] Please run with sudo:" ;;
    say "    sudo fastrec --uninstall" ;;
    sys_exit 1
  else
    pfor_each ["fastrec"; "subshot"] (uninstall_one host) ;;
    say (nl ++ "[" ++ check_mark ++ "] Uninstallation complete.") ;;
    sys_exit 0.

(** [os.path.basename(path)]: what follows the last slash. *)
Fixpoint basename (path : string) : string :=
  match path with
  | EmptyString => EmptyString
  | String ch rest =>
      if contains "/" rest then basename rest
      else if Ascii.eqb ch "/"%char then rest
      else path
  end.

(** Where [shutil.copy(src, dst)] writes: into [dst] when that is a
    directory, to [dst] otherwise. *)
Definition copy_target (src dst : string) (s : Shell) : string :=
  if existsb (String.eqb dst) (dirs s) then os_path_join dst (basename src)
  else dst.

(** [shutil.copy(src, dst)]: the target holds what the source holds; a
    source that is no file, or is the target itself, raises. *)
Definition shutil_copy (host : Host) (src dst : string) : P unit :=
  fun s =>
    let target := copy_target src dst s in
    match copy_error host src dst with
    | Some text => (Error text, s)
    | None =>
        match lookup src (fs (world s)) with
        | Some content =>
            if String.eqb src target then
              (Error ("'" ++ src ++ "' and '" ++ target ++ "' are the same file"), s)
            else
              (Done tt,
               mkShell (mkWorld (console (world s))
                          ((target, content) :: fs (world s))
                          (launched (world s)))
                 (stdin s) (dirs s))
        | None =>
            (Error ("[Errno 2] No such file or directory: '" ++ src ++ "'"), s)
        end
    end.

Section Start.

(** The texts of [print_banner], [print_install_instructions] and
    [print_warning], lines 87-143. *)
Variables banner instructions warning : string.

(** [run_recon()], lines 670-698: from the banner to the copy of the
    wildcard list.  The result is what the workflow of lines 699-806 is
    run with. *)
Definition run_recon_start (host : Host) : P (string * Z * string * string) :=
  say banner ;;
  (if negb (is_installed (env host)) then say instructions else pret tt) ;;
  say warning ;;
  ok <- lift (check_dependencies (env host)) ;;
  if negb ok then sys_exit 1
  else
    answers <- get_user_input ;;
    let '(target_name, mode, target_input) := answers in
    target_dir <- create_target_directory host target_name ;;
    (if (mode =? 2)%Z then
       let wildcard_dest := os_path_join target_dir "wildcards.txt" in
       shutil_copy host target_input wildcard_dest ;;
       say ("[" ++ check_mark ++ "] Copied wildcard list to: " ++ wildcard_dest)
     else pret tt) ;;
    pret (target_name, mode, target_input, target_dir).

End Start.

End FastrecShell.

(* ===================================================================== *)
(** * subshot.py: the command line mode                                   *)
(* ===================================================================== *)

Module SubshotCli.
Import PyStr Subshot.

(** How [run_cli_mode] ends: it returns, it leaves through
    [sys.exit(code)], or an [Exception] is on its way up. *)
Inductive outcome :=
| Returns
| Exits (code : Z)
| Raises (text : string).

(** What the machine answers: whether the import of Playwright at the top
    of the file went through, [os.path.exists(path)], what opening and
    reading a file yields, the text of the exception that
    [Path(path).mkdir(parents=True, exist_ok=True)] raises, if any, and
    the text of [Path(path).absolute()]. *)
Record Machine := mkMachine {
  PLAYWRIGHT_AVAILABLE : bool;
  os_path_exists : string -> bool;
  read : string -> read_result;
  mkdir_error : string -> option string;
  absolute : string -> string
}.

(** The state of a run from the command line: the world of the batch and
    the directories that [mkdir] was asked for and did not refuse. *)
Record Run := mkRun {
  world : World;
  mkdirs : list string
}.

(** Decimal text of an [int]. *)
Definition str_of_int (z : Z) : string := NilZero.string_of_int (Z.to_int z).

Section Cli.

Variable browser : nat -> string -> string -> Z -> session.
Variable seconds_text : Z -> string.
Variable path_join : string -> string -> string.
Variable machine : Machine.

(** [check_playwright()], lines 77-87. *)
Definition check_playwright (w : World) : outcome * World :=
  if negb (PLAYWRIGHT_AVAILABLE machine) then
    let w := print "[!] Error: Playwright is not installed." w in
    let w := print "[!] Install it with:" w in
    let w := print "    pip install playwright" w in
    let w := print "    playwright install chromium" w in
    (Exits 1, w)
  else (Returns, w).

(** [run_cli_mode(args)], lines 349-387, for [args.file], [args.output]
    and [args.timeout].  The result is [None] only when the batch runs out
    of iterations. *)
Definition run_cli_mode (filepath output : string) (timeout : Z) (r : Run)
  : option (outcome * Run) :=
  match check_playwright (world r) with
  | (Returns, w) =>
      if negb (os_path_exists machine filepath) then
        Some (Exits 1,
              mkRun (print ("[!] Error: File not found: " ++ filepath) w) (mkdirs r))
      else
        match mkdir_error machine output with
        | Some text => Some (Raises text, mkRun w (mkdirs r))
        | None =>
            let made := (mkdirs r ++ [output])%list in
            let w := print (nl ++ "[*] SubShot - Taking screenshots") w in
            let w := print ("[+] Input file: " ++ filepath) w in
            let w := print ("[+] Output directory: " ++ absolute machine output) w in
            match load_list filepath (read machine filepath) with
            | SysExit code message => Some (Exits code, mkRun (print message w) made)
            | Loaded subdomains =>
                let w := print ("[+] Loaded " ++ str_of_nat (length subdomains)
                                ++ " subdomain(s)" ++ nl) w in
                if (length subdomains =? 0)%nat then
                  Some (Returns, mkRun (print "[!] No subdomains to process." w) made)
                else
                  match process_subdomains browser seconds_text path_join
                          subdomains output timeout w with
                  | None => None
                  | Some ((success_count, fail_count), w) =>
                      let w := print (nl ++ "[+] Completed: "
                                      ++ str_of_int success_count ++ " success, "
                                      ++ str_of_int fail_count ++ " failed") w in
                      let w := print ("[+] Screenshots saved to: "
                                      ++ absolute machine output) w in
                      Some (Returns, mkRun w made)
                  end
            end
        end
  | (o, w) => Some (o, mkRun w (mkdirs r))
  end.

End Cli.

(** Playwright is there, every path exists and reads as the two given
    lines and a blank one, and every directory can be made. *)
Definition ready_machine : Machine :=
  mkMachine true (fun _ => true)
    (fun _ => ReadLines ["a.example.com" ++ nl; nl; "b.example.com" ++ nl])
    (fun _ => None) (fun path => "/home/user/" ++ path).

(** As [ready_machine], without Playwright. *)
Definition no_playwright_machine : Machine :=
  mkMachine false (fun _ => true)
    (fun _ => ReadLines ["a.example.com" ++ nl; nl; "b.example.com" ++ nl])
    (fun _ => None) (fun path => "/home/user/" ++ path).

End SubshotCli.

(* ===================================================================== *)
(** * Facts about the string primitives                                   *)
(* ===================================================================== *)

Module PyStrFacts.
Import PyStr.

Section Strip.
Variable p : ascii -> bool.

Lemma lstrip_first_not s : first_not p (lstrip p s).
Proof.
  unfold first_not.
  induction s as [|c t IH]; simpl; [exact I|].
  destruct (p c) eqn:E; [exact IH|]. simpl. exact E.
Qed.

Lemma lstrip_fixed s : first_not p s -> lstrip p s = s.
Proof.
  unfold first_not. destruct s as [|c t]; simpl; [reflexivity|].
  intros E. rewrite E. reflexivity.
Qed.

Lemma rstrip_cons c t :
  rstrip p (String c t) =
  match rstrip p t with
  | EmptyString => if p c then EmptyString else String c EmptyString
  | t' => String c t'
  end.
Proof. reflexivity. Qed.

Lemma rstrip_last_not s : last_not p (rstrip p s).
Proof.
  unfold last_not.
  induction s as [|c t IH]; [exact I|].
  rewrite rstrip_cons.
  destruct (rstrip p t) as [|d u] eqn:R.
  - destruct (p c) eqn:E; simpl; [exact I|exact E].
  - exact IH.
Qed.

Lemma rstrip_fixed s : last_not p s -> rstrip p s = s.
Proof.
  unfold last_not.
  induction s as [|c t IH]; [reflexivity|].
  intros H. rewrite rstrip_cons.
  destruct t as [|d u].
  - simpl in *. rewrite H. reflexivity.
  - rewrite IH by exact H. reflexivity.
Qed.

Lemma rstrip_idem s : rstrip p (rstrip p s) = rstrip p s.
Proof. apply rstrip_fixed, rstrip_last_not. Qed.

Lemma rstrip_first_not s : first_not p s -> first_not p (rstrip p s).
Proof.
  unfold first_not. destruct s as [|c t]; [intros; exact I|].
  rewrite rstrip_cons. simpl. intros E.
  destruct (rstrip p t); [rewrite E|]; simpl; exact E.
Qed.

Lemma strip_with_first_not s : first_not p (strip_with p s).
Proof. apply rstrip_first_not, lstrip_first_not. Qed.

Lemma strip_with_last_not s : last_not p (strip_with p s).
Proof. apply rstrip_last_not. Qed.

Lemma strip_with_fixed s : first_not p s -> last_not p s -> strip_with p s = s.
Proof.
  intros Hf Hl. unfold strip_with.
  rewrite (lstrip_fixed s Hf). apply rstrip_fixed, Hl.
Qed.

Lemma strip_with_idem s : strip_with p (strip_with p s) = strip_with p s.
Proof.
  apply strip_with_fixed;
    [apply strip_with_first_not | apply strip_with_last_not].
Qed.

Lemma rstrip_app a b :
  rstrip p b <> EmptyString -> rstrip p (a ++ b) = a ++ rstrip p b.
Proof.
  intros Hb. induction a as [|c t IH]; [reflexivity|].
  simpl append. rewrite rstrip_cons, IH.
  destruct (t ++ rstrip p b) as [|d u] eqn:E; [|reflexivity].
  destruct t; simpl in E; [contradiction | discriminate].
Qed.

Lemma rstrip_app_blank a b :
  rstrip p b = EmptyString -> rstrip p (a ++ b) = rstrip p a.
Proof.
  intros Hb. induction a as [|c t IH]; [exact Hb|].
  simpl append. rewrite !rstrip_cons, IH. reflexivity.
Qed.

Lemma rstrip_unchanged_iff s : rstrip p s = s <-> last_not p s.
Proof.
  split; [|apply rstrip_fixed].
  intros E. rewrite <- E. apply rstrip_last_not.
Qed.

Variable q : ascii -> bool.

Lemma lstrip_all_chars s : all_chars q s = true -> all_chars q (lstrip p s) = true.
Proof.
  induction s as [|c t IH]; simpl; [auto|].
  intros H. apply andb_prop in H as [Hc Ht].
  destruct (p c); [auto|]. simpl. rewrite Hc, Ht. reflexivity.
Qed.

Lemma rstrip_all_chars s : all_chars q s = true -> all_chars q (rstrip p s) = true.
Proof.
  induction s as [|c t IH]; [auto|].
  simpl all_chars at 1. intros H. apply andb_prop in H as [Hc Ht].
  rewrite rstrip_cons. specialize (IH Ht).
  destruct (rstrip p t) as [|d u].
  - destruct (p c); simpl; [reflexivity|]. rewrite Hc. reflexivity.
  - simpl in *. rewrite Hc, IH. reflexivity.
Qed.

Lemma strip_with_all_chars s :
  all_chars q s = true -> all_chars q (strip_with p s) = true.
Proof. intros H. apply rstrip_all_chars, lstrip_all_chars, H. Qed.

End Strip.

(** A test that holds of every character holds of each member. *)
Lemma all_chars_mem q s c :
  all_chars q s = true -> mem c s = true -> q c = true.
Proof.
  induction s as [|d t IH]; simpl; [discriminate|].
  intros H M. apply andb_prop in H as [Hd Ht].
  apply orb_prop in M as [E|M]; [|auto].
  apply Ascii.eqb_eq in E. subst. exact Hd.
Qed.

Lemma prefix_mem old s c :
  String.prefix old s = true -> mem c old = true -> mem c s = true.
Proof.
  revert s. induction old as [|d t IH]; simpl; [discriminate|].
  intros [|e u]; simpl; [discriminate|].
  destruct (ascii_dec d e) as [E|E]; [subst e|discriminate].
  intros P M. apply orb_prop in M as [E|M].
  - rewrite E. reflexivity.
  - rewrite (IH u P M). apply orb_true_r.
Qed.

Lemma replace_from_scan old new c t :
  replace_from old new 0 (String c t) =
  if String.prefix old (String c t)
  then new ++ replace_from old new (String.length old - 1) t
  else String c (replace_from old new 0 t).
Proof. reflexivity. Qed.

(** [replace] leaves alone a string that lacks a character of [old]. *)
Lemma replace_from_absent old new c s :
  mem c old = true -> mem c s = false -> replace_from old new 0 s = s.
Proof.
  intros Hold. induction s as [|d t IH]; [reflexivity|].
  intros Hs. rewrite replace_from_scan.
  destruct (String.prefix old (String d t)) eqn:P.
  - rewrite (prefix_mem _ _ _ P Hold) in Hs. discriminate.
  - simpl in Hs. apply orb_false_elim in Hs as [_ Ht].
    rewrite (IH Ht). reflexivity.
Qed.

Lemma sub_class_fixed cls by_ s :
  all_chars (fun c => negb (cls c)) s = true -> sub_class cls by_ s = s.
Proof.
  induction s as [|c t IH]; simpl; [reflexivity|].
  intros H. apply andb_prop in H as [Hc Ht].
  apply negb_true_iff in Hc. rewrite Hc, (IH Ht). reflexivity.
Qed.

Lemma sub_class_all_chars cls by_ s :
  cls by_ = false ->
  all_chars (fun c => negb (cls c)) (sub_class cls by_ s) = true.
Proof.
  intros Hby. induction s as [|c t IH]; simpl; [reflexivity|].
  rewrite IH, andb_true_r.
  destruct (cls c) eqn:E; [rewrite Hby | rewrite E]; reflexivity.
Qed.

Lemma all_chars_not_mem q s c :
  all_chars (fun d => negb (q d)) s = true -> q c = true -> mem c s = false.
Proof.
  intros H Q. destruct (mem c s) eqn:M; [|reflexivity].
  pose proof (all_chars_mem _ _ _ H M) as N. simpl in N.
  rewrite Q in N. discriminate.
Qed.

Lemma prefix_app a b : String.prefix a (a ++ b) = true.
Proof.
  induction a as [|c t IH]; simpl; [destruct b; reflexivity|].
  destruct (ascii_dec c c) as [_|N]; [exact IH | contradiction].
Qed.

Lemma prefix_refl a : String.prefix a a = true.
Proof.
  induction a as [|c t IH]; simpl; [reflexivity|].
  destruct (ascii_dec c c) as [_|N]; [exact IH | contradiction].
Qed.

Lemma prefix_split a s :
  String.prefix a s = true -> exists b, s = a ++ b.
Proof.
  revert s. induction a as [|c t IH]; intros s; [exists s; reflexivity|].
  destruct s as [|d u]; simpl; [discriminate|].
  destruct (ascii_dec c d) as [E|E]; [subst d|discriminate].
  intros P. destruct (IH u P) as [b ->]. exists b. reflexivity.
Qed.

Lemma last_char_app a b :
  last_char (a ++ b) =
  match last_char b with Some c => Some c | None => last_char a end.
Proof.
  induction a as [|c t IH]; simpl append.
  - destruct (last_char b); reflexivity.
  - change (last_char (String c (t ++ b)))
      with (match t ++ b with EmptyString => Some c | _ => last_char (t ++ b) end).
    rewrite IH. destruct t as [|d u]; simpl append.
    + destruct b as [|e v]; [reflexivity|].
      destruct (last_char (String e v)) eqn:L; [reflexivity|].
      exfalso. clear -L. revert e L. induction v as [|f w IHv]; intros e L;
        [discriminate | exact (IHv f L)].
    + destruct (last_char b); reflexivity.
Qed.

(** A prefix that does not end in a stripped character survives
    [rstrip]. *)
Lemma prefix_rstrip p a s :
  last_not p a -> String.prefix a s = true ->
  String.prefix a (rstrip p s) = true.
Proof.
  intros La P. destruct (prefix_split _ _ P) as [b ->].
  destruct (rstrip p b) as [|c t] eqn:R.
  - rewrite (rstrip_app_blank p a b R), (rstrip_fixed p a La).
    apply prefix_refl.
  - rewrite rstrip_app by congruence. apply prefix_app.
Qed.

Lemma append_assoc (a b c : string) : ((a ++ b) ++ c = a ++ b ++ c)%string.
Proof. induction a as [|ch t IH]; simpl; [reflexivity | rewrite IH; reflexivity]. Qed.

Lemma contains_eq needle s :
  contains needle s
  = String.prefix needle s
    || match s with
       | EmptyString => false
       | String _ t => contains needle t
       end.
Proof. destruct s; reflexivity. Qed.

(** [contains] decides [occurs_in]. *)
Lemma contains_occurs needle s : contains needle s = true <-> occurs_in needle s.
Proof.
  split.
  - induction s as [|c t IH]; rewrite contains_eq; intros H;
      apply orb_true_iff in H; destruct H as [P | H].
    + destruct (prefix_split _ _ P) as [b E]. exists EmptyString, b. exact E.
    + discriminate.
    + destruct (prefix_split _ _ P) as [b E]. exists EmptyString, b. exact E.
    + destruct (IH H) as (pre & post & ->).
      exists (String c pre), post. reflexivity.
  - intros (pre & post & ->). induction pre as [|c t IH].
    + rewrite contains_eq. change (EmptyString ++ needle ++ post) with (needle ++ post).
      rewrite prefix_app. reflexivity.
    + change (String c t ++ needle ++ post)
        with (String c (t ++ needle ++ post)).
      rewrite contains_eq, IH. apply orb_true_r.
Qed.

Lemma contains_not_occurs needle s :
  contains needle s = false <-> ~ occurs_in needle s.
Proof.
  rewrite <- contains_occurs. destruct (contains needle s); split;
    congruence.
Qed.

Lemma lower_app a b : lower (a ++ b) = lower a ++ lower b.
Proof. induction a as [|c t IH]; simpl; [reflexivity | rewrite IH; reflexivity]. Qed.

Lemma lower_split a b :
  forall s, lower s = a ++ b ->
  exists s1 s2, s = s1 ++ s2 /\ lower s1 = a /\ lower s2 = b.
Proof.
  induction a as [|c t IH]; intros s H.
  - exists EmptyString, s. auto.
  - destruct s as [|d u]; [discriminate|].
    simpl in H. injection H as Hc Ht.
    destruct (IH u Ht) as (s1 & s2 & -> & H1 & H2).
    exists (String d s1), s2. simpl. rewrite Hc, H1. auto.
Qed.

(** [contains] on the text in small letters decides
    [occurs_in_any_case]. *)
Lemma contains_lower_occurs needle s :
  contains needle (lower s) = true <-> occurs_in_any_case needle s.
Proof.
  rewrite contains_occurs. split.
  - intros (pre & post & H).
    destruct (lower_split _ _ _ H) as (s1 & s2 & -> & _ & H2).
    destruct (lower_split _ _ _ H2) as (u & s3 & -> & Hu & _).
    exists u. split; [exact Hu | exists s1, s3; reflexivity].
  - intros (u & Hu & pre & post & ->).
    exists (lower pre), (lower post). rewrite !lower_app, Hu. reflexivity.
Qed.

Lemma contains_lower_not_occurs needle s :
  contains needle (lower s) = false <-> ~ occurs_in_any_case needle s.
Proof.
  rewrite <- contains_lower_occurs. destruct (contains needle (lower s)); split;
    congruence.
Qed.

Lemma take_length n s : String.length (take n s) <= n.
Proof.
  revert s. induction n as [|k IH]; intros [|c t]; simpl; try lia.
  specialize (IH t). lia.
Qed.

Lemma take_short n s : String.length s <= n -> take n s = s.
Proof.
  revert s. induction n as [|k IH]; intros [|c t]; simpl; try reflexivity; try lia.
  intros H. rewrite IH by lia. reflexivity.
Qed.

End PyStrFacts.

(* ===================================================================== *)
(** * subshot.py: file names and URLs                                     *)
(* ===================================================================== *)

Module SubshotNames.
Import PyStr PyStrFacts Subshot.

Lemma sanitize_filename_clean s :
  all_chars (fun c => negb (invalid_filename_char c)) (sanitize_filename s) = true.
Proof.
  unfold sanitize_filename, strip_chars.
  apply strip_with_all_chars, sub_class_all_chars. reflexivity.
Qed.

Lemma sanitize_filename_lacks s c :
  invalid_filename_char c = true -> mem c (sanitize_filename s) = false.
Proof. apply all_chars_not_mem, sanitize_filename_clean. Qed.

Lemma replace_scheme_fixed old r :
  old <> EmptyString -> mem ":" old = true -> mem ":" r = false ->
  replace old "" r = r.
Proof.
  intros Hne Hold Hr. destruct old as [|c t]; [contradiction|].
  unfold replace. apply (replace_from_absent _ _ ":"%char); assumption.
Qed.

(** C4. Sanitizing a sanitized name changes nothing; a sanitized name holds
    neither a slash nor a backslash, nor any other character of the
    substituted class, and neither begins nor ends with a dot or a
    hyphen. *)
Theorem sanitize_filename_idempotent_and_safe (s : string) :
  sanitize_filename (sanitize_filename s) = sanitize_filename s
  /\ mem "/" (sanitize_filename s) = false
  /\ mem "\" (sanitize_filename s) = false
  /\ all_chars (fun c => negb (invalid_filename_char c)) (sanitize_filename s) = true
  /\ first_not (fun c => mem c ".-") (sanitize_filename s)
  /\ last_not (fun c => mem c ".-") (sanitize_filename s).
Proof.
  assert (Hcolon : mem ":" (sanitize_filename s) = false)
    by (apply sanitize_filename_lacks; reflexivity).
  assert (Hfirst : first_not (fun c => mem c ".-") (sanitize_filename s))
    by apply strip_with_first_not.
  assert (Hlast : last_not (fun c => mem c ".-") (sanitize_filename s))
    by apply strip_with_last_not.
  repeat split; try assumption.
  - set (r := sanitize_filename s) in *.
    unfold sanitize_filename at 1.
    rewrite (replace_scheme_fixed "https://" r) by (try discriminate; auto).
    rewrite (replace_scheme_fixed "http://" r) by (try discriminate; auto).
    rewrite sub_class_fixed by apply sanitize_filename_clean.
    apply strip_with_fixed; assumption.
  - apply sanitize_filename_lacks. reflexivity.
  - apply sanitize_filename_lacks. reflexivity.
  - apply sanitize_filename_clean.
Qed.


(** ** [normalize_url] *)

Lemma has_scheme_first_not x : has_scheme x = true -> first_not isspace x.
Proof.
  unfold has_scheme, startswith. intros H.
  apply orb_prop in H as [P|P]; apply prefix_split in P as [b ->]; reflexivity.
Qed.

Lemma has_scheme_rstrip x :
  has_scheme x = true -> has_scheme (rstrip isspace x) = true.
Proof.
  unfold has_scheme, startswith. intros H.
  apply orb_prop in H as [P|P]; apply orb_true_iff; [left|right];
    (apply prefix_rstrip; [reflexivity | exact P]).
Qed.

Lemma strip_idem x : strip (strip x) = strip x.
Proof. apply strip_with_idem. Qed.

Lemma normalize_url_with_scheme x :
  has_scheme x = true -> normalize_url x = rstrip isspace x.
Proof.
  intros H. unfold normalize_url, strip, strip_with.
  rewrite (lstrip_fixed isspace x (has_scheme_first_not x H)).
  rewrite (has_scheme_rstrip x H). reflexivity.
Qed.

Lemma strip_fixed_https z :
  last_not isspace z -> strip ("https://" ++ z) = "https://" ++ z.
Proof.
  intros Lz. apply strip_with_fixed; [reflexivity|].
  unfold last_not in *. rewrite last_char_app.
  destruct (last_char z); [exact Lz | reflexivity].
Qed.

Lemma has_scheme_https z : has_scheme ("https://" ++ z) = true.
Proof.
  unfold has_scheme, startswith.
  rewrite (prefix_app "https://" z). apply orb_true_r.
Qed.

Lemma normalize_url_idempotent x :
  normalize_url (normalize_url x) = normalize_url x.
Proof.
  destruct (has_scheme (strip x)) eqn:H.
  - assert (E : normalize_url x = strip x)
      by (unfold normalize_url; cbv zeta; rewrite H; reflexivity).
    rewrite E. unfold normalize_url. cbv zeta.
    rewrite strip_idem, H. reflexivity.
  - assert (E : normalize_url x = "https://" ++ strip x)
      by (unfold normalize_url; cbv zeta; rewrite H; reflexivity).
    rewrite E. unfold normalize_url. cbv zeta.
    rewrite strip_fixed_https by apply strip_with_last_not.
    rewrite has_scheme_https. reflexivity.
Qed.

(** C5, as stated, fails: an input that begins with a scheme and ends in
    whitespace is not returned unchanged, its trailing whitespace goes. *)
Lemma normalize_url_drops_trailing_space :
  has_scheme "http://example.com " = true
  /\ normalize_url "http://example.com " = "http://example.com"
  /\ normalize_url "http://example.com " <> "http://example.com ".
Proof. repeat split. discriminate. Qed.

(** C5, amended. A host without scheme gets [https://]; an input that
    begins with [http://] or [https://] is returned with its trailing
    whitespace removed, so unchanged exactly when it does not end in
    whitespace; and normalizing twice is normalizing once. *)
Theorem normalize_url_default_scheme_and_idempotent :
  normalize_url "example.com" = "https://example.com"
  /\ (forall x,
        has_scheme x = true ->
        normalize_url x = rstrip isspace x
        /\ (last_not isspace x -> normalize_url x = x)
        /\ (normalize_url x = x -> last_not isspace x))
  /\ (forall x, normalize_url (normalize_url x) = normalize_url x).
Proof.
  split; [reflexivity|]. split; [|exact normalize_url_idempotent].
  intros x H. rewrite (normalize_url_with_scheme x H).
  split; [reflexivity|]. split; apply rstrip_unchanged_iff.
Qed.

Lemma normalize_url_default_scheme_and_idempotent_witness :
  has_scheme "http://example.com" = true
  /\ normalize_url "http://example.com" = "http://example.com".
Proof.
  split; [reflexivity|].
  destruct normalize_url_default_scheme_and_idempotent as (_ & H & _).
  destruct (H "http://example.com"%string eq_refl) as (_ & Hsame & _).
  apply Hsame. reflexivity.
Defined.

End SubshotNames.

(* ===================================================================== *)
(** * subshot.py: the capture loop                                        *)
(* ===================================================================== *)

Module CaptureFacts.
Import PyStr PyStrFacts Subshot.
Local Open Scope list_scope.

Section Loop.

Variable browser : nat -> string -> string -> Z -> session.
Variable seconds_text : Z -> string.


Lemma try_body_outcome url path timeout w :
  fst (try_body browser url path timeout w) = nth_outcome browser url path timeout w 0.
Proof.
  unfold Subshot.try_body, Subshot.nth_outcome, outcome_of.
  rewrite Nat.add_0_r.
  destruct (browser (length (opened w)) url path timeout) as [b s a]; simpl.
  destruct b; [reflexivity|].
  destruct s as [|e []]; [|reflexivity|reflexivity].
  destruct a; reflexivity.
Qed.

Lemma try_body_opened url path timeout w :
  opened (snd (try_body browser url path timeout w)) = opened w ++ [(url, path, timeout)].
Proof.
  unfold Subshot.try_body.
  destruct (browser (length (opened w)) url path timeout) as [b s a]; simpl.
  destruct b; [reflexivity|].
  destruct s as [|e []]; [|reflexivity|reflexivity].
  destruct a; reflexivity.
Qed.

Lemma try_body_console url path timeout w :
  console (snd (try_body browser url path timeout w)) = console w.
Proof.
  unfold Subshot.try_body.
  destruct (browser (length (opened w)) url path timeout) as [b s a]; simpl.
  destruct b; [reflexivity|].
  destruct s as [|e []]; [|reflexivity|reflexivity].
  destruct a; reflexivity.
Qed.

Lemma nth_outcome_shift url path timeout w w1 j :
  opened w1 = opened w ++ [(url, path, timeout)] ->
  nth_outcome browser url path timeout w1 j = nth_outcome browser url path timeout w (S j).
Proof.
  intros E. unfold Subshot.nth_outcome. rewrite E, length_app. simpl.
  f_equal. f_equal. lia.
Qed.

Lemma take_screenshot_loop_post fuel url path retries timeout :
  forall st w,
    (Z.to_nat (retries - attempt st) <= fuel)%nat ->
    exists k b e w',
      take_screenshot_loop browser seconds_text fuel url path retries timeout st w = Some ((b, e), w')
      /\ loop_post browser seconds_text url path retries timeout st w k b e w'.
Proof.
  induction fuel as [|fuel IH]; intros st w Hfuel.
  - simpl. destruct (attempt st <? retries)%Z eqn:C.
    + apply Z.ltb_lt in C. lia.
    + apply Z.ltb_ge in C. exists 0%nat, false, (last_error st), w.
      split; [reflexivity|]. unfold Subshot.loop_post. simpl.
      rewrite app_nil_r. repeat split; try lia.
      right. repeat split; try lia.
  - simpl. destruct (attempt st <? retries)%Z eqn:C.
    2:{ apply Z.ltb_ge in C. exists 0%nat, false, (last_error st), w.
        split; [reflexivity|]. unfold Subshot.loop_post. simpl.
        rewrite app_nil_r. repeat split; try lia.
        right. repeat split; try lia. }
    apply Z.ltb_lt in C.
    pose proof (try_body_outcome url path timeout w) as Ho.
    pose proof (try_body_opened url path timeout w) as Hop.
    pose proof (try_body_console url path timeout w) as Hco.
    destruct (try_body browser url path timeout w) as [o w1]. simpl in Ho, Hop, Hco.
    destruct o as [ex|].
    + set (st1 := mkLoop (attempt st + 1) (Some (classify seconds_text timeout ex))).
      destruct (IH st1 w1) as (k & b & e & w' & Hrun & Hp).
      { subst st1. simpl. lia. }
      exists (S k), b, e, w'. split; [exact Hrun|].
      destruct Hp as (Po & Pc & Pk & Pj & Pr).
      assert (Hrem : Z.to_nat (retries - attempt st)
                     = S (Z.to_nat (retries - attempt st1)))
        by (subst st1; simpl; lia).
      unfold Subshot.loop_post. repeat split.
      * rewrite Po, Hop, <- app_assoc. reflexivity.
      * congruence.
      * lia.
      * intros [|j] Hj; [rewrite <- Ho; discriminate|].
        rewrite <- (nth_outcome_shift url path timeout w w1 j Hop).
        apply Pj. lia.
      * destruct Pr as [(Hb & He & j & Hk & Hj) | (Hb & Hk & Hall & He)].
        -- left. repeat split; try assumption.
           exists (S j). split; [congruence|].
           rewrite <- (nth_outcome_shift url path timeout w w1 j Hop). exact Hj.
        -- right. repeat split; try assumption.
           ++ lia.
           ++ intros [|j] Hj; [rewrite <- Ho; discriminate|].
              rewrite <- (nth_outcome_shift url path timeout w w1 j Hop).
              apply Hall. lia.
           ++ rewrite He. destruct k as [|j].
              ** rewrite <- Ho. reflexivity.
              ** rewrite (nth_outcome_shift url path timeout w w1 j Hop).
                 reflexivity.
    + exists 1%nat, true, None, w1. split; [reflexivity|].
      unfold Subshot.loop_post. repeat split.
      * exact Hop.
      * exact Hco.
      * lia.
      * intros j Hj. lia.
      * left. repeat split. exists 0%nat. split; [reflexivity|].
        symmetry. exact Ho.
Qed.


(** The loop of [take_screenshot] never runs out of its fuel. *)
Lemma take_screenshot_post url path retries timeout w :
  exists k b e w',
    take_screenshot browser seconds_text url path retries timeout w
      = Some ((b, e), w')
    /\ loop_post browser seconds_text url path retries timeout
         (mkLoop 0 None) w k b e w'.
Proof.
  apply take_screenshot_loop_post. simpl. lia.
Qed.

Lemma classify_empty_iff timeout ex :
  classify seconds_text timeout ex = EmptyString <-> ex = OtherError EmptyString.
Proof.
  split.
  - destruct ex as [text|msg]; simpl; [discriminate|].
    repeat match goal with
           | |- context [if ?c then _ else _] => destruct c; [discriminate|]
           end.
    destruct msg; [reflexivity | discriminate].
  - intros ->. reflexivity.
Qed.

End Loop.

End CaptureFacts.

(* ===================================================================== *)
(** * subshot.py: retries, reasons and files                              *)
(* ===================================================================== *)

Module CaptureClaims.
Import PyStr PyStrFacts Subshot CaptureFacts.
Local Open Scope list_scope.

(** C3. [take_screenshot] always returns.  It opens [k] sessions, all for
    the same URL, path and timeout, and [k] is at most [retries] (none when
    [retries] is not positive).  When each of the sessions that [retries]
    allows raises, it returns [False] after exactly that many, with the
    reason of the last exception alone.  When session [j] is the first to
    reach the [return], it returns [(True, None)] after [j + 1] sessions
    and opens no other. *)
Theorem take_screenshot_retries
    (browser : nat -> string -> string -> Z -> session)
    (seconds_text : Z -> string)
    (url path : string) (retries timeout : Z) (w : World) :
  exists k b e w',
    take_screenshot browser seconds_text url path retries timeout w
      = Some ((b, e), w')
    /\ opened w' = opened w ++ repeat (url, path, timeout) k
    /\ (Z.of_nat k <= Z.max 0 retries)%Z
    /\ ((forall j, (j < Z.to_nat retries)%nat ->
           nth_outcome browser url path timeout w j <> None) ->
        b = false /\ k = Z.to_nat retries
        /\ e = match k with
               | O => None
               | S j => option_map (classify seconds_text timeout)
                          (nth_outcome browser url path timeout w j)
               end)
    /\ (forall j, (j < Z.to_nat retries)%nat ->
          nth_outcome browser url path timeout w j = None ->
          (forall i, (i < j)%nat ->
             nth_outcome browser url path timeout w i <> None) ->
          b = true /\ e = None /\ k = S j).
Proof.
  destruct (take_screenshot_post browser seconds_text url path retries timeout w)
    as (k & b & e & w' & Hrun & Ho & _ & Hk & Hpre & Hres).
  simpl in Hk, Hres. rewrite Z.sub_0_r in Hk, Hres.
  exists k, b, e, w'.
  split; [exact Hrun|]. split; [exact Ho|]. split; [lia|]. split.
  - intros Hall.
    destruct Hres as [(_ & _ & j & Hj & Hnone) | (Hb & Hkk & _ & He)].
    + exfalso. apply (Hall j); [lia | exact Hnone].
    + auto.
  - intros j Hlt Hj Hbefore.
    destruct Hres as [(Hb & He & j' & Hj' & Hnone) | (_ & Hkk & Hall & _)].
    + destruct (Nat.lt_trichotomy j j') as [L | [E | L]].
      * exfalso. apply (Hpre j); [lia | assumption].
      * subst j'. auto.
      * exfalso. apply (Hbefore j'); assumption.
    + exfalso. apply (Hall j); [lia | assumption].
Qed.

Lemma take_screenshot_retries_witness :
  exists w',
    take_screenshot second_try whole_seconds_text "https://a.example.com"
      "shots/a.example.com.png" 2 30000 (mkWorld [] [] [])
    = Some ((true, None), w')
    /\ length (opened w') = 2%nat.
Proof.
  destruct (take_screenshot_retries second_try whole_seconds_text
              "https://a.example.com" "shots/a.example.com.png" 2 30000
              (mkWorld [] [] []))
    as (k & b & e & w' & Hrun & Ho & _ & _ & Hok).
  destruct (Hok 1%nat) as (Hb & He & Hk).
  - simpl. lia.
  - reflexivity.
  - intros i Hi. assert (i = 0%nat) as -> by lia. discriminate.
  - exists w'. subst b e k. split; [exact Hrun|].
    rewrite Ho. reflexivity.
Defined.


(** C10, as stated, fails in its second half: a failure after a real attempt
    can carry the empty string as its reason, when the exception raised has
    an empty text. *)
Lemma genuine_failure_with_empty_reason :
  take_screenshot empty_error whole_seconds_text "https://a.example.com"
    "shots/a.example.com.png" 1 30000 (mkWorld [] [] [])
  = Some ((false, Some EmptyString),
          mkWorld [("https://a.example.com"%string,
                    "shots/a.example.com.png"%string, 30000%Z)] [] []).
Proof. reflexivity. Qed.

(** C10, amended. With [retries] at most 0 no session is opened and the
    result is [(False, None)], the world untouched.  With [retries] at
    least 1 a failure comes after [retries] sessions and carries a reason,
    the one of the last exception; that reason is the empty string only
    when the exception is not a timeout and has an empty text. *)
Theorem take_screenshot_without_attempts
    (browser : nat -> string -> string -> Z -> session)
    (seconds_text : Z -> string)
    (url path : string) (retries timeout : Z) (w : World) :
  ((retries <= 0)%Z ->
     take_screenshot browser seconds_text url path retries timeout w
       = Some ((false, None), w))
  /\ ((1 <= retries)%Z ->
      forall e w',
        take_screenshot browser seconds_text url path retries timeout w
          = Some ((false, e), w') ->
        opened w' = opened w ++ repeat (url, path, timeout) (Z.to_nat retries)
        /\ exists ex,
             nth_outcome browser url path timeout w (Z.to_nat retries - 1) = Some ex
             /\ e = Some (classify seconds_text timeout ex)
             /\ (classify seconds_text timeout ex = EmptyString
                 <-> ex = OtherError EmptyString)).
Proof.
  split.
  - intros Hle. unfold take_screenshot.
    replace (Z.to_nat retries) with 0%nat by lia. simpl.
    destruct (0 <? retries)%Z eqn:C; [|reflexivity].
    apply Z.ltb_lt in C. lia.
  - intros Hge e w' Hrun.
    destruct (take_screenshot_post browser seconds_text url path retries timeout w)
      as (k & b & e0 & w0 & Hrun0 & Ho & _ & _ & _ & Hres).
    rewrite Hrun in Hrun0. injection Hrun0 as <- <- <-.
    simpl in Hres. rewrite Z.sub_0_r in Hres.
    destruct Hres as [(Hb & _) | (_ & Hk & Hall & He)]; [discriminate|].
    subst k. split; [exact Ho|].
    destruct (Z.to_nat retries) as [|j] eqn:R; [lia|].
    replace (S j - 1)%nat with j by lia.
    destruct (nth_outcome browser url path timeout w j) as [ex|] eqn:N.
    + exists ex. repeat split; try assumption; apply classify_empty_iff.
    + exfalso. apply (Hall j); [lia | exact N].
Qed.

Lemma take_screenshot_without_attempts_witness :
  take_screenshot second_try whole_seconds_text "https://a.example.com"
    "shots/a.example.com.png" 0 30000 (mkWorld [] [] [])
  = Some ((false, None), mkWorld [] [] []).
Proof.
  apply (take_screenshot_without_attempts second_try whole_seconds_text
           "https://a.example.com" "shots/a.example.com.png" 0 30000
           (mkWorld [] [] [])).
  lia.
Defined.

(** A timeout of whole seconds prints as the number of seconds with one
    zero after the point. *)
Lemma float_seconds_text_whole (s : Z) :
  (0 <= s)%Z ->
  float_seconds_text (s * 1000)
  = (NilZero.string_of_int (Z.to_int s) ++ ".0")%string.
Proof.
  intros Hs. unfold float_seconds_text. cbv zeta.
  rewrite Z.abs_eq by lia.
  rewrite Z.div_mul by lia. rewrite Z.mod_mul by lia.
  destruct (s * 1000 <? 0)%Z eqn:N; [apply Z.ltb_lt in N; lia|].
  reflexivity.
Qed.

(** C2, as stated, fails: texts about a certificate or about TLS that
    hold neither [SSL] in capitals nor the word [certificate] are not
    given the reason [SSL/Certificate error]; they are kept as they are.
    The first is the text Chromium gives for a certificate of an unknown
    issuer. *)
Lemma classify_misses_certificate_errors :
  classify float_seconds_text 30000
    (OtherError "Page.goto: net::ERR_CERT_AUTHORITY_INVALID at https://a.example.com/")
  = "Page.goto: net::ERR_CERT_AUTHORITY_INVALID at https://a.example.com/"%string
  /\ classify float_seconds_text 30000 (OtherError "TLS handshake failed")
     = "TLS handshake failed"%string
  /\ classify float_seconds_text 30000 (OtherError "ssl handshake failed")
     = "ssl handshake failed"%string
  /\ "TLS handshake failed"%string <> "SSL/Certificate error"%string.
Proof. repeat split; discriminate. Qed.

(** C2, amended.  The reason kept for an exception, in the order of the
    tests.  A timeout gives [Timeout after Ns], whatever its own text
    says, N being the text of [timeout/1000]: for a timeout of [s] whole
    seconds, [s] with [.0].  Otherwise the first of these that the text
    shows decides: [net::ERR_NAME_NOT_RESOLVED], [net::ERR_CONNECTION_REFUSED],
    [net::ERR_CONNECTION_TIMED_OUT], and then [SSL] in capitals or
    [certificate] in any letter case.  A text that shows none of them is
    cut to its first 100 characters. *)
Theorem classify_priority (seconds_text : Z -> string) (timeout : Z) :
  (forall text,
     classify seconds_text timeout (PlaywrightTimeout text)
       = ("Timeout after " ++ seconds_text timeout ++ "s")%string)
  /\ (forall s text,
        (0 <= s < 10 ^ 12)%Z ->
        classify float_seconds_text (s * 1000) (PlaywrightTimeout text)
          = ("Timeout after " ++ NilZero.string_of_int (Z.to_int s) ++ ".0s")%string)
  /\ (forall msg,
        occurs_in "net::ERR_NAME_NOT_RESOLVED" msg ->
        classify seconds_text timeout (OtherError msg) = "DNS resolution failed"%string)
  /\ (forall msg,
        ~ occurs_in "net::ERR_NAME_NOT_RESOLVED" msg ->
        occurs_in "net::ERR_CONNECTION_REFUSED" msg ->
        classify seconds_text timeout (OtherError msg) = "Connection refused"%string)
  /\ (forall msg,
        ~ occurs_in "net::ERR_NAME_NOT_RESOLVED" msg ->
        ~ occurs_in "net::ERR_CONNECTION_REFUSED" msg ->
        occurs_in "net::ERR_CONNECTION_TIMED_OUT" msg ->
        classify seconds_text timeout (OtherError msg) = "Connection timed out"%string)
  /\ (forall msg,
        ~ occurs_in "net::ERR_NAME_NOT_RESOLVED" msg ->
        ~ occurs_in "net::ERR_CONNECTION_REFUSED" msg ->
        ~ occurs_in "net::ERR_CONNECTION_TIMED_OUT" msg ->
        occurs_in "SSL" msg \/ occurs_in_any_case "certificate" msg ->
        classify seconds_text timeout (OtherError msg) = "SSL/Certificate error"%string)
  /\ (forall msg,
        ~ occurs_in "net::ERR_NAME_NOT_RESOLVED" msg ->
        ~ occurs_in "net::ERR_CONNECTION_REFUSED" msg ->
        ~ occurs_in "net::ERR_CONNECTION_TIMED_OUT" msg ->
        ~ occurs_in "SSL" msg ->
        ~ occurs_in_any_case "certificate" msg ->
        classify seconds_text timeout (OtherError msg) = take 100 msg
        /\ (String.length (classify seconds_text timeout (OtherError msg)) <= 100)%nat).
Proof.
  split; [reflexivity|].
  split.
  { intros s text Hs. unfold classify.
    rewrite float_seconds_text_whole by lia.
    rewrite append_assoc. reflexivity. }
  repeat apply conj; intros; unfold classify;
    repeat match goal with
           | H : ~ occurs_in _ _ |- _ =>
               apply contains_not_occurs in H; rewrite H; clear H
           | H : ~ occurs_in_any_case _ _ |- _ =>
               apply contains_lower_not_occurs in H; rewrite H; clear H
           | H : occurs_in _ _ |- _ =>
               apply contains_occurs in H; rewrite H; clear H
           end;
    try reflexivity.
  - match goal with
    | H : _ \/ _ |- _ =>
        destruct H as [H | H];
        [apply contains_occurs in H | apply contains_lower_occurs in H];
        rewrite H
    end; [reflexivity | rewrite orb_true_r; reflexivity].
  - split; [reflexivity | apply take_length].
Qed.

Lemma classify_priority_witness :
  classify float_seconds_text 30000
    (OtherError "net::ERR_CONNECTION_REFUSED at https://a.example.com (SSL)")
  = "Connection refused"%string
  /\ classify float_seconds_text 30000
       (OtherError "Certificate has expired") = "SSL/Certificate error"%string
  /\ classify float_seconds_text (30 * 1000)
       (PlaywrightTimeout "net::ERR_NAME_NOT_RESOLVED") = "Timeout after 30.0s"%string.
Proof.
  destruct (classify_priority float_seconds_text 30000)
    as (_ & Htime & _ & Hrefused & _ & Hssl & _).
  split; [|split].
  - apply Hrefused.
    + apply contains_not_occurs. reflexivity.
    + apply contains_occurs. reflexivity.
  - apply Hssl.
    + apply contains_not_occurs. reflexivity.
    + apply contains_not_occurs. reflexivity.
    + apply contains_not_occurs. reflexivity.
    + right. apply contains_lower_occurs. reflexivity.
  - apply (Htime 30%Z). lia.
Defined.

(** C9, as stated, fails: when the save raises with a part of the file
    written, the failed attempt leaves that part at the output path, where
    there was no file before; nothing in [take_screenshot] removes it. *)
Lemma failed_attempt_leaves_partial_file :
  file_at "shots/a.example.com.png" (disk (mkWorld [] [] [])) = None
  /\ take_screenshot broken_save whole_seconds_text "https://a.example.com"
       "shots/a.example.com.png" 1 30000 (mkWorld [] [] [])
     = Some ((false, Some "[Errno 28] No space left on device"%string),
             mkWorld [("https://a.example.com"%string,
                       "shots/a.example.com.png"%string, 30000%Z)]
               [("shots/a.example.com.png"%string, PartialImage)] [])
  /\ file_at "shots/a.example.com.png"
       [("shots/a.example.com.png"%string, PartialImage)] = Some PartialImage.
Proof. repeat split. Qed.

(** C9, amended. A failed attempt touches no path but the output path, and
    only through the save of the browser layer.  When that save is all or
    nothing, the attempt leaves the image fully saved or the files as they
    were. *)
Theorem failed_attempt_files
    (browser : nat -> string -> string -> Z -> session)
    (url path : string) (timeout : Z) (w w' : World) (e : exn) :
  try_body browser url path timeout w = (Some e, w') ->
  (disk w' = disk w \/ exists img, disk w' = (path, img) :: disk w)
  /\ (all_or_nothing (browser (length (opened w)) url path timeout) = true ->
      disk w' = disk w \/ disk w' = (path, CompleteImage) :: disk w).
Proof.
  unfold try_body, all_or_nothing.
  destruct (browser (length (opened w)) url path timeout) as [b s a]; simpl.
  destruct b as [eb|].
  - intros [= <- <-]. simpl. auto.
  - destruct s as [|es [|]].
    + destruct a as [ea|]; [|discriminate].
      intros [= <- <-]. simpl. split; [right; eauto | auto].
    + intros [= <- <-]. simpl. auto.
    + intros [= <- <-]. simpl. split; [right; eauto | discriminate].
Qed.

Lemma failed_attempt_files_witness :
  disk (snd (try_body close_fails "https://a.example.com"
               "shots/a.example.com.png" 30000 (mkWorld [] [] [])))
  = [("shots/a.example.com.png"%string, CompleteImage)].
Proof.
  destruct (failed_attempt_files close_fails "https://a.example.com"
              "shots/a.example.com.png" 30000 (mkWorld [] [] [])
              (snd (try_body close_fails "https://a.example.com"
                      "shots/a.example.com.png" 30000 (mkWorld [] [] [])))
              (OtherError "Target closed") eq_refl) as [_ H].
  destruct (H eq_refl) as [E | E]; [discriminate E | exact E].
Defined.

End CaptureClaims.

(* ===================================================================== *)
(** * subshot.py: the batch                                               *)
(* ===================================================================== *)

Module BatchClaims.
Import PyStr PyStrFacts Subshot CaptureFacts.
Local Open Scope list_scope.

Lemma lstrip_blank p s : all_chars p s = true -> lstrip p s = EmptyString.
Proof.
  induction s as [|c t IH]; simpl; [reflexivity|].
  intros H. apply andb_prop in H as [Hc Ht]. rewrite Hc. exact (IH Ht).
Qed.

Lemma strip_with_truthy p s :
  Subshot.truthy (strip_with p s) = negb (all_chars p s).
Proof.
  unfold strip_with.
  induction s as [|c t IH]; [reflexivity|].
  simpl lstrip. simpl all_chars.
  destruct (p c) eqn:E; [exact IH|].
  rewrite rstrip_cons, E. simpl.
  destruct (rstrip p t); reflexivity.
Qed.

(** The test of the comprehension in [load_list] keeps the lines that are
    not blank. *)
Lemma stripped_lines_length lines :
  length (stripped_lines lines) = count_nonblank lines.
Proof.
  unfold stripped_lines, count_nonblank. rewrite length_map.
  f_equal. apply filter_ext. intros line. apply strip_with_truthy.
Qed.

Section Batch.

Variable browser : nat -> string -> string -> Z -> session.
Variable seconds_text : Z -> string.
Variable path_join : string -> string -> string.

Lemma process_loop_post output_dir timeout :
  forall rest total i s f w,
  exists s' f' w' tries,
    process_loop browser seconds_text path_join total i rest output_dir timeout
      s f w = Some ((s', f'), w')
    /\ (s <= s')%Z /\ (f <= f')%Z
    /\ ((s' - s) + (f' - f) = Z.of_nat (length rest))%Z
    /\ length tries = length rest
    /\ Forall (fun k => (1 <= k <= 2)%nat) tries
    /\ opened w' = opened w ++ sessions_of path_join output_dir timeout rest tries.
Proof.
  induction rest as [|subdomain rest IH]; intros total i s f w.
  - exists s, f, w, []. simpl. rewrite app_nil_r.
    repeat split; try lia. constructor.
  - cbn [process_loop].
    set (url := normalize_url subdomain).
    set (path := path_join output_dir (sanitize_filename subdomain ++ ".png")%string).
    set (w1 := print_end _ _ w).
    destruct (take_screenshot_post browser seconds_text url path 2
                (timeout * 1000) w1)
      as (k & b & e & w2 & Hrun & Ho & _ & Hk & _ & Hres).
    rewrite Hrun. simpl in Hk, Hres.
    assert (Hk12 : (1 <= k <= 2)%nat).
    { destruct Hres as [(_ & _ & j & -> & _) | (_ & -> & _)]; lia. }
    destruct b.
    + destruct (IH total (S i) (s + 1)%Z f (print "OK" w2))
        as (s' & f' & w' & tries & Hloop & Hs & Hf & Hsum & Hlen & Hall & Hop).
      exists s', f', w', (k :: tries). rewrite Hloop.
      repeat split; try lia.
      * simpl. lia.
      * simpl. lia.
      * constructor; assumption.
      * rewrite Hop. simpl opened. rewrite Ho. subst w1. simpl opened.
        rewrite <- app_assoc. reflexivity.
    + destruct (IH total (S i) s (f + 1)%Z
                  (print ("FAIL (" ++ str_of_reason e ++ ")")%string w2))
        as (s' & f' & w' & tries & Hloop & Hs & Hf & Hsum & Hlen & Hall & Hop).
      exists s', f', w', (k :: tries). rewrite Hloop.
      repeat split; try lia.
      * simpl. lia.
      * simpl. lia.
      * constructor; assumption.
      * rewrite Hop. simpl opened. rewrite Ho. subst w1. simpl opened.
        rewrite <- app_assoc. reflexivity.
Qed.

End Batch.

(** C1. [load_list] keeps, stripped, the lines that are not blank, and for
    the list it builds [process_subdomains] returns; its two counts are not
    negative and add up to the number of lines that are not blank; each
    entry, in the order of the input, is tried once or twice with its own
    URL and output path, and the batch opens no other session. *)
Theorem process_subdomains_counts
    (browser : nat -> string -> string -> Z -> session)
    (seconds_text : Z -> string)
    (path_join : string -> string -> string)
    (filepath : string) (lines : list string)
    (output_dir : string) (timeout : Z) (w : World) :
  exists subdomains success_count fail_count w' tries,
    load_list filepath (ReadLines lines) = Loaded subdomains
    /\ length subdomains = count_nonblank lines
    /\ process_subdomains browser seconds_text path_join subdomains
         output_dir timeout w = Some ((success_count, fail_count), w')
    /\ (0 <= success_count)%Z /\ (0 <= fail_count)%Z
    /\ (success_count + fail_count = Z.of_nat (count_nonblank lines))%Z
    /\ length tries = count_nonblank lines
    /\ Forall (fun k => (1 <= k <= 2)%nat) tries
    /\ opened w' = opened w ++ sessions_of path_join output_dir timeout
                                subdomains tries.
Proof.
  exists (stripped_lines lines).
  unfold process_subdomains.
  destruct (process_loop_post browser seconds_text path_join output_dir timeout
              (stripped_lines lines) (length (stripped_lines lines)) 1%nat
              0%Z 0%Z w)
    as (s' & f' & w' & tries & Hloop & Hs & Hf & Hsum & Hlen & Hall & Hop).
  rewrite stripped_lines_length in Hsum, Hlen.
  exists s', f', w', tries.
  split; [reflexivity|]. split; [apply stripped_lines_length|].
  repeat split; try assumption; lia.
Qed.

(** The scenario of two hosts, the second of which times out: one success,
    one failure after two tries, the blank line skipped. *)
Example batch_of_two :
  let lines := ["a.example.com" ++ nl; nl; "b.example.com" ++ nl]%string in
  exists w',
    process_subdomains b_times_out whole_seconds_text slash_join
      (stripped_lines lines) "shots" 30 (mkWorld [] [] [])
    = Some ((1%Z, 1%Z), w')
    /\ map fst (disk w') = ["shots/a.example.com.png"%string]
    /\ console w'
       = ["    [1/2] a.example.com ... "; "OK" ++ nl;
          "    [2/2] b.example.com ... ";
          "FAIL (Timeout after 30.0s)" ++ nl]%string.
Proof. eexists. vm_compute. repeat split. Qed.

End BatchClaims.

(* ===================================================================== *)
(** * fastrec.py: the runners                                             *)
(* ===================================================================== *)

Module RunnerFacts.
Import PyStr Fastrec.
Local Open Scope list_scope.
Local Open Scope py_scope.

Lemma bind_ok {A B : Type} (c : M A) (k : A -> M B) w a w1 :
  c w = (Ok a, w1) -> bind c k w = k a w1.
Proof. intros H. unfold bind. rewrite H. reflexivity. Qed.

Lemma bind_raise {A B : Type} (c : M A) (k : A -> M B) w e w1 :
  c w = (Raise e, w1) -> bind c k w = (Raise e, w1).
Proof. intros H. unfold bind. rewrite H. reflexivity. Qed.

Lemma bind_print {B : Type} text (k : unit -> M B) c f l :
  bind (print text) k (mkWorld c f l)
  = k tt (mkWorld (c ++ [(text ++ nl)%string]) f l).
Proof. reflexivity. Qed.

Lemma bind_ret {A B : Type} (a : A) (k : A -> M B) w : bind (ret a) k w = k a w.
Proof. reflexivity. Qed.

Lemma bind_assoc {A B C : Type} (c : M A) (g : A -> M B) (k : B -> M C) w :
  bind (bind c g) k w = bind c (fun a => bind (g a) k) w.
Proof. unfold bind. destruct (c w) as [[a|e] w1]; reflexivity. Qed.

Lemma bind_print_end {B : Type} text e (k : unit -> M B) c f l :
  bind (print_end text e) k (mkWorld c f l)
  = k tt (mkWorld (c ++ [(text ++ e)%string]) f l).
Proof. reflexivity. Qed.

Lemma bind_write {B : Type} env h line (k : unit -> M B) c f l :
  bind (file_write env h line) k (mkWorld c f l)
  = match write_error env h (length (held h f)) with
    | Some text => (Raise text, mkWorld c f l)
    | None => k tt (mkWorld c ((h, held h f ++ [line]) :: f) l)
    end.
Proof.
  unfold bind, file_write. cbn [console fs launched].
  destruct (write_error env h (length (held h f))); reflexivity.
Qed.

Lemma for_each_print (g : string -> string) lines c f l :
  for_each lines (fun line => print_end (g line) "") (mkWorld c f l)
  = (Ok tt, mkWorld (c ++ map (fun line => (g line ++ "")%string) lines) f l).
Proof.
  revert c. induction lines as [|line rest IH]; intros c; simpl.
  - rewrite app_nil_r. reflexivity.
  - unfold bind at 1. simpl. rewrite IH, <- app_assoc. reflexivity.
Qed.

(** The loop over the output of a process, with a body that prints. *)
Lemma bind_stream {B : Type} (g : string -> string) p (k : unit -> M B) c f l :
  bind (for_each_line p (fun line => print_end (g line) "")) k (mkWorld c f l)
  = match broken p with
    | Some text =>
        (Raise text,
         mkWorld (c ++ map (fun line => (g line ++ "")%string) (stdout p)) f l)
    | None =>
        k tt (mkWorld (c ++ map (fun line => (g line ++ "")%string) (stdout p)) f l)
    end.
Proof.
  unfold for_each_line. unfold bind at 1. unfold bind at 1.
  rewrite for_each_print. destruct (broken p); reflexivity.
Qed.

Lemma held_head h content f : held h ((h, content) :: f) = content.
Proof. unfold held. simpl. rewrite String.eqb_refl. reflexivity. Qed.

(** The loop of [run_command] over the lines: it prints and, with a
    handle, writes.  It launches nothing; it ends well exactly when no
    write raises, and then the file of the handle has the lines added. *)
Lemma for_each_tee env (file_handle : option string) lines :
  forall c f l,
  exists c' f',
    (writes_ok env file_handle f lines
     /\ for_each lines
          (fun line =>
             print_end line "" ;;
             match file_handle with
             | Some h => file_write env h line
             | None => ret tt
             end) (mkWorld c f l)
        = (Ok tt, mkWorld c' f' l)
     /\ (forall h content,
           file_handle = Some h -> lookup h f = Some content ->
           lookup h f' = Some (content ++ lines)))
    \/ (~ writes_ok env file_handle f lines
        /\ exists text,
             for_each lines
               (fun line =>
                  print_end line "" ;;
                  match file_handle with
                  | Some h => file_write env h line
                  | None => ret tt
                  end) (mkWorld c f l)
             = (Raise text, mkWorld c' f' l)).
Proof.
  induction lines as [|line rest IH]; intros c f l.
  - exists c, f. left. split; [intros h i _ Hi; simpl in Hi; lia|].
    split; [reflexivity|]. intros h content _ L. rewrite app_nil_r. exact L.
  - cbn [for_each]. destruct file_handle as [h|].
    + rewrite bind_assoc, bind_print_end, bind_write.
      destruct (write_error env h (length (held h f))) as [text|] eqn:W.
      * do 2 eexists. right. split; [|eexists; reflexivity].
        intros Hok. specialize (Hok h 0%nat eq_refl ltac:(simpl; lia)).
        rewrite Nat.add_0_r in Hok. congruence.
      * destruct (IH (c ++ [(line ++ "")%string])
                    ((h, held h f ++ [line]) :: f) l)
          as (c' & f' & [(Hok & E & Hh) | (Hno & text & E)]);
          exists c', f'.
        -- left. split; [|split].
           ++ intros h' i [= <-] Hi. destruct i as [|j].
              ** rewrite Nat.add_0_r. exact W.
              ** specialize (Hok h j eq_refl ltac:(simpl in Hi; lia)).
                 rewrite held_head, length_app in Hok. simpl in Hok.
                 replace (length (held h f) + S j)%nat
                   with (length (held h f) + 1 + j)%nat by lia.
                 exact Hok.
           ++ exact E.
           ++ intros h' content [= <-] L.
              rewrite (Hh h (content ++ [line]) eq_refl).
              ** rewrite <- app_assoc. reflexivity.
              ** unfold held. rewrite L. simpl. rewrite String.eqb_refl.
                 reflexivity.
        -- right. split; [|exists text; exact E].
           intros Hok. apply Hno. intros h' j [= <-] Hj.
           rewrite held_head, length_app. simpl.
           replace (length (held h f) + 1 + j)%nat
             with (length (held h f) + S j)%nat by lia.
           apply Hok; [reflexivity | simpl; lia].
    + rewrite bind_assoc, bind_print_end, bind_ret.
      destruct (IH (c ++ [(line ++ "")%string]) f l)
        as (c' & f' & [(Hok & E & Hh) | (Hno & text & E)]);
        exists c', f'.
      * left. split; [intros h i [=]|]. split; [exact E | intros h ? [=]].
      * exfalso. apply Hno. intros h i [=].
Qed.

(** [Popen] adds one entry to the log, whatever comes of the launch. *)
Lemma Popen_cases env command cwd c f l :
  (exists p,
     popen env (length l) command cwd f = Started p
     /\ Popen env command cwd (mkWorld c f l)
        = (Ok p, mkWorld c (fs_after p)
                   (l ++ [(command, cwd, Exited (returncode p))])))
  \/ (exists text,
        popen env (length l) command cwd f = PopenRaised text
        /\ Popen env command cwd (mkWorld c f l)
           = (Raise text, mkWorld c f (l ++ [(command, cwd, LaunchFailed text)]))).
Proof.
  unfold Popen. simpl.
  destruct (popen env (length l) command cwd f) as [p|text]; eauto.
Qed.

(** Splits on what becomes of the next [Popen] in the goal. *)
Ltac launch p text E :=
  match goal with
  | |- context [Popen ?env ?cmd ?cwd] =>
      match goal with
      | |- context [bind (Popen env cmd cwd) _ (mkWorld ?c ?f ?l)] =>
          let P := fresh "P" in
          destruct (Popen_cases env cmd cwd c f l)
            as [(p & P & E) | (text & P & E)]
      end
  end.

(** Closes a goal that asks for the printed lines and the log of a world
    built by appending. *)
Ltac shape := unfold ret; rewrite <- ?app_assoc; repeat eexists.

(** [run_piped_command] returns, having launched its command once. *)
Lemma run_piped_command_run env command cwd c f l :
  exists b out e,
    run_piped_command env command cwd (mkWorld c f l)
    = (Ok b, mkWorld (c ++ out) (fs_after_launch env (length l) command cwd f)
               (l ++ [(command, cwd, e)])).
Proof.
  unfold run_piped_command, fs_after_launch.
  rewrite !bind_print. unfold try_except.
  launch p text E; rewrite P.
  - rewrite (bind_ok _ _ _ _ _ E).
    rewrite (bind_stream (fun line => line)).
    destruct (broken p);
      [|destruct (negb (returncode p =? 0)%Z)];
      rewrite ?bind_ret, ?bind_print; unfold ret;
      rewrite <- !app_assoc; repeat eexists.
  - rewrite (bind_raise _ _ _ _ _ E). rewrite bind_print. unfold ret.
    rewrite <- !app_assoc. repeat eexists.
Qed.


(** A thread of [run_parallel_commands] returns, having launched its
    command once. *)
Lemma run_cmd_run env cwd cmd label c f l :
  exists out f' e,
    run_cmd env cwd cmd label (mkWorld c f l)
    = (Ok tt, mkWorld (c ++ out) f' (l ++ [(cmd, cwd, e)])).
Proof.
  unfold run_cmd, try_except.
  launch p text E.
  - rewrite (bind_ok _ _ _ _ _ E).
    rewrite (bind_stream (fun line => ("[" ++ label ++ "] " ++ line)%string)).
    destruct (broken p); unfold print, print_end; simpl; shape.
  - rewrite (bind_raise _ _ _ _ _ E).
    unfold print, print_end. simpl. shape.
Qed.

Lemma run_parallel_commands_run env cmd1 cmd2 label1 label2 cwd c f l :
  exists out f' e1 e2,
    run_parallel_commands env cmd1 cmd2 label1 label2 cwd (mkWorld c f l)
    = (Ok tt, mkWorld (c ++ out) f' (l ++ [(cmd1, cwd, e1); (cmd2, cwd, e2)])).
Proof.
  unfold run_parallel_commands. rewrite bind_print.
  match goal with
  | |- context [bind (run_cmd env cwd cmd1 label1) _ (mkWorld ?c1 f l)] =>
      destruct (run_cmd_run env cwd cmd1 label1 c1 f l) as (o1 & f1 & e1 & E1)
  end.
  rewrite (bind_ok _ _ _ _ _ E1).
  match goal with
  | |- context [bind (run_cmd env cwd cmd2 label2) _ (mkWorld ?c2 f1 ?l2)] =>
      destruct (run_cmd_run env cwd cmd2 label2 c2 f1 l2) as (o2 & f2 & e2 & E2)
  end.
  rewrite (bind_ok _ _ _ _ _ E2).
  unfold print, print_end. simpl. shape.
Qed.

(** [check_subshot_available] and [check_playwright_installed] return and
    leave the world as it is. *)
Lemma check_subshot_available_run env w :
  exists r, check_subshot_available env w = (Ok r, w).
Proof.
  unfold check_subshot_available, bind, os_path_exists, ret.
  destruct (lookup _ (fs w)); [eauto|].
  destruct (lookup _ (fs w)); [eauto|].
  destruct (truthy (which env "subshot")); eauto.
Qed.

Lemma check_playwright_installed_run env w :
  check_playwright_installed env w
  = (Ok (match find_spec_playwright env with Ok b => b | Raise _ => false end), w).
Proof.
  unfold check_playwright_installed, try_except, ret, raise.
  destruct (find_spec_playwright env); reflexivity.
Qed.


Lemma bind_exists {B : Type} path (k : bool -> M B) w :
  bind (os_path_exists path) k w
  = k (match lookup path (fs w) with Some _ => true | None => false end) w.
Proof. reflexivity. Qed.

Lemma bind_getsize {B : Type} path content (k : Z -> M B) w :
  lookup path (fs w) = Some content ->
  bind (os_path_getsize path) k w = k (size_of content) w.
Proof. intros H. unfold bind, os_path_getsize. rewrite H. reflexivity. Qed.

Lemma check_subshot_available_missing env w :
  subshot_missing env (fs w) -> check_subshot_available env w = (Ok None, w).
Proof.
  intros (M1 & M2 & M3). unfold check_subshot_available.
  rewrite bind_exists, M1. cbv iota.
  rewrite bind_exists, M2. cbv iota.
  rewrite M3. reflexivity.
Qed.

(** Closes a goal for a call that printed and launched nothing. *)
Ltac quiet f l :=
  rewrite ?bind_print; unfold ret; rewrite <- ?app_assoc;
  exists false; eexists; exists f, []; rewrite (app_nil_r l);
  split; [reflexivity | left; auto].

(** Under any of the conditions for skipping, [run_subshot] returns
    [False] and launches nothing. *)
Lemma run_subshot_skips env target_dir c f l :
  snapshot_skipped env target_dir f ->
  exists out,
    run_subshot env target_dir (mkWorld c f l)
    = (Ok false, mkWorld (c ++ out) f l).
Proof.
  intros Hskip. unfold run_subshot.
  destruct (check_subshot_available_run env (mkWorld c f l)) as [sp Hsp].
  rewrite (bind_ok _ _ _ _ _ Hsp).
  destruct (truthy sp) eqn:T; cbn [negb];
    [|rewrite !bind_print; shape].
  rewrite (bind_ok _ _ _ _ _ (check_playwright_installed_run env _)).
  destruct (find_spec_playwright env) as [[|]|e] eqn:P; cbn [negb];
    try (rewrite !bind_print; shape; fail).
  rewrite bind_exists. cbn [fs].
  destruct (lookup (os_path_join target_dir "alive_subs.txt") f) as [content|] eqn:L;
    cbn [negb]; try (rewrite !bind_print; shape; fail).
  rewrite (bind_getsize _ content) by exact L.
  destruct (size_of content =? 0)%Z eqn:Z0;
    try (rewrite !bind_print; shape; fail).
  exfalso. destruct Hskip as [(M1 & M2 & M3) | [M | M]].
  - rewrite (check_subshot_available_missing env (mkWorld c f l)
               (conj M1 (conj M2 M3))) in Hsp.
    injection Hsp as <-. discriminate T.
  - apply M. exact P.
  - unfold alive_list_missing_or_empty in M. rewrite L in M.
    apply Z.eqb_neq in Z0. contradiction.
Qed.

(** [run_subshot] returns; it launches nothing and returns [False], or it
    launches subshot once. *)
Lemma run_subshot_run env target_dir c f l :
  exists b out f' shot,
    run_subshot env target_dir (mkWorld c f l)
    = (Ok b, mkWorld (c ++ out) f' (l ++ shot))
    /\ ((shot = [] /\ b = false /\ f' = f)
        \/ exists path e, shot = [(subshot_command path, Some target_dir, e)])
    /\ (snapshot_skipped env target_dir f -> shot = []).
Proof.
  assert (Hskip : forall b out f' shot,
            run_subshot env target_dir (mkWorld c f l)
            = (Ok b, mkWorld (c ++ out) f' (l ++ shot)) ->
            snapshot_skipped env target_dir f -> shot = []).
  { intros b out f' shot Hrun Hs.
    destruct (run_subshot_skips env target_dir c f l Hs) as [out' E].
    rewrite E in Hrun. injection Hrun as _ _ _ Hl.
    rewrite <- (app_nil_r l) in Hl at 1. apply app_inv_head in Hl. auto. }
  cut (exists b out f' shot,
    run_subshot env target_dir (mkWorld c f l)
    = (Ok b, mkWorld (c ++ out) f' (l ++ shot))
    /\ ((shot = [] /\ b = false /\ f' = f)
        \/ exists path e, shot = [(subshot_command path, Some target_dir, e)])).
  { intros (b & out & f' & shot & Hrun & Hcases).
    exists b, out, f', shot. split; [exact Hrun|]. split; [exact Hcases|].
    apply (Hskip b out f' shot Hrun). }
  clear Hskip. unfold run_subshot.
  destruct (check_subshot_available_run env (mkWorld c f l)) as [sp Hsp].
  rewrite (bind_ok _ _ _ _ _ Hsp).
  destruct (truthy sp); cbn [negb]; [|quiet f l].
  rewrite (bind_ok _ _ _ _ _ (check_playwright_installed_run env _)).
  destruct (match find_spec_playwright env with Ok b => b | Raise _ => false end);
    cbn [negb]; [|quiet f l].
  rewrite bind_exists. cbn [fs].
  destruct (lookup (os_path_join target_dir "alive_subs.txt") f) as [content|] eqn:L;
    cbn [negb]; [|quiet f l].
  rewrite (bind_getsize _ content) by exact L.
  destruct (size_of content =? 0)%Z; [quiet f l|].
  rewrite !bind_print. unfold try_except.
  launch p text E.
  - rewrite (bind_ok _ _ _ _ _ E).
    rewrite (bind_stream (fun line => line)).
    destruct (broken p); rewrite bind_print; unfold ret; rewrite <- ?app_assoc;
      eexists; do 3 eexists; (split; [reflexivity | right; eauto]).
  - rewrite (bind_raise _ _ _ _ _ E). rewrite bind_print.
    unfold ret. rewrite <- ?app_assoc.
    exists false. do 3 eexists. split; [reflexivity | right; eauto].
Qed.

(** The handler of [run_command] when the file is still to be closed. *)
Lemma run_command_handler env file_handle e c f l :
  (print (nl ++ "[!] Error running command: " ++ e) ;;
   file_close env file_handle ;;
   ret false) (mkWorld c f l)
  = (after_handler env file_handle,
     mkWorld (c ++ [((nl ++ "[!] Error running command: " ++ e) ++ nl)%string]) f l).
Proof.
  rewrite bind_print. unfold after_handler, file_close.
  destruct file_handle as [h|]; [|reflexivity].
  destruct (close_error env h); reflexivity.
Qed.

(** The close of line 407, caught. *)
Lemma run_command_close {B : Type} env file_handle (k : option string -> M B) w :
  bind (try_except (file_close env file_handle ;; ret None)
          (fun e => ret (Some e))) k w
  = k (match file_handle with
       | Some h => close_error env h
       | None => None
       end) w.
Proof.
  unfold bind, try_except, file_close.
  destruct file_handle as [h|]; [|reflexivity].
  destruct (close_error env h); reflexivity.
Qed.

(** The body of the [try] of [run_command], once the handle is known: the
    command is handed to [Popen] once, and the call ends in one of five
    ways. *)
Lemma run_command_body env command cwd file_handle c f l :
  exists r c' f' e,
    try_except
      (process <- Popen env command cwd ;;
       for_each_line process (fun line =>
         print_end line "" ;;
         match file_handle with
         | Some h => file_write env h line
         | None => ret tt
         end) ;;
       closing <- try_except (file_close env file_handle ;; ret None)
                    (fun e => ret (Some e)) ;;
       match closing with
       | Some e =>
           print (nl ++ "[!] Error running command: " ++ e) ;;
           ret false
       | None =>
           if negb (returncode process =? 0)%Z then
             print (nl ++ "[!] Command exited with code: "
                    ++ str_of_Z (returncode process)) ;;
             ret false
           else
             print (nl ++ "[" ++ check_mark ++ "] Command completed successfully.") ;;
             ret true
       end)
      (fun e =>
         print (nl ++ "[!] Error running command: " ++ e) ;;
         file_close env file_handle ;;
         ret false)
      (mkWorld c f l)
    = (r, mkWorld c' f' (l ++ [(command, cwd, e)]))
    /\ ((exists text,
           popen env (length l) command cwd f = PopenRaised text
           /\ e = LaunchFailed text /\ r = after_handler env file_handle)
        \/ (exists p,
              popen env (length l) command cwd f = Started p
              /\ e = Exited (returncode p)
              /\ ((~ writes_ok env file_handle (fs_after p) (stdout p)
                   /\ r = after_handler env file_handle)
                  \/ (writes_ok env file_handle (fs_after p) (stdout p)
                      /\ broken p <> None
                      /\ r = after_handler env file_handle)
                  \/ (writes_ok env file_handle (fs_after p) (stdout p)
                      /\ broken p = None
                      /\ ~ close_ok env file_handle
                      /\ r = Ok false)
                  \/ (writes_ok env file_handle (fs_after p) (stdout p)
                      /\ broken p = None
                      /\ close_ok env file_handle
                      /\ r = Ok (returncode p =? 0)%Z
                      /\ (forall h content,
                            file_handle = Some h ->
                            lookup h (fs_after p) = Some content ->
                            lookup h f' = Some (content ++ stdout p)))))).
Proof.
  unfold try_except at 1.
  launch p text E.
  - rewrite (bind_ok _ _ _ _ _ E). unfold for_each_line. rewrite bind_assoc.
    match goal with
    | |- context [bind (for_each _ _) _ (mkWorld ?c1 ?f1 ?l1)] =>
        destruct (for_each_tee env file_handle (stdout p) c1 f1 l1)
          as (c' & f' & [(Hok & T & Hh) | (Hno & text & T)])
    end.
    + rewrite (bind_ok _ _ _ _ _ T).
      destruct (broken p) as [text|] eqn:B.
      * unfold bind at 1. unfold raise at 1. rewrite run_command_handler.
        do 4 eexists. split; [reflexivity|]. right. exists p.
        split; [exact P|]. split; [reflexivity|].
        right. left. split; [exact Hok|]. split; [congruence | reflexivity].
      * rewrite bind_ret. cbv beta. rewrite run_command_close.
        destruct file_handle as [h|].
        -- destruct (close_error env h) as [text|] eqn:C.
           ++ rewrite bind_print. unfold ret.
              do 4 eexists. split; [reflexivity|]. right. exists p.
              split; [exact P|]. split; [reflexivity|].
              right. right. left. split; [exact Hok|]. split; [exact B|].
              split; [|reflexivity].
              intros Hc. specialize (Hc h eq_refl). congruence.
           ++ destruct (returncode p =? 0)%Z eqn:R; cbn [negb];
                rewrite bind_print; unfold ret;
                (do 4 eexists; split; [reflexivity|]; right; exists p;
                 split; [exact P|]; split; [reflexivity|];
                 right; right; right; split; [exact Hok|]; split; [exact B|];
                 split; [intros h' [= <-]; exact C|];
                 split; [rewrite R; reflexivity | exact Hh]).
        -- destruct (returncode p =? 0)%Z eqn:R; cbn [negb];
             rewrite bind_print; unfold ret;
             (do 4 eexists; split; [reflexivity|]; right; exists p;
              split; [exact P|]; split; [reflexivity|];
              right; right; right; split; [exact Hok|]; split; [exact B|];
              split; [intros h' [=]|];
              split; [rewrite R; reflexivity | exact Hh]).
    + rewrite (bind_raise _ _ _ _ _ T). rewrite run_command_handler.
      do 4 eexists. split; [reflexivity|]. right. exists p.
      split; [exact P|]. split; [reflexivity|].
      left. split; [exact Hno | reflexivity].
  - rewrite (bind_raise _ _ _ _ _ E). rewrite run_command_handler.
    do 4 eexists. split; [reflexivity|]. left. exists text.
    split; [exact P|]. split; reflexivity.
Qed.

(** Lines 381-384: the handle is that of the file at [output_path], or
    none; a file that cannot be opened ends the [try]. *)
Lemma run_command_open env output_file cwd c f l :
  (match output_file with
   | Some name =>
       if truthy output_file then
         let file_path :=
           match cwd with
           | Some d => if truthy cwd then os_path_join d name else name
           | None => name
           end in
         h <- open_write env file_path ;; ret (Some h)
       else ret None
   | None => ret None
   end) (mkWorld c f l)
  = match output_path output_file cwd with
    | Some h =>
        match open_w env h with
        | Some text => (Raise text, mkWorld c f l)
        | None => (Ok (Some h), mkWorld c ((h, []) :: f) l)
        end
    | None => (Ok None, mkWorld c f l)
    end.
Proof.
  unfold output_path.
  destruct output_file as [name|]; [|reflexivity].
  destruct (truthy (Some name)); [|reflexivity].
  cbv zeta. unfold bind, open_write, ret. cbn [console fs launched].
  match goal with
  | |- context [open_w env ?p] => destruct (open_w env p)
  end; reflexivity.
Qed.





End RunnerFacts.

(* ===================================================================== *)
(** * fastrec.py: the process runner                                      *)
(* ===================================================================== *)

Module RunnerClaims.
Import PyStr Fastrec RunnerFacts.
Local Open Scope list_scope.
Local Open Scope py_scope.




(** The ways of a call on sample machines: status zero, another status, a
    launch that raises, an output file that cannot be opened. *)
Example run_command_samples :
  fst (run_command (exit_machine 0) "httpx -l hosts.txt" (Some "out.txt")
         (Some "/work/acme") (mkWorld [] [] [])) = Ok true
  /\ fst (run_command (exit_machine 2) "httpx -l hosts.txt" None None
            (mkWorld [] [] [])) = Ok false
  /\ fst (run_command dead_machine "httpx -l hosts.txt" None None
            (mkWorld [] [] [])) = Ok false
  /\ (let r := run_command read_only_machine "httpx -l hosts.txt"
                 (Some "out.txt") None (mkWorld [] [] []) in
      fst r = Ok false /\ launched (snd r) = []).
Proof. vm_compute. repeat split. Qed.

End RunnerClaims.

(* ===================================================================== *)
(** * fastrec.py: the pipeline                                            *)
(* ===================================================================== *)

Module PipelineFacts.
Import PyStr Fastrec RunnerFacts.
Local Open Scope list_scope.
Local Open Scope py_scope.

Lemma ends_with_rev l tail :
  (exists rest, rev l = rev tail ++ rest) -> ends_with l tail.
Proof.
  intros [rest E]. exists (rev rest).
  rewrite <- (rev_involutive l), E, rev_app_distr, rev_involutive. reflexivity.
Qed.

(** One step of the walk through [run_recon]: a print, a piped command, or
    the parallel stage. *)
Ltac stride :=
  first
    [ rewrite bind_print
    | rewrite bind_ret
    | rewrite bind_assoc
    | match goal with
      | |- context [bind (run_piped_command ?env ?cmd ?cwd) _ (mkWorld ?c ?f ?l)] =>
          let b := fresh "b" in let o := fresh "o" in
          let e := fresh "e" in let E := fresh "E" in
          destruct (run_piped_command_run env cmd cwd c f l) as (b & o & e & E);
          rewrite (bind_ok _ _ _ _ _ E); clear E
      | |- context [bind (run_parallel_commands ?env ?c1 ?c2 ?l1 ?l2 ?cwd) _
                      (mkWorld ?c ?f ?l)] =>
          let o := fresh "o" in let f' := fresh "f" in
          let e1 := fresh "e" in let e2 := fresh "e" in let E := fresh "E" in
          destruct (run_parallel_commands_run env c1 c2 l1 l2 cwd c f l)
            as (o & f' & e1 & e2 & E);
          rewrite (bind_ok _ _ _ _ _ E); clear E
      end ].

(** The whole of [run_recon]: it returns; the commands it launches are the
    discovery command, the subshot command or nothing, the commands of the
    later stages, and the scanner command or nothing. *)
Lemma run_recon_run env path mode target_input target_dir c f l :
  exists w' shot nuc,
    run_recon env path mode target_input target_dir (mkWorld c f l) = (Ok tt, w')
    /\ commands w'
       = commands (mkWorld c f l)
         ++ discovery_command mode target_input :: shot ++ later_commands ++ nuc
    /\ (shot = [] \/ exists p, shot = [subshot_command p])
    /\ (snapshot_skipped env target_dir
          (fs_after_discovery env mode target_input target_dir (mkWorld c f l)) ->
        shot = [])
    /\ (if contains "/path" path
        then nuc = []
             /\ ends_with (console w') (nuclei_warning ++ completion_banner target_dir)
        else nuc = [nuclei_command path]
             /\ ends_with (console w') (completion_banner target_dir)).
Proof.
  unfold run_recon. cbv zeta.
  destruct (contains "/path" path) eqn:C.
  all: repeat stride.
  all: rewrite bind_exists; cbn [fs].
  all: destruct (lookup (os_path_join target_dir "alive_subs.txt") _)
         as [content|] eqn:L; cbn [negb].
  all: try (rewrite bind_assoc, (bind_getsize _ content) by exact L;
            rewrite bind_ret; destruct (size_of content =? 0)%Z).
  all: repeat stride.
  all: match goal with
       | |- context [bind (run_subshot ?env ?d) _ (mkWorld ?c1 ?f1 ?l1)] =>
           destruct (run_subshot_run env d c1 f1 l1)
             as (bs & os & fs' & shot & E & Hshot & Hskip);
           rewrite (bind_ok _ _ _ _ _ E); clear E
       end.
  all: repeat stride.
  all: unfold print, print_end; cbn [console fs launched].
  all: eexists; exists (map (fun entry => fst (fst entry)) shot); eexists.
  all: split; [reflexivity|].
  all: split;
         [unfold commands, later_commands, discovery_command, nuclei_command;
          cbn [launched]; rewrite !map_app; cbn [map fst];
          rewrite <- !app_assoc; cbn [app]; reflexivity|].
  all: split;
         [destruct Hshot as [(-> & _) | (p & es & ->)];
          [left; reflexivity | right; exists p; reflexivity]|].
  all: split; [intros Hs; rewrite (Hskip Hs); reflexivity|].
  all: split; [reflexivity|].
  all: apply ends_with_rev; cbn [console]; rewrite !rev_unit;
       unfold nuclei_warning, completion_banner; cbn [rev app];
       eexists; reflexivity.
Qed.

End PipelineFacts.

Module PipelineClaims.
Import PyStr Fastrec RunnerFacts PipelineFacts.
Local Open Scope list_scope.
Local Open Scope py_scope.

(** C6. When subshot or Playwright is not there, or the list of alive
    hosts is missing or empty, [run_subshot] returns [False]: it raises
    nothing, launches nothing and leaves the files alone.  A run of
    [run_recon] whose snapshot stage meets such a condition returns, with
    all the commands of the later stages launched, in order, right after
    the discovery command; and every run launches them, whatever the
    snapshot stage did. *)
Theorem snapshot_stage_skipped_not_failed (env : Env) (target_dir : string) :
  (forall w,
     snapshot_skipped env target_dir (fs w) ->
     exists out,
       run_subshot env target_dir w
       = (Ok false, mkWorld (console w ++ out) (fs w) (launched w)))
  /\ (forall path mode target_input w,
        snapshot_skipped env target_dir
          (fs_after_discovery env mode target_input target_dir w) ->
        exists w' nuc,
          run_recon env path mode target_input target_dir w = (Ok tt, w')
          /\ commands w'
             = commands w
               ++ discovery_command mode target_input :: later_commands ++ nuc)
  /\ (forall path mode target_input w,
        exists w' shot nuc,
          run_recon env path mode target_input target_dir w = (Ok tt, w')
          /\ commands w'
             = commands w
               ++ discovery_command mode target_input
                  :: shot ++ later_commands ++ nuc).
Proof.
  split; [|split].
  - intros [c f l] Hs. apply run_subshot_skips. exact Hs.
  - intros path mode target_input [c f l] Hs.
    destruct (run_recon_run env path mode target_input target_dir c f l)
      as (w' & shot & nuc & Hrun & Hcmd & _ & Hskip & _).
    exists w', nuc. split; [exact Hrun|].
    rewrite Hcmd, (Hskip Hs). reflexivity.
  - intros path mode target_input [c f l].
    destruct (run_recon_run env path mode target_input target_dir c f l)
      as (w' & shot & nuc & Hrun & Hcmd & _).
    exists w', shot, nuc. auto.
Qed.

Lemma snapshot_stage_skipped_not_failed_witness :
  (exists out,
     run_subshot bare_machine "/work/acme" (mkWorld [] [] [])
     = (Ok false, mkWorld ([] ++ out) [] []))
  /\ (exists w' nuc,
        run_recon bare_machine NUCLEI_TEMPLATES_PATH 1 "example.com" "/work/acme"
          (mkWorld [] [] []) = (Ok tt, w')
        /\ commands w'
           = [] ++ discovery_command 1 "example.com" :: later_commands ++ nuc).
Proof.
  destruct (snapshot_stage_skipped_not_failed bare_machine "/work/acme")
    as (Hshot & Hrun & _).
  split.
  - apply (Hshot (mkWorld [] [] [])). left. repeat split.
  - apply (Hrun NUCLEI_TEMPLATES_PATH 1%Z "example.com"%string (mkWorld [] [] [])).
    left. repeat split.
Defined.

(** The scanner command is none of the other commands of a run. *)
Lemma nuclei_command_not_discovery path mode target_input :
  nuclei_command path <> discovery_command mode target_input.
Proof.
  unfold nuclei_command, discovery_command.
  destruct (mode =? 1)%Z; simpl; discriminate.
Qed.

Lemma nuclei_command_not_subshot path p :
  nuclei_command path <> subshot_command p.
Proof.
  unfold nuclei_command, subshot_command, dquote.
  destruct (endswith p ".py"); simpl; discriminate.
Qed.

Lemma nuclei_command_not_later path : ~ In (nuclei_command path) later_commands.
Proof.
  unfold nuclei_command, later_commands. simpl.
  intros H. repeat (destruct H as [H|H]; [discriminate H|]). exact H.
Qed.

(** C7. As shipped, the configured path holds the placeholder.  Whatever
    the path, the run returns; the scanner command is among the commands
    it launches exactly when the path does not hold the placeholder, and it
    is then the last of them; with the placeholder the five lines of the
    warning are printed instead, and in both cases the completion banner
    ends the output. *)
Theorem nuclei_scan_iff_configured
    (env : Env) (path : string) (mode : Z) (target_input target_dir : string)
    (w : World) :
  contains "/path" NUCLEI_TEMPLATES_PATH = true
  /\ exists w' new shot,
       run_recon env path mode target_input target_dir w = (Ok tt, w')
       /\ commands w' = commands w ++ new
       /\ new = discovery_command mode target_input :: shot ++ later_commands
                ++ (if contains "/path" path then [] else [nuclei_command path])
       /\ (In (nuclei_command path) new <-> contains "/path" path = false)
       /\ ends_with (console w')
            ((if contains "/path" path then nuclei_warning else [])
             ++ completion_banner target_dir).
Proof.
  split; [reflexivity|].
  destruct w as [c f l].
  destruct (run_recon_run env path mode target_input target_dir c f l)
    as (w' & shot & nuc & Hrun & Hcmd & Hshot & _ & Hnuc).
  exists w', (discovery_command mode target_input :: shot ++ later_commands ++ nuc),
    shot.
  split; [exact Hrun|]. split; [exact Hcmd|].
  assert (Hother : ~ In (nuclei_command path)
                       (discovery_command mode target_input
                        :: shot ++ later_commands)).
  { intros [E|H].
    - symmetry in E. exact (nuclei_command_not_discovery _ _ _ E).
    - apply in_app_or in H as [H|H].
      + destruct Hshot as [-> | (p & ->)]; [exact H|].
        destruct H as [E|[]]. symmetry in E.
        exact (nuclei_command_not_subshot _ _ E).
      + exact (nuclei_command_not_later _ H). }
  destruct (contains "/path" path); destruct Hnuc as (-> & Hends).
  - split; [reflexivity|]. split; [|exact Hends].
    split; [|discriminate]. intros H. exfalso. apply Hother.
    rewrite app_nil_r in H. exact H.
  - split; [reflexivity|]. split; [|exact Hends].
    split; [reflexivity|]. intros _.
    right. apply in_or_app. right. apply in_or_app. right. left. reflexivity.
Qed.

(** A run on the sample machine with the path as shipped: nothing but the
    discovery and the later stages is launched. *)
Example run_recon_as_shipped :
  commands (snd (run_recon bare_machine NUCLEI_TEMPLATES_PATH 1 "example.com"
                   "/work/acme" (mkWorld [] [] [])))
  = discovery_command 1 "example.com" :: later_commands.
Proof. vm_compute. reflexivity. Qed.

Example run_recon_configured :
  commands (snd (run_recon bare_machine "/opt/nuclei-templates/http/exposures/"
                   1 "example.com" "/work/acme" (mkWorld [] [] [])))
  = discovery_command 1 "example.com" :: later_commands
    ++ [nuclei_command "/opt/nuclei-templates/http/exposures/"].
Proof. vm_compute. reflexivity. Qed.

End PipelineClaims.

(* ===================================================================== *)
(** * Further properties: names, URLs and lists                           *)
(* ===================================================================== *)

Module NamesMore.
Import PyStr PyStrFacts Subshot SubshotNames BatchClaims.
Local Open Scope list_scope.

(** X1. Whatever the input, [normalize_url] returns a string that begins
    with [http://] or [https://] and has no whitespace at either end; a
    blank input becomes the bare scheme [https://]. *)
Theorem normalize_url_has_scheme (x : string) :
  has_scheme (normalize_url x) = true
  /\ first_not isspace (normalize_url x)
  /\ last_not isspace (normalize_url x)
  /\ (is_blank x = true -> normalize_url x = "https://"%string).
Proof.
  assert (Hblank : is_blank x = true -> strip x = EmptyString).
  { intros B. pose proof (strip_with_truthy isspace x) as T.
    unfold is_blank in B. rewrite B in T. simpl in T.
    unfold strip. destruct (strip_with isspace x); [reflexivity|discriminate]. }
  unfold normalize_url. cbv zeta.
  destruct (has_scheme (strip x)) eqn:H; cbn [negb].
  - repeat split.
    + exact H.
    + apply strip_with_first_not.
    + apply strip_with_last_not.
    + intros B. rewrite (Hblank B) in H. discriminate.
  - repeat split.
    + apply has_scheme_https.
    + unfold last_not. rewrite last_char_app.
      pose proof (strip_with_last_not isspace x) as L. unfold last_not in L.
      fold (strip x) in L. destruct (last_char (strip x)); [exact L|reflexivity].
    + intros B. rewrite (Hblank B). reflexivity.
Qed.

Lemma normalize_url_has_scheme_witness :
  normalize_url (nl ++ "  ") = "https://"%string.
Proof.
  apply (normalize_url_has_scheme (nl ++ "  ")). reflexivity.
Defined.

Lemma replace_from_skip old new a b :
  replace_from old new (String.length a) (a ++ b)%string = replace_from old new 0 b.
Proof.
  induction a as [|c t IH]; [reflexivity|]. simpl. exact IH.
Qed.

Lemma replace_from_drops_prefix c t b :
  replace_from (String c t) "" 0 (String c t ++ b)%string
  = replace_from (String c t) "" 0 b.
Proof.
  change (String c t ++ b)%string with (String c (t ++ b)).
  rewrite replace_from_scan.
  change (String c (t ++ b)) with (String c t ++ b)%string.
  rewrite prefix_app.
  replace (String.length (String c t) - 1) with (String.length t)
    by (simpl; lia).
  simpl append. apply replace_from_skip.
Qed.

(** X2. [sanitize_filename] drops a leading [https://] or [http://]: an
    entry written with either scheme, or with none, gets the same file
    name. *)
Theorem sanitize_filename_ignores_scheme (h : string) :
  sanitize_filename ("https://" ++ h) = sanitize_filename h
  /\ sanitize_filename ("http://" ++ h) = sanitize_filename h.
Proof.
  split; unfold sanitize_filename, replace.
  - rewrite (replace_from_drops_prefix "h" "ttps://" h). reflexivity.
  - assert (E : replace_from "https://" "" 0 ("http://" ++ h)
                = ("http://" ++ replace_from "https://" "" 0 h)%string)
      by reflexivity.
    rewrite E.
    rewrite (replace_from_drops_prefix "h" "ttp://"
               (replace_from "https://" "" 0 h)).
    reflexivity.
Qed.

Lemma strip_truthy_not_blank s :
  Subshot.truthy (strip s) = negb (is_blank s).
Proof. apply strip_with_truthy. Qed.

(** X3. The entries that [load_list] returns are never empty and carry no
    whitespace at either end; they come in the order of the lines, a
    repeated line giving a repeated entry, and a file of blank lines gives
    no entry at all. *)
Theorem load_list_entries (filepath : string) (lines more : list string) :
  exists subdomains,
    load_list filepath (ReadLines lines) = Loaded subdomains
    /\ Forall (fun entry => entry <> EmptyString /\ strip entry = entry) subdomains
    /\ (length subdomains <= length lines)%nat
    /\ load_list filepath (ReadLines (lines ++ more))
       = Loaded (subdomains ++ stripped_lines more)
    /\ (Forall (fun line => is_blank line = true) lines -> subdomains = []).
Proof.
  exists (stripped_lines lines). split; [reflexivity|].
  unfold load_list, stripped_lines. split; [|split; [|split]].
  - apply Forall_forall. intros entry Hin.
    apply in_map_iff in Hin as (line & <- & Hin).
    apply filter_In in Hin as [_ T].
    split; [|apply strip_idem].
    intros E. rewrite E in T. discriminate.
  - rewrite length_map. apply filter_length_le.
  - rewrite filter_app, map_app. reflexivity.
  - intros Hall. induction lines as [|line rest IH]; [reflexivity|].
    inversion Hall as [|? ? Hb Hrest]; subst. simpl.
    rewrite strip_truthy_not_blank, Hb. simpl. apply IH; assumption.
Qed.

Lemma load_list_entries_witness :
  load_list "subs.txt" (ReadLines [nl; ("   " ++ nl)%string]) = Loaded [].
Proof.
  destruct (load_list_entries "subs.txt" [nl; ("   " ++ nl)%string] [])
    as (subdomains & Hload & _ & _ & _ & Hblank).
  rewrite Hload. f_equal. apply Hblank.
  repeat constructor.
Defined.

End NamesMore.

(* ===================================================================== *)
(** * Further properties: the capture loop and the batch                  *)
(* ===================================================================== *)

Module CaptureMore.
Import PyStr PyStrFacts Subshot CaptureFacts BatchClaims.
Local Open Scope list_scope.

(** X4. The reason kept for an exception that is not a timeout is one of
    the four fixed texts or the beginning of the exception text, and never
    has more than 100 characters. *)
Theorem classify_reason_bounded (seconds_text : Z -> string) (timeout : Z)
    (msg : string) :
  (String.length (classify seconds_text timeout (OtherError msg)) <= 100)%nat
  /\ (In (classify seconds_text timeout (OtherError msg))
         ["DNS resolution failed"; "Connection refused";
          "Connection timed out"; "SSL/Certificate error"]%string
      \/ classify seconds_text timeout (OtherError msg) = take 100 msg).
Proof.
  unfold classify.
  repeat match goal with
         | |- context [if ?c then _ else _] => destruct c
         end;
    (split; [try (simpl; lia); apply take_length | simpl; tauto]).
Qed.

Section Saved.

Variable browser : nat -> string -> string -> Z -> session.
Variable seconds_text : Z -> string.

Lemma file_at_head path img rest : file_at path ((path, img) :: rest) = Some img.
Proof. simpl. rewrite String.eqb_refl. reflexivity. Qed.

Lemma try_body_returned url path timeout w w' :
  try_body browser url path timeout w = (None, w') ->
  file_at path (disk w') = Some CompleteImage.
Proof.
  unfold try_body.
  destruct (browser (length (opened w)) url path timeout) as [b s a]; simpl.
  destruct b; [discriminate|].
  destruct s as [|e []]; [|discriminate|discriminate].
  destruct a; [discriminate|].
  intros [= <-]. simpl. rewrite String.eqb_refl. reflexivity.
Qed.

Lemma take_screenshot_loop_saved fuel url path retries timeout :
  forall st w e w',
    take_screenshot_loop browser seconds_text fuel url path retries timeout st w
      = Some ((true, e), w') ->
    file_at path (disk w') = Some CompleteImage.
Proof.
  induction fuel as [|fuel IH]; intros st w e w'; simpl;
    destruct (attempt st <? retries)%Z; try discriminate.
  destruct (try_body browser url path timeout w) as [[ex|] w1] eqn:B.
  - apply IH.
  - intros [= <- <-]. exact (try_body_returned _ _ _ _ _ B).
Qed.

End Saved.

(** X5. When [take_screenshot] returns [True], the complete image is at
    the output path, and the reason is [None]. *)
Theorem take_screenshot_success_saved
    (browser : nat -> string -> string -> Z -> session)
    (seconds_text : Z -> string)
    (url path : string) (retries timeout : Z) (w w' : World)
    (e : option string) :
  take_screenshot browser seconds_text url path retries timeout w
    = Some ((true, e), w') ->
  file_at path (disk w') = Some CompleteImage /\ e = None.
Proof.
  intros Hrun. split.
  - exact (take_screenshot_loop_saved browser seconds_text _ _ _ _ _ _ _ _ _ Hrun).
  - destruct (take_screenshot_post browser seconds_text url path retries timeout w)
      as (k & b & e0 & w0 & Hrun0 & _ & _ & _ & _ & Hres).
    unfold take_screenshot in Hrun. unfold take_screenshot in Hrun0.
    rewrite Hrun in Hrun0. injection Hrun0 as <- <- <-.
    destruct Hres as [(_ & He & _) | (Hb & _)]; [exact He | discriminate].
Qed.

Lemma take_screenshot_success_saved_witness :
  file_at "shots/a.example.com.png"
    (disk (mkWorld
             [("https://a.example.com"%string, "shots/a.example.com.png"%string, 30000%Z);
              ("https://a.example.com"%string, "shots/a.example.com.png"%string, 30000%Z)]
             [("shots/a.example.com.png"%string, CompleteImage)] []))
  = Some CompleteImage.
Proof.
  apply (take_screenshot_success_saved second_try whole_seconds_text
           "https://a.example.com" "shots/a.example.com.png" 2 30000
           (mkWorld [] [] []) _ None).
  reflexivity.
Defined.

Lemma sessions_of_length path_join output_dir timeout :
  forall entries tries,
    length tries = length entries ->
    Forall (fun k => (1 <= k <= 2)%nat) tries ->
    (length entries <= length (sessions_of path_join output_dir timeout entries tries)
     <= 2 * length entries)%nat.
Proof.
  induction entries as [|entry rest IH]; intros [|k tries] Hlen Hall;
    simpl in *; try lia.
  inversion Hall as [|? ? Hk Hrest]; subst.
  rewrite length_app, repeat_length.
  specialize (IH tries ltac:(lia) Hrest). lia.
Qed.

Lemma sessions_of_timeout path_join output_dir timeout :
  forall entries tries,
    Forall (fun session => snd session = (timeout * 1000)%Z)
      (sessions_of path_join output_dir timeout entries tries).
Proof.
  induction entries as [|entry rest IH]; intros [|k tries]; simpl;
    try constructor.
  apply Forall_app. split; [|apply IH].
  apply Forall_forall. intros x Hin. apply repeat_spec in Hin. subst. reflexivity.
Qed.

(** X6. A batch of N entries opens at least N and at most 2N browser
    sessions, each with the timeout of the batch turned into
    milliseconds; the empty batch opens none and returns (0, 0). *)
Theorem process_subdomains_session_bounds
    (browser : nat -> string -> string -> Z -> session)
    (seconds_text : Z -> string)
    (path_join : string -> string -> string)
    (subdomains : list string) (output_dir : string) (timeout : Z) (w : World) :
  exists success_count fail_count w' sessions,
    process_subdomains browser seconds_text path_join subdomains
      output_dir timeout w = Some ((success_count, fail_count), w')
    /\ opened w' = opened w ++ sessions
    /\ (length subdomains <= length sessions <= 2 * length subdomains)%nat
    /\ Forall (fun session => snd session = (timeout * 1000)%Z) sessions
    /\ (success_count + fail_count = Z.of_nat (length subdomains))%Z
    /\ (subdomains = [] ->
        w' = w /\ success_count = 0%Z /\ fail_count = 0%Z).
Proof.
  unfold process_subdomains.
  destruct (process_loop_post browser seconds_text path_join output_dir timeout
              subdomains (length subdomains) 1%nat 0%Z 0%Z w)
    as (s' & f' & w' & tries & Hloop & Hs & Hf & Hsum & Hlen & Hall & Hop).
  exists s', f', w', (sessions_of path_join output_dir timeout subdomains tries).
  split; [exact Hloop|]. split; [exact Hop|].
  split; [apply sessions_of_length; assumption|].
  split; [apply sessions_of_timeout|].
  split; [lia|].
  intros ->. simpl in Hloop. injection Hloop as <- <- <-. auto.
Qed.

Lemma process_subdomains_session_bounds_witness :
  process_subdomains second_try whole_seconds_text slash_join [] "shots" 30
    (mkWorld [] [] []) = Some ((0%Z, 0%Z), mkWorld [] [] []).
Proof.
  destruct (process_subdomains_session_bounds second_try whole_seconds_text
              slash_join [] "shots" 30 (mkWorld [] [] []))
    as (s & f & w' & sessions & Hrun & _ & _ & _ & _ & Hnil).
  destruct (Hnil eq_refl) as (-> & -> & ->). exact Hrun.
Defined.

End CaptureMore.

(* ===================================================================== *)
(** * Further properties: the runners                                     *)
(* ===================================================================== *)

Module RunnerMore.
Import PyStr Fastrec RunnerFacts PipelineFacts.
Local Open Scope list_scope.
Local Open Scope py_scope.

(** X7. [run_piped_command] raises nothing and hands its command to
    [Popen] once.  When the process starts, the result is [True] exactly
    when its output is read to the end, whatever its exit status; a launch
    that raised gives [False]. *)
Theorem run_piped_command_ignores_status
    (env : Env) (command : string) (cwd : option string) (w : World) :
  exists b w' e,
    run_piped_command env command cwd w = (Ok b, w')
    /\ launched w' = launched w ++ [(command, cwd, e)]
    /\ (forall p,
          popen env (length (launched w)) command cwd (fs w) = Started p ->
          e = Exited (returncode p) /\ (b = true <-> broken p = None))
    /\ (forall text,
          popen env (length (launched w)) command cwd (fs w) = PopenRaised text ->
          e = LaunchFailed text /\ b = false).
Proof.
  destruct w as [c f l]. cbn [launched fs].
  unfold run_piped_command. rewrite !bind_print. unfold try_except.
  launch p text E.
  - rewrite (bind_ok _ _ _ _ _ E). rewrite (bind_stream (fun line => line)).
    destruct (broken p) as [t|] eqn:B.
    + rewrite bind_print. unfold ret.
      do 3 eexists. split; [reflexivity|]. split; [reflexivity|].
      split; [|intros ? P'; congruence].
      intros p' P'. rewrite P in P'. injection P' as <-.
      split; [reflexivity|]. rewrite B. split; discriminate.
    + destruct (negb (returncode p =? 0)%Z);
        rewrite ?bind_ret, ?bind_print; unfold ret;
        (do 3 eexists; split; [reflexivity|]; split; [reflexivity|];
         split; [|intros ? P'; congruence];
         intros p' P'; rewrite P in P'; injection P' as <-;
         split; [reflexivity|]; rewrite B; split; reflexivity).
  - rewrite (bind_raise _ _ _ _ _ E). rewrite bind_print. unfold ret.
    do 3 eexists. split; [reflexivity|]. split; [reflexivity|].
    split; [intros ? P'; congruence|].
    intros t P'. rewrite P in P'. injection P' as <-. split; reflexivity.
Qed.

(** X8. [run_parallel_commands] raises nothing and hands both commands to
    [Popen], the second also when the first could not be launched or left
    with an error. *)
Theorem run_parallel_commands_launches_both
    (env : Env) (cmd1 cmd2 label1 label2 : string) (cwd : option string)
    (w : World) :
  exists w' e1 e2,
    run_parallel_commands env cmd1 cmd2 label1 label2 cwd w = (Ok tt, w')
    /\ launched w' = launched w ++ [(cmd1, cwd, e1); (cmd2, cwd, e2)].
Proof.
  destruct w as [c f l].
  destruct (run_parallel_commands_run env cmd1 cmd2 label1 label2 cwd c f l)
    as (out & f' & e1 & e2 & E).
  rewrite E. do 3 eexists. split; reflexivity.
Qed.


(** X10. When the output file can be opened, written and closed, and the
    process starts, leaves that file alone and has its output read to the
    end, the file holds, after [run_command], exactly the lines that were
    read from the process, whatever it held before; the result is [True]
    exactly when the exit status is zero. *)
Theorem run_command_tees_output
    (env : Env) (command name : string) (cwd : option string) (w : World)
    (p : process) :
  let path := match cwd with
              | Some d => if truthy cwd then os_path_join d name else name
              | None => name
              end in
  name <> EmptyString ->
  open_w env path = None ->
  popen env (length (launched w)) command cwd ((path, []) :: fs w) = Started p ->
  broken p = None ->
  writes_ok env (Some path) (fs_after p) (stdout p) ->
  close_error env path = None ->
  lookup path (fs_after p) = Some [] ->
  exists w',
    run_command env command (Some name) cwd w
    = (Ok (returncode p =? 0)%Z, w')
    /\ lookup path (fs w') = Some (stdout p).
Proof.
  intros path Hname Hopen Hpopen Hread Hwrite Hclose Hkept. destruct w as [c f l].
  cbn [launched fs] in Hpopen.
  remember (Some name) as output_file eqn:Hof.
  unfold run_command. rewrite !bind_print. unfold try_except_local.
  rewrite run_command_open. subst output_file.
  assert (T : output_path (Some name) cwd = Some path).
  { unfold output_path.
    assert (T : truthy (Some name) = true)
      by (destruct name; [contradiction|reflexivity]).
    rewrite T. reflexivity. }
  rewrite T, Hopen.
  match goal with
  | |- context [mkWorld ?c1 ((path, []) :: f) l] =>
      destruct (run_command_body env command cwd (Some path) c1 ((path, []) :: f) l)
        as (r & c' & f' & e & Hrun & Hcases)
  end.
  rewrite Hrun.
  destruct Hcases as [(text & P & _) |
                      (p' & P & _ & [(Hno & _) | [(_ & B & _) |
                         [(_ & _ & Hc & _) | (_ & _ & _ & -> & Hh)]]])];
    try (rewrite Hpopen in P; injection P as <-).
  - congruence.
  - contradiction.
  - contradiction.
  - exfalso. apply Hc. intros h [= <-]. exact Hclose.
  - eexists. split; [reflexivity|]. cbn [fs].
    exact (Hh path [] eq_refl Hkept).
Qed.

Lemma run_command_tees_output_witness :
  exists w',
    run_command Samples.chatty_machine "httpx -l hosts.txt" (Some "alive_subs.txt")
      (Some "/work/acme")
      (mkWorld [] [("/work/acme/alive_subs.txt"%string, ["old" ++ nl]%string)] [])
    = (Ok true, w')
    /\ lookup "/work/acme/alive_subs.txt" (fs w')
       = Some [("a.example.com" ++ nl)%string; ("b.example.com" ++ nl)%string].
Proof.
  apply (run_command_tees_output Samples.chatty_machine "httpx -l hosts.txt"
           "alive_subs.txt" (Some "/work/acme"%string)
           (mkWorld [] [("/work/acme/alive_subs.txt"%string, ["old" ++ nl]%string)] [])
           (mkProcess [("a.example.com" ++ nl)%string; ("b.example.com" ++ nl)%string]
              None 0
              (("/work/acme/alive_subs.txt"%string, [])
               :: [("/work/acme/alive_subs.txt"%string, ["old" ++ nl]%string)]))).
  - discriminate.
  - reflexivity.
  - reflexivity.
  - reflexivity.
  - intros h i _ _. reflexivity.
  - reflexivity.
  - reflexivity.
Defined.

(** X11. Every command of a run of [run_recon] is launched with the target
    directory as its working directory, and a run launches at least eight
    and at most ten commands. *)
Theorem run_recon_in_target_dir
    (env : Env) (path : string) (mode : Z) (target_input target_dir : string)
    (w : World) :
  exists w' new,
    run_recon env path mode target_input target_dir w = (Ok tt, w')
    /\ launched w' = launched w ++ new
    /\ Forall (fun entry => snd (fst entry) = Some target_dir) new
    /\ (8 <= length new <= 10)%nat.
Proof.
  destruct w as [c f l].
  unfold run_recon. cbv zeta.
  destruct (contains "/path" path) eqn:C.
  all: repeat stride.
  all: rewrite bind_exists; cbn [fs].
  all: destruct (lookup (os_path_join target_dir "alive_subs.txt") _)
         as [content|] eqn:L; cbn [negb].
  all: try (rewrite bind_assoc, (bind_getsize _ content) by exact L;
            rewrite bind_ret; destruct (size_of content =? 0)%Z).
  all: repeat stride.
  all: match goal with
       | |- context [bind (run_subshot ?env ?d) _ (mkWorld ?c1 ?f1 ?l1)] =>
           destruct (run_subshot_run env d c1 f1 l1)
             as (bs & os & fs' & shot & E & Hshot & Hskip);
           rewrite (bind_ok _ _ _ _ _ E); clear E
       end.
  all: repeat stride.
  all: unfold print, print_end; cbn [console fs launched].
  all: rewrite <- ?app_assoc.
  all: do 2 eexists; split; [reflexivity|]; cbn [launched];
       split; [reflexivity|].
  all: destruct Hshot as [(-> & _) | (p & es & ->)]; cbn [app length];
       (split; [repeat constructor | lia]).
Qed.

End RunnerMore.

(* ===================================================================== *)
(** * Further properties: before and around a run                         *)
(* ===================================================================== *)

Module FrontMore.
Import PyStr Fastrec RunnerFacts PipelineFacts FastrecFront.
Local Open Scope list_scope.
Local Open Scope py_scope.

Lemma for_each_print_lines (g : string -> string) lines c f l :
  for_each lines (fun line => print (g line)) (mkWorld c f l)
  = (Ok tt, mkWorld (c ++ map (fun line => (g line ++ nl)%string) lines) f l).
Proof.
  revert c. induction lines as [|line rest IH]; intros c; simpl.
  - rewrite app_nil_r. reflexivity.
  - rewrite bind_print, IH, <- app_assoc. reflexivity.
Qed.

(** [check_dependencies] from a world given by its parts. *)
Lemma check_dependencies_run (env : Env) c f l :
  exists out,
    check_dependencies env (mkWorld c f l)
    = (Ok (forallb (fun tool => negb (not_found env tool)) dependencies),
       mkWorld (c ++ out) f l).
Proof.
  assert (Hmissing :
    forallb (fun tool => negb (not_found env tool)) dependencies
    = match filter (not_found env) dependencies with [] => true | _ => false end).
  { generalize dependencies. intros tools.
    induction tools as [|t rest IH]; simpl; [reflexivity|].
    destruct (not_found env t); simpl; [reflexivity | exact IH]. }
  rewrite Hmissing. unfold check_dependencies.
  destruct (check_subshot_available_run env (mkWorld c f l)) as [sp Hsp].
  rewrite (bind_ok _ _ _ _ _ Hsp).
  assert (Hwarn : exists warnings,
    (if truthy sp
     then playwright <- check_playwright_installed env ;;
          ret (if negb playwright then ["playwright"%string] else [])
     else ret ["subshot"%string]) (mkWorld c f l)
    = (Ok warnings, mkWorld c f l)).
  { destruct (truthy sp); [|eexists; reflexivity].
    rewrite (bind_ok _ _ _ _ _ (check_playwright_installed_run env _)).
    eexists; reflexivity. }
  destruct Hwarn as [warnings Hwarn]. rewrite (bind_ok _ _ _ _ _ Hwarn).
  destruct (filter (not_found env) dependencies) as [|m rest].
  - destruct warnings as [|x xs].
    + exists []. rewrite app_nil_r. reflexivity.
    + rewrite bind_print. unfold ret. eexists. reflexivity.
  - rewrite bind_print.
    rewrite (bind_ok _ _ _ _ _
               (for_each_print_lines
                  (fun tool => ("    [" ++ cross_mark ++ "] " ++ tool)%string)
                  _ _ _ _)).
    rewrite bind_print. unfold ret. rewrite <- !app_assoc.
    eexists. reflexivity.
Qed.

(** X12. [check_dependencies] raises nothing, launches nothing and leaves
    the files alone.  It returns [True] exactly when [shutil.which] finds
    each of the ten required tools: a missing subshot or Playwright only
    adds a line to the output. *)
Theorem check_dependencies_required_only (env : Env) (w : World) :
  exists out,
    check_dependencies env w
    = (Ok (forallb (fun tool => negb (not_found env tool)) dependencies),
       mkWorld (console w ++ out) (fs w) (launched w)).
Proof.
  destruct w as [c f l]. cbn [console fs launched].
  apply check_dependencies_run.
Qed.

End FrontMore.

Module ShellFacts.
Import PyStr PyStrFacts Fastrec FastrecFront FastrecShell.
Local Open Scope list_scope.
Local Open Scope shell_scope.

Lemma pbind_say {B : Type} text (k : unit -> P B) c f l i d :
  pbind (say text) k (mkShell (mkWorld c f l) i d)
  = k tt (mkShell (mkWorld (c ++ [(text ++ nl)%string]) f l) i d).
Proof. reflexivity. Qed.

Lemma pbind_input {B : Type} prompt (k : string -> P B) c f l line i d :
  pbind (input prompt) k (mkShell (mkWorld c f l) (line :: i) d)
  = k line (mkShell (mkWorld (c ++ [prompt]) f l) i d).
Proof. reflexivity. Qed.

Lemma pbind_input_eof {B : Type} prompt (k : string -> P B) c f l d :
  pbind (input prompt) k (mkShell (mkWorld c f l) [] d)
  = (Error "EOF when reading a line", mkShell (mkWorld (c ++ [prompt]) f l) [] d).
Proof. reflexivity. Qed.

Lemma pbind_exit {B : Type} code (k : unit -> P B) s :
  pbind (sys_exit code) k s = (Exit code, s).
Proof. reflexivity. Qed.

Lemma truthy_nonempty s : Subshot.truthy s = true -> s <> EmptyString.
Proof. destruct s; [discriminate | discriminate]. Qed.

(** One step at the terminal. *)
Ltac shell_step :=
  first [ rewrite pbind_say | rewrite pbind_input | rewrite pbind_input_eof ].

End ShellFacts.

Module ShellMore.
Import PyStr PyStrFacts Fastrec FastrecFront FastrecShell ShellFacts SubshotNames.
Local Open Scope list_scope.
Local Open Scope shell_scope.

(** X13. [get_user_input] returns only answers it has checked: the name and
    the target are stripped and not empty, the mode is 1 or 2, and in mode
    2 the target is a file that exists; three lines of input were read,
    nothing was launched and no file or directory changed.  When it leaves
    through [sys.exit] the status is 1. *)
Theorem get_user_input_checked (s s' : Shell) :
  (forall target_name mode target_input,
     get_user_input s = (Done (target_name, mode, target_input), s') ->
     target_name <> EmptyString /\ strip target_name = target_name
     /\ (mode = 1%Z \/ mode = 2%Z)
     /\ target_input <> EmptyString /\ strip target_input = target_input
     /\ (mode = 2%Z -> isfile target_input s' = true)
     /\ (exists a b c, stdin s = a :: b :: c :: stdin s')
     /\ launched (world s') = launched (world s)
     /\ fs (world s') = fs (world s)
     /\ dirs s' = dirs s)
  /\ (forall code, get_user_input s = (Exit code, s') -> code = 1%Z).
Proof.
  destruct s as [[c f l] i d]. unfold get_user_input.
  repeat shell_step.
  destruct i as [|a i]; repeat shell_step; [split; intros; discriminate|].
  destruct (Subshot.truthy (strip a)) eqn:Ta; cbn [negb]; repeat shell_step;
    [|unfold sys_exit; split; [intros; discriminate | intros ? [= <-]; reflexivity]].
  destruct i as [|b i]; repeat shell_step; [split; intros; discriminate|].
  destruct (String.eqb (strip b) "1" || String.eqb (strip b) "2") eqn:Tb;
    cbn [negb]; repeat shell_step;
    [|unfold sys_exit; split; [intros; discriminate | intros ? [= <-]; reflexivity]].
  destruct (String.eqb (strip b) "1") eqn:B1; cbn [Z.eqb Pos.eqb].
  - destruct i as [|x i]; repeat shell_step; [split; intros; discriminate|].
    destruct (Subshot.truthy (strip x)) eqn:Tx; cbn [negb]; repeat shell_step;
      [|unfold sys_exit; split; [intros; discriminate | intros ? [= <-]; reflexivity]].
    unfold pret. split; [|intros; discriminate].
    intros n m t [= <- <- <- <-]. cbn [world stdin dirs launched fs].
    repeat split; eauto using truthy_nonempty, strip_idem.
    intros [=].
  - destruct i as [|x i]; repeat shell_step; [split; intros; discriminate|].
    destruct (Subshot.truthy (strip x)) eqn:Tx; cbn [negb]; repeat shell_step;
      [|unfold sys_exit; split; [intros; discriminate | intros ? [= <-]; reflexivity]].
    destruct (isfile (strip x) _) eqn:F; cbn [negb]; repeat shell_step.
    + unfold pret. split; [|intros; discriminate].
      intros n m t [= <- <- <- <-]. cbn [world stdin dirs launched fs].
      repeat split; eauto using truthy_nonempty, strip_idem.
    + unfold sys_exit. split; [intros; discriminate | intros ? [= <-]; reflexivity].
Qed.

Lemma get_user_input_checked_witness :
  fst (get_user_input
         (mkShell (mkWorld [] [] []) ["  acme "; "1"; "example.com"]%string []))
  = Done ("acme"%string, 1%Z, "example.com"%string)
  /\ "acme"%string <> EmptyString.
Proof.
  split; [reflexivity|].
  destruct (get_user_input
              (mkShell (mkWorld [] [] []) ["  acme "; "1"; "example.com"]%string []))
    as [out s'] eqn:E.
  destruct (get_user_input_checked
              (mkShell (mkWorld [] [] []) ["  acme "; "1"; "example.com"]%string [])
              s') as [H _].
  refine (proj1 (H "acme"%string 1%Z "example.com"%string _)).
  rewrite E. vm_compute in E. injection E as <- <-. reflexivity.
Defined.

(** Whatever its outcome, [get_user_input] launches nothing and changes no
    file or directory. *)
Lemma get_user_input_frame s out s' :
  get_user_input s = (out, s') ->
  launched (world s') = launched (world s)
  /\ fs (world s') = fs (world s) /\ dirs s' = dirs s.
Proof.
  destruct s as [[c f l] i d]. unfold get_user_input.
  repeat shell_step.
  destruct i as [|a i]; repeat shell_step; [intros [= <- <-]; auto|].
  destruct (Subshot.truthy (strip a)); cbn [negb]; repeat shell_step;
    [|intros [= <- <-]; auto].
  destruct i as [|b i]; repeat shell_step; [intros [= <- <-]; auto|].
  destruct (String.eqb (strip b) "1" || String.eqb (strip b) "2");
    cbn [negb]; repeat shell_step; [|intros [= <- <-]; auto].
  destruct (String.eqb (strip b) "1"); cbn [Z.eqb Pos.eqb].
  - destruct i as [|x i]; repeat shell_step; [intros [= <- <-]; auto|].
    destruct (Subshot.truthy (strip x)); cbn [negb]; repeat shell_step;
      intros [= <- <-]; auto.
  - destruct i as [|x i]; repeat shell_step; [intros [= <- <-]; auto|].
    destruct (Subshot.truthy (strip x)); cbn [negb]; repeat shell_step;
      [|intros [= <- <-]; auto].
    destruct (isfile (strip x) _); cbn [negb]; repeat shell_step;
      intros [= <- <-]; auto.
Qed.

(** X14. [create_target_directory] launches nothing, changes no file and
    removes no directory.  When it returns, it returns the join of the
    current directory and the name, and that path exists.  When the path
    exists already, one line is read: the answer [y], in any letter case
    and with blanks around it, makes the call return, and any other
    answer makes it leave through [sys.exit(0)], the only exit there is;
    no directory is made in either case.  When the path does not exist,
    nothing is read and the directory is made, unless [os.makedirs]
    raises. *)
Theorem create_target_directory_safe
    (host : Host) (target_name : string) (s s' : Shell)
    (out : outcome string) :
  create_target_directory host target_name s = (out, s') ->
  launched (world s') = launched (world s)
  /\ fs (world s') = fs (world s)
  /\ incl (dirs s) (dirs s')
  /\ (forall target_dir,
        out = Done target_dir ->
        target_dir = os_path_join (getcwd host) target_name
        /\ path_exists target_dir s' = true)
  /\ (forall code,
        out = Exit code ->
        code = 0%Z /\ dirs s' = dirs s
        /\ path_exists (os_path_join (getcwd host) target_name) s = true
        /\ exists line rest,
             stdin s = line :: rest /\ stdin s' = rest
             /\ lower (strip line) <> "y"%string)
  /\ (forall line rest,
        path_exists (os_path_join (getcwd host) target_name) s = true ->
        stdin s = line :: rest ->
        stdin s' = rest /\ dirs s' = dirs s
        /\ (lower (strip line) = "y"%string ->
            out = Done (os_path_join (getcwd host) target_name))
        /\ (lower (strip line) <> "y"%string -> out = Exit 0))
  /\ (path_exists (os_path_join (getcwd host) target_name) s = false ->
      stdin s' = stdin s
      /\ match makedirs_error host (os_path_join (getcwd host) target_name) with
         | Some text => out = Error text /\ dirs s' = dirs s
         | None =>
             out = Done (os_path_join (getcwd host) target_name)
             /\ dirs s' = dirs s ++ [os_path_join (getcwd host) target_name]
         end).
Proof.
  destruct s as [[c f l] i d]. unfold create_target_directory. cbv zeta.
  destruct (path_exists (os_path_join (getcwd host) target_name)
              (mkShell (mkWorld c f l) i d)) eqn:E.
  - repeat shell_step.
    destruct i as [|a i]; repeat shell_step.
    { intros [= <- <-]. cbn [world stdin dirs launched fs].
      split; [reflexivity|]. split; [reflexivity|]. split; [apply incl_refl|].
      split; [intros ? [=]|]. split; [intros ? [=]|].
      split; [intros ? ? _ [=] | intros [=]]. }
    destruct (String.eqb (lower (strip a)) "y") eqn:Y; cbn [negb]; repeat shell_step.
    + apply String.eqb_eq in Y.
      unfold pret. intros [= <- <-]. cbn [world stdin dirs launched fs].
      split; [reflexivity|]. split; [reflexivity|]. split; [apply incl_refl|].
      split.
      { intros td [= <-]. split; [reflexivity|].
        unfold path_exists, isfile in *; cbn [world fs dirs] in *; exact E. }
      split; [intros ? [=]|].
      split; [|intros [=]].
      intros line rest _ [= <- <-].
      split; [reflexivity|]. split; [reflexivity|].
      split; [reflexivity | intros N; contradiction].
    + apply String.eqb_neq in Y.
      unfold sys_exit. intros [= <- <-]. cbn [world stdin dirs launched fs].
      split; [reflexivity|]. split; [reflexivity|]. split; [apply incl_refl|].
      split; [intros ? [=]|].
      split.
      { intros code [= <-]. split; [reflexivity|]. split; [reflexivity|].
        split; [reflexivity|]. exists a, i. auto. }
      split; [|intros [=]].
      intros line rest _ [= <- <-].
      split; [reflexivity|]. split; [reflexivity|].
      split; [intros N; contradiction | reflexivity].
  - destruct (makedirs_error host (os_path_join (getcwd host) target_name)) eqn:MK.
    + intros [= <- <-]. cbn [world stdin dirs launched fs].
      split; [reflexivity|]. split; [reflexivity|]. split; [apply incl_refl|].
      split; [intros ? [=]|]. split; [intros ? [=]|].
      split; [intros ? ? [=]|]. intros _. auto.
    + cbn [world stdin dirs]. repeat shell_step. unfold pret.
      intros [= <- <-]. cbn [world stdin dirs launched fs].
      split; [reflexivity|]. split; [reflexivity|].
      split; [apply incl_appl, incl_refl|].
      split.
      { intros td [= <-]. split; [reflexivity|].
        unfold path_exists. cbn [dirs].
        rewrite existsb_app. simpl. rewrite String.eqb_refl.
        rewrite !orb_true_r. reflexivity. }
      split; [intros ? [=]|].
      split; [intros ? ? [=]|]. intros _. auto.
Qed.

Lemma create_target_directory_safe_witness :
  dirs (snd (create_target_directory
               (mkHost bare_machine "/home/user" 1000 (fun _ => None) (fun _ => None)
                  (fun _ _ => None))
               "acme"
               (mkShell (mkWorld [] [] []) ["n"%string] ["/home/user/acme"%string])))
  = ["/home/user/acme"%string].
Proof.
  destruct (create_target_directory
              (mkHost bare_machine "/home/user" 1000 (fun _ => None) (fun _ => None)
                  (fun _ _ => None))
              "acme"
              (mkShell (mkWorld [] [] []) ["n"%string] ["/home/user/acme"%string]))
    as [out s'] eqn:E.
  destruct (create_target_directory_safe _ _ _ _ _ E) as (_ & _ & _ & _ & H & _).
  vm_compute in E. injection E as <- <-.
  exact (proj1 (proj2 (H 0%Z eq_refl))).
Defined.

End ShellMore.

(* ===================================================================== *)
(** * Further properties: removing the tools                              *)
(* ===================================================================== *)

Module UninstallMore.
Import PyStr Fastrec FastrecFront FastrecShell ShellFacts.
Local Open Scope list_scope.
Local Open Scope shell_scope.

Lemma lookup_without path p f :
  lookup path (without p f)
  = if String.eqb p path then None else lookup path f.
Proof.
  induction f as [|[q content] rest IH]; simpl.
  - destruct (String.eqb p path); reflexivity.
  - destruct (String.eqb q p) eqn:Q; simpl.
    + apply String.eqb_eq in Q. subst q. rewrite IH.
      destruct (String.eqb p path); reflexivity.
    + rewrite IH. destruct (String.eqb q path) eqn:R; [|reflexivity].
      apply String.eqb_eq in R. subst q. rewrite String.eqb_sym, Q. reflexivity.
Qed.

(** One turn of the loop of [uninstall_tools] goes on; the files are as
    before or without the tool, and a tool whose removal the machine does
    not refuse is no file afterwards. *)
Lemma uninstall_one_post host tool c f l i d :
  exists out f',
    uninstall_one host tool (mkShell (mkWorld c f l) i d)
    = (Done tt, mkShell (mkWorld (c ++ out) f' l) i d)
    /\ (f' = f \/ f' = without (install_path tool) f)
    /\ (remove_error host (install_path tool) = None ->
        lookup (install_path tool) f' = None).
Proof.
  unfold uninstall_one. cbv zeta.
  destruct (path_exists (install_path tool) (mkShell (mkWorld c f l) i d)) eqn:E.
  - rewrite pbind_say. unfold ptry, pbind at 1, os_remove.
    cbn [world stdin dirs console fs launched].
    destruct (remove_error host (install_path tool)) as [text|].
    + do 2 eexists. split; [unfold say, lift, print, print_end; cbn; rewrite <- app_assoc; reflexivity|].
      split; [left; reflexivity | discriminate].
    + destruct (isfile (install_path tool) _) eqn:F.
      * do 2 eexists.
        split; [unfold say, lift, print, print_end; cbn; rewrite <- app_assoc; reflexivity|].
        split; [right; reflexivity|]. intros _.
        rewrite lookup_without, String.eqb_refl. reflexivity.
      * assert (N : lookup (install_path tool) f = None).
        { unfold isfile in F. cbn [world fs] in F.
          destruct (lookup (install_path tool) f); [discriminate | reflexivity]. }
        destruct (existsb (String.eqb (install_path tool)) d);
          (do 2 eexists;
           split; [unfold say, lift, print, print_end; cbn; rewrite <- app_assoc; reflexivity|];
           split; [left; reflexivity | intros _; exact N]).
  - assert (N : lookup (install_path tool) f = None).
    { unfold path_exists, isfile in E. cbn [world fs] in E.
      destruct (lookup (install_path tool) f); [discriminate | reflexivity]. }
    do 2 eexists.
    split; [unfold say, lift, print, print_end; cbn; reflexivity|].
    split; [left; reflexivity | intros _; exact N].
Qed.

(** X15. [uninstall_tools] always leaves through [sys.exit]: with status 1
    and the files as they were when the user is not root, with status 0
    otherwise, also when a tool was absent or its removal raised.  It reads
    no input, launches nothing, makes or changes no file, and touches no
    path but those of the two tools under the install directory; as root,
    a tool whose removal the machine does not refuse is no file
    afterwards. *)
Theorem uninstall_tools_root_only (host : Host) (s : Shell) :
  exists out f',
    uninstall_tools host s
    = (Exit (if (geteuid host =? 0)%Z then 0 else 1)%Z,
       mkShell (mkWorld (console (world s) ++ out) f' (launched (world s)))
         (stdin s) (dirs s))
    /\ ((geteuid host =? 0)%Z = false -> f' = fs (world s))
    /\ (forall path,
          path <> install_path "fastrec" -> path <> install_path "subshot" ->
          lookup path f' = lookup path (fs (world s)))
    /\ (forall path content,
          lookup path f' = Some content ->
          lookup path (fs (world s)) = Some content)
    /\ (forall tool,
          (geteuid host =? 0)%Z = true ->
          In tool ["fastrec"; "subshot"]%string ->
          remove_error host (install_path tool) = None ->
          lookup (install_path tool) f' = None).
Proof.
  destruct s as [[c f l] i d]. cbn [world stdin dirs console fs launched].
  unfold uninstall_tools. rewrite !pbind_say.
  destruct (geteuid host =? 0)%Z eqn:R; cbn [negb].
  - cbn [pfor_each].
    match goal with
    | |- context [pbind _ _ (mkShell (mkWorld ?c1 _ _) _ _)] =>
        destruct (uninstall_one_post host "fastrec" c1 f l i d)
          as (o1 & f1 & E1 & K1 & G1)
    end.
    unfold pbind at 1. unfold pbind at 1. rewrite E1. cbv beta iota.
    match goal with
    | |- context [pbind _ _ (mkShell (mkWorld ?c1 _ _) _ _)] =>
        destruct (uninstall_one_post host "subshot" c1 f1 l i d)
          as (o2 & f2 & E2 & K2 & G2)
    end.
    unfold pbind at 1. rewrite E2. unfold pret. cbv beta iota. rewrite pbind_say.
    unfold sys_exit. rewrite <- !app_assoc.
    assert (L : forall path, lookup path f2 = lookup path f
                             \/ lookup path f2 = None).
    { intros path.
      destruct K2 as [-> | ->]; destruct K1 as [-> | ->];
        rewrite ?lookup_without;
        repeat match goal with
               | |- context [String.eqb ?a ?b] => destruct (String.eqb a b)
               end; auto. }
    assert (L' : forall path, path <> install_path "fastrec" ->
                   path <> install_path "subshot" ->
                   lookup path f2 = lookup path f).
    { intros path N1 N2.
      assert (B1 : String.eqb (install_path "fastrec") path = false)
        by (apply String.eqb_neq; congruence).
      assert (B2 : String.eqb (install_path "subshot") path = false)
        by (apply String.eqb_neq; congruence).
      destruct K2 as [-> | ->]; destruct K1 as [-> | ->];
        rewrite ?lookup_without, ?B1, ?B2; reflexivity. }
    eexists; exists f2.
    split; [reflexivity|]. split; [discriminate|]. split; [exact L'|].
    split.
    + intros path content H. destruct (L path) as [Q|Q]; congruence.
    + intros tool _ [<- | [<- | []]] Hr.
      * specialize (G1 Hr).
        destruct K2 as [-> | ->]; [exact G1|].
        rewrite lookup_without, G1. destruct (String.eqb _ _); reflexivity.
      * exact (G2 Hr).
  - rewrite !pbind_say. unfold sys_exit. rewrite <- !app_assoc.
    eexists; exists f. split; [reflexivity|].
    split; [reflexivity|]. split; [reflexivity|]. split; [auto|].
    intros tool [=].
Qed.

Lemma uninstall_tools_root_only_witness :
  exists out f',
    uninstall_tools
      (mkHost bare_machine "/home/user" 0 (fun _ => None) (fun _ => None)
         (fun _ _ => None))
      (mkShell (mkWorld [] [("/usr/local/bin/fastrec"%string, ["#!/usr/bin/env python3" ++ nl]%string);
                            ("/home/user/notes.txt"%string, ["kept" ++ nl]%string)] [])
         [] [])
    = (Exit 0, mkShell (mkWorld out f' []) [] [])
    /\ lookup "/usr/local/bin/fastrec" f' = None
    /\ lookup "/home/user/notes.txt" f' = Some ["kept" ++ nl]%string.
Proof.
  destruct (uninstall_tools_root_only
              (mkHost bare_machine "/home/user" 0 (fun _ => None) (fun _ => None)
                 (fun _ _ => None))
              (mkShell (mkWorld [] [("/usr/local/bin/fastrec"%string, ["#!/usr/bin/env python3" ++ nl]%string);
                                    ("/home/user/notes.txt"%string, ["kept" ++ nl]%string)] [])
                 [] []))
    as (out & f' & E & _ & Hother & _ & Hgone).
  exists out, f'. split; [exact E|]. split.
  - apply (Hgone "fastrec"%string); [reflexivity | left; reflexivity | reflexivity].
  - rewrite Hother; [reflexivity | discriminate | discriminate].
Defined.

End UninstallMore.

(* ===================================================================== *)
(** * Further properties: the start of a run                              *)
(* ===================================================================== *)

Module StartFacts.
Import PyStr PyStrFacts Fastrec FastrecFront FastrecShell ShellFacts.
Local Open Scope list_scope.
Local Open Scope shell_scope.

Lemma pbind_pret {A B : Type} (a : A) (k : A -> P B) s : pbind (pret a) k s = k a s.
Proof. reflexivity. Qed.

Lemma pbind_lift_ok {A B : Type} (m : M A) (k : A -> P B) w a w' i d :
  m w = (Ok a, w') ->
  pbind (lift m) k (mkShell w i d) = k a (mkShell w' i d).
Proof. intros E. unfold pbind, lift. cbn [world stdin dirs]. rewrite E. reflexivity. Qed.

(** An early end of [get_user_input]: the fact [Stop] of the proof below
    settles it. *)
Ltac stop text :=
  let H := fresh "H" in
  intros H;
  match goal with
  | Stop : _ |- _ =>
      refine (Stop _ _ _ text _ H _);
      [auto | rewrite <- ?app_assoc; eexists; reflexivity]
  end.

(** The state in which [get_user_input] ends, and what it has checked. *)
Lemma get_user_input_shape c f l i d out s' :
  get_user_input (mkShell (mkWorld c f l) i d) = (out, s') ->
  exists o i',
    s' = mkShell (mkWorld (c ++ o) f l) i' d
    /\ (forall n m t, out = Done (n, m, t) ->
          (m = 1%Z /\ True \/ m = 2%Z /\ exists content, lookup t f = Some content))
    /\ (forall code, out = Exit code -> code = 1%Z).
Proof.
  assert (Stop : forall c' i' (x : outcome (string * Z * string)) text,
    (x = Exit 1 \/ x = Error text) ->
    (x, mkShell (mkWorld c' f l) i' d) = (out, s') ->
    (exists o, c' = c ++ o) ->
    exists o i'0,
      s' = mkShell (mkWorld (c ++ o) f l) i'0 d
      /\ (forall n m t, out = Done (n, m, t) ->
            (m = 1%Z /\ True \/ m = 2%Z /\ exists content, lookup t f = Some content))
      /\ (forall code, out = Exit code -> code = 1%Z)).
  { intros c' i' x text Hx [= <- <-] [o ->]. exists o, i'.
    split; [reflexivity|].
    destruct Hx as [-> | ->]; split; intros; try discriminate; congruence. }
  unfold get_user_input.
  repeat shell_step.
  destruct i as [|a i]; repeat shell_step;
    [stop "EOF when reading a line"%string|].
  destruct (Subshot.truthy (strip a)); cbn [negb]; repeat shell_step;
    [|unfold sys_exit; stop EmptyString].
  destruct i as [|b i]; repeat shell_step;
    [stop "EOF when reading a line"%string|].
  destruct (String.eqb (strip b) "1" || String.eqb (strip b) "2");
    cbn [negb]; repeat shell_step;
    [|unfold sys_exit; stop EmptyString].
  destruct (String.eqb (strip b) "1"); cbn [Z.eqb Pos.eqb].
  - destruct i as [|x i]; repeat shell_step;
      [stop "EOF when reading a line"%string|].
    destruct (Subshot.truthy (strip x)); cbn [negb]; repeat shell_step;
      [|unfold sys_exit; stop EmptyString].
    unfold pret. intros [= <- <-]. rewrite <- !app_assoc.
    do 2 eexists. split; [reflexivity|].
    split; [|intros; discriminate]. intros n m t [= <- <- <-]. left. auto.
  - destruct i as [|x i]; repeat shell_step;
      [stop "EOF when reading a line"%string|].
    destruct (Subshot.truthy (strip x)); cbn [negb]; repeat shell_step;
      [|unfold sys_exit; stop EmptyString].
    destruct (isfile (strip x) _) eqn:F; cbn [negb]; repeat shell_step;
      [|unfold sys_exit; stop EmptyString].
    unfold pret. intros [= <- <-]. rewrite <- !app_assoc.
    do 2 eexists. split; [reflexivity|].
    split; [|intros; discriminate]. intros n m t [= <- <- <-]. right.
    split; [reflexivity|].
    unfold isfile in F. cbn [world fs] in F.
    destruct (lookup (strip x) f) as [content|]; [eauto | discriminate].
Qed.

(** The state in which [create_target_directory] ends. *)
Lemma create_target_directory_shape host name c f l i d out s' :
  create_target_directory host name (mkShell (mkWorld c f l) i d) = (out, s') ->
  exists o i' d',
    s' = mkShell (mkWorld (c ++ o) f l) i' d'
    /\ (forall td, out = Done td ->
          td = os_path_join (getcwd host) name /\ path_exists td s' = true)
    /\ (forall code, out = Exit code -> code = 0%Z /\ d' = d).
Proof.
  unfold create_target_directory. cbv zeta.
  destruct (path_exists (os_path_join (getcwd host) name)
              (mkShell (mkWorld c f l) i d)) eqn:E.
  - repeat shell_step.
    destruct i as [|a i]; repeat shell_step.
    { intros [= <- <-]. rewrite <- !app_assoc. do 3 eexists.
      split; [reflexivity|]. split; intros; discriminate. }
    destruct (String.eqb (lower (strip a)) "y"); cbn [negb]; repeat shell_step.
    + unfold pret. intros [= <- <-]. rewrite <- !app_assoc. do 3 eexists.
      split; [reflexivity|]. split; [|intros; discriminate].
      intros td [= <-]. split; [reflexivity|].
      unfold path_exists, isfile in *; cbn [world fs dirs] in *; exact E.
    + unfold sys_exit. intros [= <- <-]. rewrite <- !app_assoc. do 3 eexists.
      split; [reflexivity|]. split; [intros; discriminate|].
      intros code [= <-]. auto.
  - destruct (makedirs_error host (os_path_join (getcwd host) name)).
    + intros [= <- <-]. exists [], i, d. rewrite app_nil_r.
      split; [reflexivity|]. split; intros; discriminate.
    + cbn [world stdin dirs]. repeat shell_step. unfold pret.
      intros [= <- <-]. do 3 eexists.
      split; [reflexivity|]. split; [|intros; discriminate].
      intros td [= <-]. split; [reflexivity|].
      unfold path_exists. cbn [dirs].
      rewrite existsb_app. simpl. rewrite String.eqb_refl.
      rewrite !orb_true_r. reflexivity.
Qed.

End StartFacts.

Module StartMore.
Import PyStr PyStrFacts Fastrec FastrecFront FastrecShell ShellFacts StartFacts.
Import FrontMore.
Local Open Scope list_scope.
Local Open Scope shell_scope.

(** The start of [run_recon] up to and with [check_dependencies]. *)
Ltac to_dependencies f l :=
  unfold run_recon_start; rewrite pbind_say;
  destruct (is_installed (env _)); cbn [negb];
  rewrite ?pbind_pret, ?pbind_say;
  match goal with
  | |- context [pbind (lift (check_dependencies ?e)) _
                  (mkShell (mkWorld ?c1 _ _) _ _)] =>
      let o := fresh "o" in let E := fresh "E" in
      destruct (check_dependencies_run e c1 f l) as [o E];
      rewrite (pbind_lift_ok _ _ _ _ _ _ _ E); clear E
  end.

(** X16. When [shutil.which] does not find one of the ten required tools,
    [run_recon] leaves through [sys.exit(1)] before it asks anything: no
    line of input is read, no directory is made, no file changes and
    nothing is launched. *)
Theorem run_recon_start_missing_tool
    (banner instructions warning : string) (host : Host) (s : Shell)
    (tool : string) :
  In tool dependencies ->
  which (env host) tool = None ->
  exists out,
    run_recon_start banner instructions warning host s
    = (Exit 1,
       mkShell (mkWorld (console (world s) ++ out) (fs (world s))
                  (launched (world s)))
         (stdin s) (dirs s)).
Proof.
  intros Hin Hnone. destruct s as [[c f l] i d].
  cbn [world stdin dirs console fs launched].
  assert (D : forallb (fun tool => negb (not_found (env host) tool)) dependencies
              = false).
  { destruct (forallb _ dependencies) eqn:D; [|reflexivity].
    rewrite forallb_forall in D. specialize (D tool Hin).
    unfold not_found in D. rewrite Hnone in D. discriminate. }
  to_dependencies f l.
  all: rewrite D; cbn [negb]; unfold sys_exit; rewrite <- !app_assoc;
       eexists; reflexivity.
Qed.

Lemma run_recon_start_missing_tool_witness :
  exists out,
    run_recon_start "banner" "instructions" "warning"
      (mkHost bare_machine "/home/user" 1000 (fun _ => None) (fun _ => None)
         (fun _ _ => None))
      (mkShell (mkWorld [] [] []) ["acme"; "1"; "example.com"]%string [])
    = (Exit 1,
       mkShell (mkWorld out [] []) ["acme"; "1"; "example.com"]%string []).
Proof.
  apply (run_recon_start_missing_tool "banner" "instructions" "warning"
           (mkHost bare_machine "/home/user" 1000 (fun _ => None) (fun _ => None)
              (fun _ _ => None))
           (mkShell (mkWorld [] [] []) ["acme"; "1"; "example.com"]%string [])
           "httpx").
  - right. left. reflexivity.
  - reflexivity.
Defined.

Lemma isfile_after_copy td dst content c f l i d i' c' :
  path_exists td (mkShell (mkWorld c f l) i d) = true ->
  path_exists td (mkShell (mkWorld c' ((dst, content) :: f) l) i' d) = true.
Proof.
  unfold path_exists, isfile. cbn [world fs dirs lookup].
  destruct (String.eqb dst td); [reflexivity | auto].
Qed.

(** X17. The start of [run_recon] launches nothing.  When it hands over to
    the workflow, all required tools were found, the target directory is
    the join of the current directory and the name and exists, and the
    files are as before in mode 1, while in mode 2 the one change is a
    file that holds what the list file holds: [wildcards.txt] in the
    target directory, unless that is a directory itself.  When it leaves through [sys.exit], the status is 0 or 1 and no
    file has changed. *)
Theorem run_recon_start_prepared
    (banner instructions warning : string) (host : Host) (s s' : Shell)
    (out : outcome (string * Z * string * string)) :
  run_recon_start banner instructions warning host s = (out, s') ->
  launched (world s') = launched (world s)
  /\ (forall target_name mode target_input target_dir,
        out = Done (target_name, mode, target_input, target_dir) ->
        (forall tool, In tool dependencies -> which (env host) tool <> None)
        /\ target_dir = os_path_join (getcwd host) target_name
        /\ path_exists target_dir s' = true
        /\ (mode = 1%Z /\ fs (world s') = fs (world s)
            \/ mode = 2%Z
               /\ exists content dest,
                    lookup target_input (fs (world s)) = Some content
                    /\ fs (world s') = (dest, content) :: fs (world s)
                    /\ (existsb (String.eqb (os_path_join target_dir "wildcards.txt"))
                          (dirs s') = false ->
                        dest = os_path_join target_dir "wildcards.txt")))
  /\ (forall code,
        out = Exit code ->
        (code = 0%Z \/ code = 1%Z) /\ fs (world s') = fs (world s)).
Proof.
  destruct s as [[c f l] i d]. cbn [world stdin dirs console fs launched].
  to_dependencies f l.
  all: destruct (forallb _ dependencies) eqn:D; cbn [negb];
       [|unfold sys_exit; intros [= <- <-]; cbn [world fs launched];
         split; [reflexivity|]; split; [intros; discriminate|];
         intros code [= <-]; auto].
  all: assert (Found : forall tool, In tool dependencies ->
                         which (env host) tool <> None)
         by (intros tool Hin Hn; rewrite forallb_forall in D;
             specialize (D tool Hin); unfold not_found in D;
             rewrite Hn in D; discriminate).
  all: unfold pbind at 1;
       destruct (get_user_input _) as [[[[n m] t]|code|e] s2] eqn:G;
       apply get_user_input_shape in G;
       destruct G as (o1 & i1 & -> & Hd & Hx);
       [|intros [= <- <-]; cbn [world fs launched];
         split; [reflexivity|]; split; [intros; discriminate|];
         intros ? [= <-]; rewrite (Hx _ eq_refl); auto
        |intros [= <- <-]; cbn [world fs launched];
         split; [reflexivity|]; split; intros; discriminate].
  all: cbv beta iota; unfold pbind at 1;
       destruct (create_target_directory host n _) as [[td|code|e] s3] eqn:T;
       apply create_target_directory_shape in T;
       destruct T as (o2 & i2 & d2 & -> & Htd & Hc);
       [|intros [= <- <-]; cbn [world fs launched];
         split; [reflexivity|]; split; [intros; discriminate|];
         intros ? [= <-]; rewrite (proj1 (Hc _ eq_refl)); auto
        |intros [= <- <-]; cbn [world fs launched];
         split; [reflexivity|]; split; intros; discriminate].
  all: destruct (Htd _ eq_refl) as [Etd Hex];
       destruct (Hd _ _ _ eq_refl) as [[-> _] | [-> [content L]]];
       cbn [Z.eqb Pos.eqb].
  all: try (rewrite pbind_pret; unfold pret; intros [= <- <-];
            cbn [world fs launched];
            split; [reflexivity|]; split; [|intros; discriminate];
            intros ? ? ? ? [= <- <- <- <-];
            split; [exact Found|]; split; [exact Etd|]; split; [exact Hex|];
            left; auto).
  all: unfold pbind at 1; unfold pbind at 1; unfold shutil_copy;
       cbn [world stdin dirs console fs launched];
       destruct (copy_error host t _);
       [intros [= <- <-]; cbn [world fs launched];
        split; [reflexivity|]; split; intros; discriminate|];
       rewrite L; cbv beta iota zeta;
       destruct (String.eqb t (copy_target t _ _)) eqn:Same;
       [intros [= <- <-]; cbn [world fs launched];
        split; [reflexivity|]; split; intros; discriminate|];
       unfold say at 1, lift at 1, print, print_end;
       cbn [world stdin dirs console fs launched]; unfold pret;
       intros [= <- <-]; cbn [world fs launched];
       split; [reflexivity|]; split; [|intros; discriminate];
       intros ? ? ? ? [= <- <- <- <-];
       split; [exact Found|]; split; [exact Etd|];
       split; [eapply isfile_after_copy; exact Hex|];
       right; split; [reflexivity|]; exists content; eexists;
       split; [exact L|]; split; [reflexivity|];
       unfold copy_target; cbn [dirs]; intros ->; reflexivity.
Qed.

Lemma run_recon_start_prepared_witness :
  exists s',
    run_recon_start "banner" "instructions" "warning"
      (mkHost Samples.stocked_machine "/home/user" 1000 (fun _ => None)
         (fun _ => None) (fun _ _ => None))
      (mkShell (mkWorld [] [("scope.txt"%string, ["example.com" ++ nl]%string)] [])
         ["acme"; "2"; "scope.txt"]%string [])
    = (Done ("acme", 2%Z, "scope.txt", "/home/user/acme")%string, s')
    /\ fs (world s')
       = [("/home/user/acme/wildcards.txt"%string, ["example.com" ++ nl]%string);
          ("scope.txt"%string, ["example.com" ++ nl]%string)]
    /\ launched (world s') = [].
Proof.
  destruct (run_recon_start "banner" "instructions" "warning"
      (mkHost Samples.stocked_machine "/home/user" 1000 (fun _ => None)
         (fun _ => None) (fun _ _ => None))
      (mkShell (mkWorld [] [("scope.txt"%string, ["example.com" ++ nl]%string)] [])
         ["acme"; "2"; "scope.txt"]%string []))
    as [out s'] eqn:E.
  destruct (run_recon_start_prepared _ _ _ _ _ _ _ E) as (Hl & Hdone & _).
  assert (O : out = Done ("acme", 2%Z, "scope.txt", "/home/user/acme")%string).
  { vm_compute in E. injection E as <- _. reflexivity. }
  exists s'. split; [rewrite O; reflexivity|].
  destruct (Hdone _ _ _ _ O)
    as (_ & _ & Hex & [[[=] _] | [_ (content & dest & L & F & Hdest)]]).
  split; [|exact Hl].
  rewrite F. injection L as <-. rewrite Hdest; [reflexivity|].
  vm_compute in E. injection E as _ <-. reflexivity.
Defined.

End StartMore.

(* ===================================================================== *)
(** * Further properties: subshot from the command line                   *)
(* ===================================================================== *)

Module CliMore.
Import PyStr PyStrFacts Subshot CaptureFacts BatchClaims CaptureMore SubshotCli.
Local Open Scope list_scope.

(** X18. [run_cli_mode] always ends.  Without Playwright, or when the input
    file does not exist, it leaves through [sys.exit(1)] and has neither
    made the output directory nor opened a browser or written an image.
    When Playwright is there, the file exists and reads as lines, and the
    output directory can be made, it returns having opened at least N and
    at most 2N browser sessions for the N lines that are not blank: none
    for a file of blank lines.  Whenever a browser was opened, the output
    directory was made before. *)
Theorem run_cli_mode_guarded
    (browser : nat -> string -> string -> Z -> session)
    (seconds_text : Z -> string)
    (path_join : string -> string -> string)
    (machine : Machine) (filepath output : string) (timeout : Z) (r : Run) :
  exists out r' sessions,
    run_cli_mode browser seconds_text path_join machine filepath output timeout r
    = Some (out, r')
    /\ opened (world r') = opened (world r) ++ sessions
    /\ (PLAYWRIGHT_AVAILABLE machine = false
        \/ os_path_exists machine filepath = false ->
        out = Exits 1 /\ mkdirs r' = mkdirs r /\ sessions = []
        /\ disk (world r') = disk (world r))
    /\ (forall lines,
          PLAYWRIGHT_AVAILABLE machine = true ->
          os_path_exists machine filepath = true ->
          mkdir_error machine output = None ->
          read machine filepath = ReadLines lines ->
          out = Returns
          /\ (count_nonblank lines <= length sessions
              <= 2 * count_nonblank lines)%nat)
    /\ (sessions <> [] -> out = Returns /\ mkdirs r' = mkdirs r ++ [output]).
Proof.
  destruct r as [[o dk c] m].
  unfold run_cli_mode, check_playwright. cbn [world mkdirs].
  destruct (PLAYWRIGHT_AVAILABLE machine) eqn:PW; cbn [negb].
  2:{ do 2 eexists. exists []. split; [reflexivity|]. cbn [world opened disk mkdirs print print_end].
      rewrite app_nil_r. split; [reflexivity|]. split; [auto|].
      split; [intros; discriminate | intros H; contradiction]. }
  destruct (os_path_exists machine filepath) eqn:EX; cbn [negb].
  2:{ do 2 eexists. exists []. split; [reflexivity|]. cbn [world opened disk mkdirs print print_end].
      rewrite app_nil_r. split; [reflexivity|]. split; [auto|].
      split; [intros; discriminate | intros H; contradiction]. }
  destruct (mkdir_error machine output) as [text|] eqn:MK.
  { do 2 eexists. exists []. split; [reflexivity|]. cbn [world opened disk mkdirs].
    rewrite app_nil_r. split; [reflexivity|].
    split; [intros [H|H]; discriminate|].
    split; [intros; discriminate | intros H; contradiction]. }
  cbv zeta.
  destruct (read machine filepath) as [lines| |e] eqn:RD; cbn [load_list].
  2,3: do 2 eexists; exists []; (split; [reflexivity|]);
       cbn [world opened disk mkdirs print print_end]; rewrite app_nil_r;
       (split; [reflexivity|]); (split; [intros [H|H]; discriminate|]);
       (split; [intros; discriminate | intros H; contradiction]).
  destruct (length (stripped_lines lines) =? 0)%nat eqn:Z.
  - apply Nat.eqb_eq in Z.
    do 2 eexists. exists []. split; [reflexivity|].
    cbn [world opened disk mkdirs print print_end]. rewrite app_nil_r.
    split; [reflexivity|]. split; [intros [H|H]; discriminate|].
    split; [|intros H; contradiction].
    intros lines' _ _ _ [= <-]. split; [reflexivity|].
    rewrite <- stripped_lines_length, Z. simpl. lia.
  - unfold process_subdomains.
    match goal with
    | |- context [process_loop _ _ _ ?total ?i ?rest ?od ?t ?s ?f ?w] =>
        destruct (process_loop_post browser seconds_text path_join od t
                    rest total i s f w)
          as (s' & f' & w' & tries & Hloop & _ & _ & _ & Hlen & Hall & Hop)
    end.
    rewrite Hloop.
    do 2 eexists. exists (sessions_of path_join output timeout (stripped_lines lines) tries).
    split; [reflexivity|].
    cbn [world opened disk mkdirs print print_end] in *.
    split; [exact Hop|]. split; [intros [H|H]; discriminate|].
    split; [|auto].
    intros lines' _ _ _ [= <-]. split; [reflexivity|].
    rewrite <- stripped_lines_length.
    apply sessions_of_length; assumption.
Qed.

Lemma run_cli_mode_guarded_witness :
  exists r',
    run_cli_mode second_try whole_seconds_text slash_join no_playwright_machine
      "subs.txt" "shots" 30 (mkRun (mkWorld [] [] []) [])
    = Some (Exits 1, r')
    /\ mkdirs r' = [] /\ opened (world r') = [].
Proof.
  destruct (run_cli_mode_guarded second_try whole_seconds_text slash_join
              no_playwright_machine "subs.txt" "shots" 30
              (mkRun (mkWorld [] [] []) []))
    as (out & r' & sessions & E & Hop & Hstop & _).
  destruct (Hstop (or_introl eq_refl)) as (-> & Hm & -> & _).
  exists r'. split; [exact E|]. split; [exact Hm | exact Hop].
Defined.

End CliMore.
